(** * AI Fitness Coach: plan store, renderer, validator and image preparation

    A shallow embedding of [models.py], [database.py], [output_generators.py],
    [prompt_templates.py] and [utils.py], and the properties of the
    specification that are about them.

    Conventions of the embedding.
    - A Python [str] is a [string]; one [ascii] stands for one character.
      SQLite compares TEXT with its BINARY collation, which on such strings
      is [String.compare].
    - SQLite INTEGER columns and Python [int]s are [Z].
    - A table is the list of its rows in rowid order; an INSERT appends.
    - An exception is a value of [Exn]; code that can raise returns a
      [Result]. *)

From Stdlib Require Import ZArith List Sorted Permutation Lia.
From Stdlib Require String Ascii.
From stdpp Require Import base decidable option list gmap strings pretty sorting.

Local Open Scope Z_scope.

(** ** Exceptions *)

Inductive Exn : Type :=
  | OperationalError            (* sqlite3: the database cannot be used *)
  | ValidationError             (* pydantic: a field has the wrong type *)
  | FileNotFoundError (msg : string)
  | OSError                     (* open() on something that is no regular file *)
  | NotADirectoryError          (* open() below something that is no directory *)
  | OverflowError               (* sqlite3: an int that does not fit INTEGER *)
  | UnidentifiedImageError      (* PIL: the bytes are no image *)
  | ValueError (msg : string)
  | Exception (msg : string).

Inductive Result (A : Type) : Type :=
  | Ok (a : A)
  | Raise (e : Exn).
Arguments Ok {A} a.
Arguments Raise {A} e.

#[global] Instance Result_ret : MRet Result := λ A a, Ok a.
#[global] Instance Result_bind : MBind Result := λ A B k m,
  match m with
  | Ok a => k a
  | Raise e => Raise e
  end.

(** [for x in l: acc = f(acc, x)], stopping at the first exception. *)
Fixpoint foldM {A B} (f : A → B → Result A) (l : list B) (acc : A) : Result A :=
  match l with
  | [] => Ok acc
  | x :: l' => acc' ← f acc x; foldM f l' acc'
  end.

(** ** models.py *)

Record DailyMeal : Type := mkDailyMeal {
  suggestion : string;
  calories : string
}.

Record DailyPlan : Type := mkDailyPlan {
  day : string;
  titles : string;
  details : string;
  breakfast : DailyMeal;
  lunch : DailyMeal;
  dinner : DailyMeal
}.

Definition WeeklyPlan : Type := list DailyPlan.

Record RunningPlan : Type := mkRunningPlan {
  motivation : string;
  feedback : string;
  supplement_suggestion : string;
  plan : list WeeklyPlan
}.

(** The three attribute names the code iterates over:
    [for meal_type in ['breakfast', 'lunch', 'dinner']]. *)
Inductive MealType : Type := Breakfast | Lunch | Dinner.

Definition meal_types : list MealType := [Breakfast; Lunch; Dinner].

Definition meal_type_name (mt : MealType) : string :=
  match mt with
  | Breakfast => "breakfast"
  | Lunch => "lunch"
  | Dinner => "dinner"
  end.

(** [getattr(daily, meal_type)] on a validated [DailyPlan]. *)
Definition getattr_meal (d : DailyPlan) (mt : MealType) : DailyMeal :=
  match mt with
  | Breakfast => breakfast d
  | Lunch => lunch d
  | Dinner => dinner d
  end.

#[global] Instance DailyMeal_eq_dec : EqDecision DailyMeal.
Proof. solve_decision. Defined.
#[global] Instance DailyPlan_eq_dec : EqDecision DailyPlan.
Proof. solve_decision. Defined.
#[global] Instance MealType_eq_dec : EqDecision MealType.
Proof. solve_decision. Defined.

(** ** Objects as the validator sees them

    [validate_plan_structure] re-checks an object that may not have gone
    through pydantic's validation (built with [model_construct], or mutated
    after decoding): a meal attribute can be absent or [None].  The other
    attributes are typed as in [models.py], so the [hasattr] and
    [isinstance(..., list)] tests of the validator hold by typing. *)

Record DailyPlanObj : Type := mkDailyPlanObj {
  obj_day : string;
  obj_titles : string;
  obj_details : string;
  obj_breakfast : option DailyMeal;
  obj_lunch : option DailyMeal;
  obj_dinner : option DailyMeal
}.

Record RunningPlanObj : Type := mkRunningPlanObj {
  obj_motivation : string;
  obj_feedback : string;
  obj_supplement_suggestion : string;
  obj_plan : list (list DailyPlanObj)
}.

(** [getattr(day, meal_type, None)]. *)
Definition getattr_obj (d : DailyPlanObj) (mt : MealType) : option DailyMeal :=
  match mt with
  | Breakfast => obj_breakfast d
  | Lunch => obj_lunch d
  | Dinner => obj_dinner d
  end.

Definition obj_of_day (d : DailyPlan) : DailyPlanObj :=
  {| obj_day := day d; obj_titles := titles d; obj_details := details d;
     obj_breakfast := Some (breakfast d); obj_lunch := Some (lunch d);
     obj_dinner := Some (dinner d) |}.

Definition obj_of_plan (p : RunningPlan) : RunningPlanObj :=
  {| obj_motivation := motivation p; obj_feedback := feedback p;
     obj_supplement_suggestion := supplement_suggestion p;
     obj_plan := map (map obj_of_day) (plan p) |}.

(** ** output_generators.py: validate_plan_structure *)

(** [if not meal or not hasattr(meal, 'suggestion') or
    not hasattr(meal, 'calories'): return False].  A [DailyMeal] instance
    is truthy and has both attributes. *)
Definition meal_invalid (meal : option DailyMeal) : bool :=
  match meal with
  | None => true
  | Some _ => false
  end.

(** The body of [for day_idx, day in enumerate(week)]: [true] when no
    [return False] is taken. *)
Definition day_passes (d : DailyPlanObj) : bool :=
  forallb (λ mt, negb (meal_invalid (getattr_obj d mt))) meal_types.

(** The body of [for week_idx, week in enumerate(plan.plan, 1)]. *)
Definition week_passes (week : list DailyPlanObj) : bool :=
  if (length week =? 0)%nat then false else forallb day_passes week.

Definition validate_plan_structure (p : RunningPlanObj) : bool :=
  if (length (obj_plan p) =? 0)%nat then false
  else forallb week_passes (obj_plan p).

(** ** prompt_templates.py: validate_plan_structure *)

Module PromptTemplates.

(** [if not isinstance(meal, DailyMeal): return False]. *)
Definition isinstance_DailyMeal (meal : option DailyMeal) : bool :=
  match meal with
  | Some _ => true
  | None => false
  end.

Definition day_passes (d : DailyPlanObj) : bool :=
  forallb (λ mt, isinstance_DailyMeal (getattr_obj d mt)) meal_types.

Definition week_passes (week : list DailyPlanObj) : bool :=
  if (length week =? 0)%nat then false else forallb day_passes week.

Definition validate_plan_structure (p : RunningPlanObj) : bool :=
  if (length (obj_plan p) =? 0)%nat then false
  else forallb week_passes (obj_plan p).

End PromptTemplates.

(** The invariants of the data model: a non-empty week sequence, non-empty
    weeks, and the three meals on every day. *)
Definition plan_invariants (p : RunningPlanObj) : Prop :=
  obj_plan p ≠ [] ∧
  (∀ week, week ∈ obj_plan p → week ≠ []) ∧
  (∀ week d mt, week ∈ obj_plan p → d ∈ week → is_Some (getattr_obj d mt)).

(** ** database.py: the store

    The three tables of [create_database_schema], each with the counter
    SQLite keeps in [sqlite_sequence] for an AUTOINCREMENT key (the largest
    rowid the table has ever held). *)

Record running_plan_row : Type := mk_running_plan_row {
  rp_id : Z;
  rp_motivation : string;
  rp_feedback : string;
  rp_supplement_suggestion : string;
  rp_created_at : string
}.

Record daily_plan_row : Type := mk_daily_plan_row {
  dp_id : Z;
  dp_running_plan_id : Z;
  dp_day : string;
  dp_titles : string;
  dp_details : string;
  dp_week_number : Z
}.

Record daily_meal_row : Type := mk_daily_meal_row {
  dm_id : Z;
  dm_daily_plan_id : Z;
  dm_meal_type : string;
  dm_suggestion : string;
  dm_calories : string
}.

Record DB : Type := mkDB {
  running_plan : list running_plan_row;
  daily_plan : list daily_plan_row;
  daily_meal : list daily_meal_row;
  seq_running_plan : Z;
  seq_daily_plan : Z;
  seq_daily_meal : Z
}.

(** What the default [db_path], ["instance/flaskr.sqlite"], points at: a
    path that cannot be made into a database (the file is no database, or
    neither it nor its directory can be written), a place where a database
    can be made but none with the tables is yet (the file or its directory
    is missing, or the file is empty), or a database with the tables. *)
Inductive Store : Type :=
  | Unusable
  | Fresh
  | Ready (db : DB).

Definition empty_db : DB :=
  {| running_plan := []; daily_plan := []; daily_meal := [];
     seq_running_plan := 0; seq_daily_plan := 0; seq_daily_meal := 0 |}.

(** [sqlite3.connect(db_path)] followed by a statement on the tables. *)
Definition connect (st : Store) : Result DB :=
  match st with
  | Ready db => Ok db
  | Fresh | Unusable => Raise OperationalError
  end.

(** What the sqlite3 module does with an [int] bound to a [?]: an INTEGER
    of SQLite is a signed 64-bit number, and an [int] outside it raises
    [OverflowError] before the statement runs. *)
Definition sqlite_integer (n : Z) : bool :=
  (- 2 ^ 63 <=? n) && (n <? 2 ^ 63).

Definition bind_integer (n : Z) : Result () :=
  if sqlite_integer n then Ok () else Raise OverflowError.

(** [os.makedirs] of the directory, then [CREATE TABLE IF NOT EXISTS]
    three times. *)
Definition create_database_schema (st : Store) : bool * Store :=
  match st with
  | Unusable => (false, Unusable)
  | Fresh => (true, Ready empty_db)
  | Ready db => (true, Ready db)
  end.

(** A cursor: the connection's view of the database and [cur.lastrowid]. *)
Record Cursor : Type := mkCursor {
  cur_db : DB;
  lastrowid : Z
}.

Definition insert_running_plan (m f s now : string) (cur : Cursor) : Cursor :=
  let db := cur_db cur in
  let id := seq_running_plan db + 1 in
  {| cur_db := {| running_plan := running_plan db ++
                    [mk_running_plan_row id m f s now];
                  daily_plan := daily_plan db;
                  daily_meal := daily_meal db;
                  seq_running_plan := id;
                  seq_daily_plan := seq_daily_plan db;
                  seq_daily_meal := seq_daily_meal db |};
     lastrowid := id |}.

Definition insert_daily_plan (running_plan_id : Z) (d t dt : string)
    (week_num : Z) (cur : Cursor) : Cursor :=
  let db := cur_db cur in
  let id := seq_daily_plan db + 1 in
  {| cur_db := {| running_plan := running_plan db;
                  daily_plan := daily_plan db ++
                    [mk_daily_plan_row id running_plan_id d t dt week_num];
                  daily_meal := daily_meal db;
                  seq_running_plan := seq_running_plan db;
                  seq_daily_plan := id;
                  seq_daily_meal := seq_daily_meal db |};
     lastrowid := id |}.

Definition insert_daily_meal (daily_plan_id : Z) (meal_type s c : string)
    (cur : Cursor) : Cursor :=
  let db := cur_db cur in
  let id := seq_daily_meal db + 1 in
  {| cur_db := {| running_plan := running_plan db;
                  daily_plan := daily_plan db;
                  daily_meal := daily_meal db ++
                    [mk_daily_meal_row id daily_plan_id meal_type s c];
                  seq_running_plan := seq_running_plan db;
                  seq_daily_plan := seq_daily_plan db;
                  seq_daily_meal := id |};
     lastrowid := id |}.

(** [enumerate(l, start)]. *)
Fixpoint enumerate {A} (start : Z) (l : list A) : list (Z * A) :=
  match l with
  | [] => []
  | x :: l' => (start, x) :: enumerate (start + 1) l'
  end.

(** ** save_plan_to_db *)

(** The body of [for daily in weekly_schedule]. *)
Definition save_daily (running_plan_id week_num : Z) (cur : Cursor)
    (daily : DailyPlan) : Cursor :=
  let cur1 := insert_daily_plan running_plan_id (day daily) (titles daily)
                (details daily) week_num cur in
  let daily_plan_id := lastrowid cur1 in
  fold_left
    (λ c meal_type,
       let meal := getattr_meal daily meal_type in
       insert_daily_meal daily_plan_id (meal_type_name meal_type)
         (suggestion meal) (calories meal) c)
    meal_types cur1.

(** The body of [for week_num, weekly_schedule in enumerate(plan.plan, 1)]. *)
Definition save_weekly (running_plan_id : Z) (cur : Cursor)
    (w : Z * WeeklyPlan) : Cursor :=
  fold_left (save_daily running_plan_id (fst w)) (snd w) cur.

(** The statements between [connect] and [commit]; [now] is the value of
    CURRENT_TIMESTAMP the INSERT into [running_plan] sees. *)
Definition save_plan (now : string) (p : RunningPlan) (db : DB) : Z * DB :=
  let cur := {| cur_db := db; lastrowid := 0 |} in
  let cur1 := insert_running_plan (motivation p) (feedback p)
                (supplement_suggestion p) now cur in
  let running_plan_id := lastrowid cur1 in
  let cur2 := fold_left (save_weekly running_plan_id)
                (enumerate 1 (plan p)) cur1 in
  (running_plan_id, cur_db cur2).

(** The whole function: the id and the committed database, or [None] and
    the database as it was when an exception is caught before [commit]. *)
Definition save_plan_to_db (now : string) (p : RunningPlan) (st : Store)
    : option Z * Store :=
  match db ← connect st; mret (save_plan now p db) with
  | Ok (id, db') => (Some id, Ready db')
  | Raise _ => (None, st)
  end.

(** ** load_plan_from_db *)

(** [SELECT motivation, feedback, supplement_suggestion FROM running_plan
    WHERE id = ?] and [fetchone()]. *)
Definition select_running_plan (plan_id : Z) (db : DB)
    : option (string * string * string) :=
  match filter (λ r, rp_id r = plan_id) (running_plan db) with
  | [] => None
  | r :: _ => Some (rp_motivation r, rp_feedback r, rp_supplement_suggestion r)
  end.

(** A row of the second SELECT: four columns of [daily_plan] and two columns
    of each joined [daily_meal], NULL where the LEFT JOIN found none. *)
Record joined_row : Type := mk_joined_row {
  jr_day : string;
  jr_titles : string;
  jr_details : string;
  jr_week_number : Z;
  jr_breakfast_suggestion : option string;
  jr_breakfast_calories : option string;
  jr_lunch_suggestion : option string;
  jr_lunch_calories : option string;
  jr_dinner_suggestion : option string;
  jr_dinner_calories : option string
}.

(** [LEFT JOIN daily_meal dm ON dp.id = dm.daily_plan_id AND
    dm.meal_type = meal_type]: every matching meal row, or one NULL row. *)
Definition left_join (dp : daily_plan_row) (meal_type : string)
    (meals : list daily_meal_row) : list (option daily_meal_row) :=
  match filter (λ dm, dm_daily_plan_id dm = dp_id dp ∧
                      dm_meal_type dm = meal_type) meals with
  | [] => [None]
  | ms => Some <$> ms
  end.

Definition joined (plan_id : Z) (db : DB) : list joined_row :=
  dp ← filter (λ dp, dp_running_plan_id dp = plan_id) (daily_plan db);
  dm1 ← left_join dp "breakfast" (daily_meal db);
  dm2 ← left_join dp "lunch" (daily_meal db);
  dm3 ← left_join dp "dinner" (daily_meal db);
  [ {| jr_day := dp_day dp; jr_titles := dp_titles dp;
       jr_details := dp_details dp; jr_week_number := dp_week_number dp;
       jr_breakfast_suggestion := dm_suggestion <$> dm1;
       jr_breakfast_calories := dm_calories <$> dm1;
       jr_lunch_suggestion := dm_suggestion <$> dm2;
       jr_lunch_calories := dm_calories <$> dm2;
       jr_dinner_suggestion := dm_suggestion <$> dm3;
       jr_dinner_calories := dm_calories <$> dm3 |} ].

(** Two TEXT values are compared with [String.le], the order of
    [String.compare]. *)

(** [ORDER BY dp.week_number, dp.day]. *)
Definition order_by_week_day (r1 r2 : joined_row) : Prop :=
  jr_week_number r1 < jr_week_number r2 ∨
  (jr_week_number r1 = jr_week_number r2 ∧ String.le (jr_day r1) (jr_day r2)).

#[global] Instance order_by_week_day_dec : RelDecision order_by_week_day.
Proof. intros a b. unfold order_by_week_day. apply _. Defined.

(** The second SELECT with its [fetchall()].  SQLite leaves the order of
    rows that agree on both keys open, and the order [merge_sort] gives them
    need not be the one SQLite returns. *)
Definition select_daily_plans (plan_id : Z) (db : DB) : list joined_row :=
  merge_sort order_by_week_day (joined plan_id db).

(** [DailyMeal(suggestion=..., calories=...)]: pydantic refuses [None]. *)
Definition new_DailyMeal (s c : option string) : Result DailyMeal :=
  match s, c with
  | Some s, Some c => Ok {| suggestion := s; calories := c |}
  | _, _ => Raise ValidationError
  end.

Definition new_DailyPlan (row : joined_row) : Result DailyPlan :=
  b ← new_DailyMeal (jr_breakfast_suggestion row) (jr_breakfast_calories row);
  l ← new_DailyMeal (jr_lunch_suggestion row) (jr_lunch_calories row);
  d ← new_DailyMeal (jr_dinner_suggestion row) (jr_dinner_calories row);
  mret {| day := jr_day row; titles := jr_titles row;
          details := jr_details row;
          breakfast := b; lunch := l; dinner := d |}.

(** The body of [for row in daily_data] on the dict [weeks]. *)
Definition add_row (weeks : gmap Z (list DailyPlan)) (row : joined_row)
    : Result (gmap Z (list DailyPlan)) :=
  let week_num := jr_week_number row in
  let weeks1 :=
    match weeks !! week_num with
    | None => <[week_num := []]> weeks
    | Some _ => weeks
    end in
  daily_plan ← new_DailyPlan row;
  mret (<[week_num := default [] (weeks1 !! week_num) ++ [daily_plan]]> weeks1).

(** [[weeks[week_num] for week_num in sorted(weeks.keys())]]. *)
Definition plan_weeks (weeks : gmap Z (list DailyPlan)) : list WeeklyPlan :=
  (λ week_num, default [] (weeks !! week_num)) <$>
    merge_sort Z.le (elements (dom weeks)).

(** The statements after [connect], for a [plan_id] that SQLite can hold
    (as every stored id is; see [bind_integer] for the others): [Ok None]
    is the not-found return. *)
Definition load_plan (plan_id : Z) (db : DB) : Result (option RunningPlan) :=
  match select_running_plan plan_id db with
  | None => Ok None
  | Some (m, f, s) =>
      weeks ← foldM add_row (select_daily_plans plan_id db) ∅;
      mret (Some {| motivation := m; feedback := f;
                    supplement_suggestion := s;
                    plan := plan_weeks weeks |})
  end.

Definition load_plan_from_db (plan_id : Z) (st : Store) : option RunningPlan :=
  match db ← connect st; load_plan plan_id db with
  | Ok r => r
  | Raise _ => None
  end.

(** ** list_all_plans *)

Record PlanSummary : Type := mkPlanSummary {
  summary_id : Z;
  summary_motivation : string;
  summary_created_at : string
}.

(** [ORDER BY created_at DESC]. *)
Definition order_by_created_at_desc (r1 r2 : running_plan_row) : Prop :=
  String.le (rp_created_at r2) (rp_created_at r1).

#[global] Instance order_by_created_at_desc_dec :
  RelDecision order_by_created_at_desc.
Proof. intros a b. unfold order_by_created_at_desc. apply _. Defined.

(** [m[:50] + "..." if len(m) > 50 else m]. *)
Definition truncate_motivation (m : string) : string :=
  if (50 <? String.length m)%nat
  then String.substring 0 50 m +:+ "..."
  else m.

Definition summarize (r : running_plan_row) : PlanSummary :=
  {| summary_id := rp_id r;
     summary_motivation := truncate_motivation (rp_motivation r);
     summary_created_at := rp_created_at r |}.

Definition list_all_plans (st : Store) : list PlanSummary :=
  match connect st with
  | Ok db => summarize <$> merge_sort order_by_created_at_desc (running_plan db)
  | Raise _ => []
  end.

(** ** delete_plan *)

(** [SELECT id FROM daily_plan WHERE running_plan_id = ?]. *)
Definition daily_plan_ids (plan_id : Z) (db : DB) : list Z :=
  dp_id <$> filter (λ dp, dp_running_plan_id dp = plan_id) (daily_plan db).

(** [DELETE FROM daily_meal WHERE daily_plan_id IN (...)]. *)
Definition delete_daily_meals (plan_id : Z) (db : DB) : DB :=
  {| running_plan := running_plan db;
     daily_plan := daily_plan db;
     daily_meal := filter (λ dm, dm_daily_plan_id dm ∉ daily_plan_ids plan_id db)
                     (daily_meal db);
     seq_running_plan := seq_running_plan db;
     seq_daily_plan := seq_daily_plan db;
     seq_daily_meal := seq_daily_meal db |}.

(** [DELETE FROM daily_plan WHERE running_plan_id = ?]. *)
Definition delete_daily_plans (plan_id : Z) (db : DB) : DB :=
  {| running_plan := running_plan db;
     daily_plan := filter (λ dp, dp_running_plan_id dp ≠ plan_id) (daily_plan db);
     daily_meal := daily_meal db;
     seq_running_plan := seq_running_plan db;
     seq_daily_plan := seq_daily_plan db;
     seq_daily_meal := seq_daily_meal db |}.

(** [DELETE FROM running_plan WHERE id = ?]. *)
Definition delete_running_plan (plan_id : Z) (db : DB) : DB :=
  {| running_plan := filter (λ r, rp_id r ≠ plan_id) (running_plan db);
     daily_plan := daily_plan db;
     daily_meal := daily_meal db;
     seq_running_plan := seq_running_plan db;
     seq_daily_plan := seq_daily_plan db;
     seq_daily_meal := seq_daily_meal db |}.

Definition delete_plan (plan_id : Z) (st : Store) : bool * Store :=
  match db ← connect st; _ ← bind_integer plan_id; mret db with
  | Ok db =>
      let db1 := delete_daily_meals plan_id db in
      let db2 := delete_daily_plans plan_id db1 in
      let db3 := delete_running_plan plan_id db2 in
      (true, Ready db3)
  | Raise _ => (false, st)
  end.

(** ** output_generators.py: generate_html_training_plan *)

(** The characters a string literal of this file cannot hold. *)
Definition dq : string := String (Ascii.ascii_of_nat 34) EmptyString.
Definition nl : string := String (Ascii.ascii_of_nat 10) EmptyString.

(** The concatenation of the pieces of an f-string. *)
Definition fstring (pieces : list string) : string :=
  foldr String.append EmptyString pieces.

Definition html_head : string :=
  fstring [nl;
    "<!DOCTYPE html>"; nl;
    "<html lang="; dq; "en"; dq; ">"; nl;
    "<head>"; nl;
    "<meta charset="; dq; "UTF-8"; dq; ">"; nl;
    "<title>Your Running Plan</title>"; nl;
    "<link rel="; dq; "stylesheet"; dq; " href="; dq; "style.css"; dq; ">"; nl;
    "</head>"; nl].

Definition html_header (p : RunningPlan) : string :=
  fstring [nl;
    "<body>"; nl;
    "<header class="; dq; "plan-header"; dq; ">"; nl;
    "    <h1>"; motivation p; "</h1>"; nl;
    "    <p class="; dq; "plan-feedback"; dq; ">"; feedback p; "</p>"; nl;
    "    <p class="; dq; "plan-supplements"; dq; ">";
      supplement_suggestion p; "</p>"; nl;
    "</header>"; nl].

Definition html_meal (label : string) (m : DailyMeal) : string :=
  fstring ["                <li><strong>"; label; ":</strong> ";
    suggestion m; " - ("; calories m; " kcal)</li>"; nl].

Definition html_day (d : DailyPlan) : string :=
  fstring [
    "      <div class="; dq; "day"; dq; ">"; nl;
    "            <div class="; dq; "day-title"; dq; ">";
      day d; " - "; titles d; "</div>"; nl;
    "            <div class="; dq; "details"; dq; ">"; details d; "</div>"; nl;
    "            <div class="; dq; "meal_plan"; dq; ">"; nl;
    "            <h4>Nutrition Plan</h4>"; nl;
    "            <ul>"; nl;
    html_meal "Breakfast" (breakfast d);
    html_meal "Lunch" (lunch d);
    html_meal "Dinner" (dinner d);
    "            </ul>"; nl;
    "            </div>"; nl;
    "        </div>"; nl;
    "    "].

(** The body of [for week_idx, weekly in enumerate(plan.plan, start=1)].
    The source writes the line ends of these three pieces as a backslash
    followed by [n]. *)
Definition html_week (html : string) (w : Z * WeeklyPlan) : string :=
  let html1 := html +:+ fstring ["    <div class="; dq; "week"; dq; ">\n"] in
  let html2 := html1 +:+ fstring ["      <h2>Week "; pretty (fst w); "</h2>\n"] in
  let html3 := fold_left (λ h d, h +:+ html_day d) (snd w) html2 in
  html3 +:+ "    </div>\n".

Definition html_close : string :=
  fstring ["  </div>"; nl; "</body>"; nl; "</html>"; nl].

(** Formatting a [str] field cannot raise, so the [except] branch with its
    error page is never taken on a [RunningPlan]. *)
Definition generate_html_training_plan (p : RunningPlan) : string :=
  let html := html_head in
  let html := html +:+ html_header p in
  let html := html +:+ fstring ["<div class="; dq; "week-grid"; dq; ">"] in
  let html := fold_left html_week (enumerate 1 (plan p)) html in
  html +:+ html_close.

(** [s] occurs in [t], character for character. *)
Definition occurs_in (s t : string) : Prop :=
  ∃ before after, t = before +:+ s +:+ after.

(** ** utils.py: image preparation

    The file system and PIL are outside the repository: the functions are
    stated over any file system [fs] and any image decoder, given by what
    [Image.open] identifies ([pil_open]) and whether [verify()] accepts the
    bytes ([pil_verify]). *)

Inductive FsEntry : Type :=
  | Directory
  | RegularFile (content : string).

Record Image : Type := mkImage {
  img_size : Z * Z;
  img_format : string;
  img_mode : string
}.

Inductive ImageInfo : Type :=
  | Info (size : Z * Z) (format mode : string) (file_size : Z)
  | InfoError (msg : string).

Record Prepared : Type := mkPrepared {
  base64_image : string;
  image_info : ImageInfo;
  data_url : string
}.

(** [try: body except Exception as e: handler(e)]. *)
Definition try_except {A} (body : Result A) (handler : Exn → Result A)
    : Result A :=
  match body with
  | Ok a => Ok a
  | Raise e => handler e
  end.

(** [str(e)]: the text of the error, without the errno and the file name
    that the interpreter and the libraries put around it. *)
Definition str_of_exn (e : Exn) : string :=
  match e with
  | OperationalError => "unable to open database file"
  | ValidationError => "validation error"
  | FileNotFoundError msg => msg
  | OSError => "Is a directory"
  | NotADirectoryError => "Not a directory"
  | OverflowError => "Python int too large to convert to SQLite INTEGER"
  | UnidentifiedImageError => "cannot identify image file"
  | ValueError msg => msg
  | Exception msg => msg
  end.

(** [base64.b64encode]. *)
Definition b64_alphabet : string :=
  "ABCDEFGHIJKLMNOPQRSTUVWXYZabcdefghijklmnopqrstuvwxyz0123456789+/".

Definition b64_char (n : N) : string :=
  match String.get (N.to_nat n) b64_alphabet with
  | Some c => String c EmptyString
  | None => EmptyString
  end.

Definition sextet (n : N) (k : N) : N := N.land (N.shiftr n (6 * k)) 63.

Fixpoint b64encode (s : string) : string :=
  match s with
  | EmptyString => EmptyString
  | String a EmptyString =>
      let n := N.shiftl (Ascii.N_of_ascii a) 16 in
      fstring [b64_char (sextet n 3); b64_char (sextet n 2); "=="]
  | String a (String b EmptyString) =>
      let n := N.lor (N.shiftl (Ascii.N_of_ascii a) 16)
                     (N.shiftl (Ascii.N_of_ascii b) 8) in
      fstring [b64_char (sextet n 3); b64_char (sextet n 2);
               b64_char (sextet n 1); "="]
  | String a (String b (String c rest)) =>
      let n := N.lor (N.lor (N.shiftl (Ascii.N_of_ascii a) 16)
                            (N.shiftl (Ascii.N_of_ascii b) 8))
                     (Ascii.N_of_ascii c) in
      fstring [b64_char (sextet n 3); b64_char (sextet n 2);
               b64_char (sextet n 1); b64_char (sextet n 0)]
        +:+ b64encode rest
  end.

(** The paths a path lies below: what stands before each ["/"] of it, the
    empty string apart.  [prefix] is what was read already. *)
Fixpoint parents (prefix path : string) : list string :=
  match path with
  | EmptyString => []
  | String c path' =>
      match prefix with
      | String _ _ =>
          if String.eqb (String c EmptyString) "/" then [prefix] else []
      | EmptyString => []
      end ++ parents (prefix +:+ String c EmptyString) path'
  end.

Section ImagePreparation.

Variable fs : string → option FsEntry.
Variable pil_open : string → option Image.
Variable pil_verify : string → bool.

Definition os_path_exists (path : string) : bool :=
  match fs path with
  | Some _ => true
  | None => false
  end.

(** Some path that [path] lies below is a regular file. *)
Definition below_regular_file (path : string) : bool :=
  existsb (λ parent, match fs parent with
                     | Some (RegularFile _) => true
                     | _ => false
                     end) (parents EmptyString path).

(** [open(path, "rb").read()]. *)
Definition read_bytes (path : string) : Result string :=
  match fs path with
  | None =>
      if below_regular_file path then Raise NotADirectoryError
      else Raise (FileNotFoundError "No such file or directory")
  | Some Directory => Raise OSError
  | Some (RegularFile content) => Ok content
  end.

(** [Image.open(path)]. *)
Definition Image_open (path : string) : Result (Image * string) :=
  content ← read_bytes path;
  match pil_open content with
  | Some img => Ok (img, content)
  | None => Raise UnidentifiedImageError
  end.

(** [img.verify()]. *)
Definition Image_verify (img : Image * string) : Result () :=
  if pil_verify (snd img) then Ok () else Raise (Exception "broken image").

Definition encode_image (image_path : string) : Result string :=
  try_except
    (content ← read_bytes image_path; mret (b64encode content))
    (λ e, match e with
          | FileNotFoundError _ =>
              Raise (FileNotFoundError ("Image file not found: " +:+ image_path))
          | _ => Raise (Exception ("Failed to encode image: " +:+ str_of_exn e))
          end).

Definition validate_image (image_path : string) : Result bool :=
  try_except
    (if negb (os_path_exists image_path) then Ok false
     else img ← Image_open image_path;
          _ ← Image_verify img;
          Ok true)
    (λ _, Ok false).

Definition get_image_info (image_path : string) : Result ImageInfo :=
  try_except
    (img ← Image_open image_path;
     mret (Info (img_size (fst img)) (img_format (fst img))
             (img_mode (fst img)) (Z.of_nat (String.length (snd img)))))
    (λ e, Ok (InfoError (str_of_exn e))).

Definition prepare_image_for_analysis (image_path : string)
    : Result Prepared :=
  valid ← validate_image image_path;
  if negb valid
  then Raise (ValueError ("Invalid or unreadable image: " +:+ image_path))
  else
    img_info ← get_image_info image_path;
    base64_image ← encode_image image_path;
    mret {| base64_image := base64_image;
            image_info := img_info;
            data_url := "data:image/jpeg;base64," +:+ base64_image |}.

(** The file at [path] exists and its bytes decode as an image. *)
Definition decodable (path : string) : Prop :=
  ∃ content img, fs path = Some (RegularFile content) ∧
    pil_open content = Some img ∧ pil_verify content = true.

End ImagePreparation.

(** ** Notions used to state the properties of the store *)

(** A database as the code leaves it: every key it has issued, and every
    reference to one, is below the counter of the referenced table.  The
    schema declares the keys AUTOINCREMENT and the references FOREIGN KEY;
    [create_database_schema], [save_plan_to_db] and [delete_plan] keep the
    property. *)
Definition db_wf (db : DB) : Prop :=
  Forall (λ r, rp_id r ≤ seq_running_plan db) (running_plan db) ∧
  Forall (λ dp, dp_id dp ≤ seq_daily_plan db ∧
                dp_running_plan_id dp ≤ seq_running_plan db) (daily_plan db) ∧
  Forall (λ dm, dm_daily_plan_id dm ≤ seq_daily_plan db) (daily_meal db).

(** The databases the three writing operations can produce, starting from
    the empty schema. *)
Inductive reachable : DB → Prop :=
  | reachable_empty : reachable empty_db
  | reachable_save now p db :
      reachable db → reachable (snd (save_plan now p db))
  | reachable_delete plan_id db :
      reachable db →
      reachable (delete_running_plan plan_id
                   (delete_daily_plans plan_id (delete_daily_meals plan_id db))).

(** The joined row of a day stored with all three meals. *)
Definition row_of_daily (week_num : Z) (d : DailyPlan) : joined_row :=
  {| jr_day := day d; jr_titles := titles d; jr_details := details d;
     jr_week_number := week_num;
     jr_breakfast_suggestion := Some (suggestion (breakfast d));
     jr_breakfast_calories := Some (calories (breakfast d));
     jr_lunch_suggestion := Some (suggestion (lunch d));
     jr_lunch_calories := Some (calories (lunch d));
     jr_dinner_suggestion := Some (suggestion (dinner d));
     jr_dinner_calories := Some (calories (dinner d)) |}.

(** The joined rows of a list of weeks numbered from [start], in the order
    [save_plan_to_db] inserts them. *)
Fixpoint plan_rows (start : Z) (weeks : list WeeklyPlan) : list joined_row :=
  match weeks with
  | [] => []
  | week :: weeks' =>
      (row_of_daily start <$> week) ++ plan_rows (start + 1) weeks'
  end.

(** The day a joined row stands for, when it has all its meal columns. *)
Definition daily_of_row (row : joined_row) : option DailyPlan :=
  match new_DailyPlan row with
  | Ok d => Some d
  | Raise _ => None
  end.

(** What one turn of the loop of [load_plan_from_db] does to [weeks] when
    the day can be built. *)
Definition add_daily (weeks : gmap Z (list DailyPlan)) (row : joined_row)
    (d : DailyPlan) : gmap Z (list DailyPlan) :=
  <[jr_week_number row := default [] (weeks !! jr_week_number row) ++ [d]]> weeks.

(** The days of week [w] among sorted joined rows. *)
Definition days_of_week (rows : list joined_row) (w : Z) : list DailyPlan :=
  omap daily_of_row (filter (λ row, jr_week_number row = w) rows).

(** ** Sample data *)

Module Samples.

Definition porridge : DailyMeal := {| suggestion := "Porridge"; calories := "350" |}.
Definition salad : DailyMeal := {| suggestion := "Chicken salad"; calories := "520" |}.
Definition pasta : DailyMeal := {| suggestion := "Pasta & beans"; calories := "700" |}.

Definition monday : DailyPlan :=
  {| day := "Monday"; titles := "Easy run"; details := "5 km at <6:00/km & stretch";
     breakfast := porridge; lunch := salad; dinner := pasta |}.
Definition wednesday : DailyPlan :=
  {| day := "Wednesday"; titles := "Intervals"; details := "6 x 400 m";
     breakfast := porridge; lunch := salad; dinner := pasta |}.
Definition friday : DailyPlan :=
  {| day := "Friday"; titles := "Long run"; details := "10 km";
     breakfast := porridge; lunch := salad; dinner := pasta |}.

(** Two weeks, the days in calendar order. *)
Definition two_weeks : RunningPlan :=
  {| motivation := "You can do it";
     feedback := "Resting heart rate is fine";
     supplement_suggestion := "Magnesium";
     plan := [[monday; wednesday; friday]; [monday; friday]] |}.

(** The same plan with the days of each week in the order of their
    labels. *)
Definition two_weeks_by_label : RunningPlan :=
  {| motivation := "You can do it";
     feedback := "Resting heart rate is fine";
     supplement_suggestion := "Magnesium";
     plan := [[friday; monday; wednesday]; [friday; monday]] |}.

(** A plan without any week: pydantic accepts the empty list. *)
Definition no_weeks : RunningPlan :=
  {| motivation := "Soon"; feedback := "-"; supplement_suggestion := "-";
     plan := [] |}.

Definition long_motivation : RunningPlan :=
  {| motivation := "Every kilometre you run this month makes the next one easier";
     feedback := "-"; supplement_suggestion := "-";
     plan := [[friday]] |}.

(** The store after the schema was created and three plans were saved. *)
Definition store0 : Store := snd (create_database_schema Fresh).
Definition store1 : Store :=
  snd (save_plan_to_db "2026-11-01 08:00:00" two_weeks store0).
Definition store2 : Store :=
  snd (save_plan_to_db "2026-11-02 09:30:00" no_weeks store1).
Definition store3 : Store :=
  snd (save_plan_to_db "2026-11-03 07:15:00" long_motivation store2).

Definition db_of (st : Store) : DB :=
  match st with
  | Ready db => db
  | _ => empty_db
  end.

(** Objects the validator has to refuse. *)
Definition day_without_lunch : DailyPlanObj :=
  {| obj_day := "Monday"; obj_titles := "Easy run"; obj_details := "5 km";
     obj_breakfast := Some porridge; obj_lunch := None;
     obj_dinner := Some pasta |}.
Definition obj_without_lunch : RunningPlanObj :=
  {| obj_motivation := "m"; obj_feedback := "f";
     obj_supplement_suggestion := "s";
     obj_plan := [[obj_of_day monday]; [day_without_lunch]] |}.
Definition obj_with_empty_week : RunningPlanObj :=
  {| obj_motivation := "m"; obj_feedback := "f";
     obj_supplement_suggestion := "s";
     obj_plan := [[obj_of_day monday]; []] |}.

(** A file system with one image, one text file and one directory, and a
    decoder that knows a single four-byte format. *)
Definition sample_fs (path : string) : option FsEntry :=
  if decide (path = "watch.png") then Some (RegularFile "IMG!abc")
  else if decide (path = "notes.txt") then Some (RegularFile "hello")
  else if decide (path = "photos") then Some Directory
  else None.
Definition sample_pil_open (content : string) : option Image :=
  if decide (String.substring 0 4 content = "IMG!")
  then Some {| img_size := (2, 2); img_format := "PNG"; img_mode := "RGB" |}
  else None.
Definition sample_pil_verify (content : string) : bool :=
  bool_decide (String.substring 0 4 content = "IMG!").

End Samples.

(** ** database.py: what the store keeps

    The three DELETEs of [delete_plan] as one step on the tables. *)
Definition delete_plan_rows (plan_id : Z) (db : DB) : DB :=
  delete_running_plan plan_id
    (delete_daily_plans plan_id (delete_daily_meals plan_id db)).

(** The constraints the schema declares, none of which SQLite enforces for
    the code (foreign keys are off by default): in each of the three tables
    the keys are positive, not above the table's counter and unique, and
    every reference names an existing row. *)
Definition db_sound (db : DB) : Prop :=
  (0 ≤ seq_running_plan db ∧ 0 ≤ seq_daily_plan db ∧ 0 ≤ seq_daily_meal db) ∧
  Forall (λ r, 1 ≤ rp_id r ≤ seq_running_plan db) (running_plan db) ∧
  Forall (λ dp, 1 ≤ dp_id dp ≤ seq_daily_plan db) (daily_plan db) ∧
  Forall (λ dm, 1 ≤ dm_id dm ≤ seq_daily_meal db) (daily_meal db) ∧
  NoDup (rp_id <$> running_plan db) ∧
  NoDup (dp_id <$> daily_plan db) ∧
  NoDup (dm_id <$> daily_meal db) ∧
  (∀ dp, dp ∈ daily_plan db →
         dp_running_plan_id dp ∈ rp_id <$> running_plan db) ∧
  (∀ dm, dm ∈ daily_meal db →
         dm_daily_plan_id dm ∈ dp_id <$> daily_plan db).

(** [db'] is [db] with rows of plan [plan_id] appended to [daily_plan] and
    [daily_meal]: the new days carry fresh keys and the new meals refer to
    new days. *)
Definition extends_plan (plan_id : Z) (db db' : DB) : Prop :=
  ∃ dps dms,
    running_plan db' = running_plan db ∧
    seq_running_plan db' = seq_running_plan db ∧
    daily_plan db' = daily_plan db ++ dps ∧
    daily_meal db' = daily_meal db ++ dms ∧
    seq_daily_plan db ≤ seq_daily_plan db' ∧
    Forall (λ dp, dp_running_plan_id dp = plan_id ∧
                  seq_daily_plan db < dp_id dp ≤ seq_daily_plan db') dps ∧
    Forall (λ dm, dm_daily_plan_id dm ∈ dp_id <$> dps) dms.

(** ** More sample data *)

Module MoreSamples.

(** The store of [Samples.store3] after the lunch of its first
    [daily_plan] row was removed by hand. *)
Definition db_without_a_lunch : DB :=
  let db := Samples.db_of Samples.store3 in
  {| running_plan := running_plan db;
     daily_plan := daily_plan db;
     daily_meal := filter (λ dm, ¬ (dm_daily_plan_id dm = 1 ∧
                                    dm_meal_type dm = "lunch")) (daily_meal db);
     seq_running_plan := seq_running_plan db;
     seq_daily_plan := seq_daily_plan db;
     seq_daily_meal := seq_daily_meal db |}.

Definition first_day_row : daily_plan_row :=
  mk_daily_plan_row 1 1 "Monday" "Easy run" "5 km at <6:00/km & stretch" 1.

End MoreSamples.

(** ** utils.py: validate_user_input *)

(** [str.isspace] on one character: the whitespace [str.strip()] removes
    and the pattern [\s] matches. *)
Definition isspace (c : Ascii.ascii) : bool :=
  let n := Ascii.N_of_ascii c in
  ((9 <=? n) && (n <=? 13) || (28 <=? n) && (n <=? 32) ||
   (n =? 133) || (n =? 160))%N.

Fixpoint lstrip (s : string) : string :=
  match s with
  | EmptyString => EmptyString
  | String c s' => if isspace c then lstrip s' else s
  end.

Fixpoint rstrip (s : string) : string :=
  match s with
  | EmptyString => EmptyString
  | String c s' =>
      match rstrip s' with
      | EmptyString => if isspace c then EmptyString else String c EmptyString
      | r => String c r
      end
  end.

(** [query.strip()]. *)
Definition strip (s : string) : string := rstrip (lstrip s).

(** [not s] on a [str]. *)
Definition str_falsy (s : string) : bool :=
  match s with
  | EmptyString => true
  | String _ _ => false
  end.

Definition validate_user_input (query : string) : bool * string :=
  if str_falsy query || str_falsy (strip query)
  then (false, "Please enter a running goal")
  else if (String.length (strip query) <? 5)%nat
  then (false, "Please provide a more detailed running goal")
  else if (500 <? String.length query)%nat
  then (false, "Please keep your goal under 500 characters")
  else (true, "").

(** Every character of [s] is whitespace. *)
Fixpoint all_space (s : string) : bool :=
  match s with
  | EmptyString => true
  | String c s' => isspace c && all_space s'
  end.

(** ** utils.py: extract_weeks_from_query *)

(** [str.lower()] on one character. *)
Definition lower_char (c : Ascii.ascii) : Ascii.ascii :=
  let n := Ascii.N_of_ascii c in
  if ((65 <=? n) && (n <=? 90) ||
      (192 <=? n) && (n <=? 222) && negb (n =? 215))%N
  then Ascii.ascii_of_N (n + 32)
  else c.

Fixpoint lower (s : string) : string :=
  match s with
  | EmptyString => EmptyString
  | String c s' => String (lower_char c) (lower s')
  end.

(** What [\d] matches. *)
Definition isdigit (c : Ascii.ascii) : bool :=
  let n := Ascii.N_of_ascii c in ((48 <=? n) && (n <=? 57))%N.

(** The longest prefix of characters in [f], as a greedy [f+] or [f*]
    takes it, and the rest. *)
Fixpoint span (f : Ascii.ascii → bool) (s : string) : string * string :=
  match s with
  | EmptyString => (EmptyString, EmptyString)
  | String c s' =>
      if f c then let '(a, b) := span f s' in (String c a, b)
      else (EmptyString, s)
  end.

(** The rest of [s] after the literal [lit], when [s] starts with it. *)
Fixpoint after_literal (lit s : string) : option string :=
  match lit, s with
  | EmptyString, _ => Some s
  | String a lit', String b s' =>
      if decide (a = b) then after_literal lit' s' else None
  | String _ _, EmptyString => None
  end.

(** A match of [(\d+)\s*weeks?] at the start of [s]: its group.  Giving
    back a digit or a space cannot help, because what follows would then
    have to start with that digit or space. *)
Definition match_digits_weeks (s : string) : option string :=
  let '(digits, rest) := span isdigit s in
  if str_falsy digits then None
  else
    let '(_, rest') := span isspace rest in
    match after_literal "week" rest' with
    | Some _ => Some digits
    | None => None
    end.

(** A match of [in\s*(\d+)\s*weeks?] at the start of [s]. *)
Definition match_in_digits_weeks (s : string) : option string :=
  match after_literal "in" s with
  | Some rest => let '(_, rest') := span isspace rest in match_digits_weeks rest'
  | None => None
  end.

(** A match of [(\d+)-week] at the start of [s]. *)
Definition match_digits_dash_week (s : string) : option string :=
  let '(digits, rest) := span isdigit s in
  if str_falsy digits then None
  else
    match after_literal "-week" rest with
    | Some _ => Some digits
    | None => None
    end.

(** [re.search]: the match at the leftmost position that has one. *)
Fixpoint re_search (pattern : string → option string) (s : string)
    : option string :=
  match pattern s with
  | Some group => Some group
  | None =>
      match s with
      | EmptyString => None
      | String _ s' => re_search pattern s'
      end
  end.

Definition week_patterns : list (string → option string) :=
  [match_digits_weeks; match_in_digits_weeks; match_digits_dash_week].

(** [int(s)] on a string of decimal digits; anything else is a
    [ValueError]. *)
Fixpoint int_digits (acc : Z) (s : string) : Result Z :=
  match s with
  | EmptyString => Ok acc
  | String c s' =>
      if isdigit c
      then int_digits (10 * acc + (Z.of_N (Ascii.N_of_ascii c) - 48)) s'
      else Raise (ValueError "invalid literal for int() with base 10")
  end.

Section IntMaxStrDigits.

(** [sys.get_int_max_str_digits()]: 4300 unless changed, 0 for no limit
    (as in the interpreters before the limit existed).  [int] refuses with
    a [ValueError] a string of more than 640 digits that has more digits
    than this. *)
Variable int_max_str_digits : nat.

Definition int_of_str (s : string) : Result Z :=
  if str_falsy s
  then Raise (ValueError "invalid literal for int() with base 10")
  else if ((640 <? String.length s) && (0 <? int_max_str_digits) &&
           (int_max_str_digits <? String.length s))%nat
  then Raise (ValueError "Exceeds the limit for integer string conversion")
  else int_digits 0 s.

(** The body of [for pattern in week_patterns], with [None] for "go on
    with the next pattern". *)
Definition try_week_pattern (query : string)
    (pattern : string → option string) : option Z :=
  match re_search pattern (lower query) with
  | Some group =>
      match int_of_str group with
      | Ok weeks => if (1 <=? weeks) && (weeks <=? 52) then Some weeks else None
      | Raise _ => None
      end
  | None => None
  end.

Fixpoint first_week (query : string)
    (patterns : list (string → option string)) : option Z :=
  match patterns with
  | [] => None
  | pattern :: patterns' =>
      match try_week_pattern query pattern with
      | Some weeks => Some weeks
      | None => first_week query patterns'
      end
  end.

Definition extract_weeks_from_query (query : string) : option Z :=
  first_week query week_patterns.

End IntMaxStrDigits.

(** ** main.py: the request *)

(** The two parts of the user message. *)
Record Request : Type := mkRequest {
  req_model : string;
  req_system_content : string;
  req_input_text : string;
  req_image_url : string
}.

Definition SYSTEM_PROMPT : string :=
  "You are an expert running coach. First, determine the total number of training weeks required from the user's query. Then, generate a running plan with a 'motivation' message, 'feedback' message from the stats provided on the uploaded image, 'supplement suggestion' for suggestion the supplements that the person should take for their best performance, and a 'plan' list, where each item in the list represents one week's schedule. Again, make sure to match the number of weeks exactly, no more and no fewer weeks. Also, please include a daily breakfast, lunch, and dinner suggestion that has the name of the meal and the calories".

Definition create_structured_request (user_query base64_image : string)
    : Request :=
  {| req_model := "gpt-4o";
     req_system_content := SYSTEM_PROMPT;
     req_input_text := user_query;
     req_image_url := "data:image/jpeg;base64," +:+ base64_image |}.

Section MainImage.

Variable fs : string → option FsEntry.
Variable pil_open : string → option Image.
Variable pil_verify : string → bool.

(** The image step of [main]: [base64_image] after the [try]. *)
Definition main_base64_image (image_path : string) : string :=
  match
    (valid ← validate_image fs pil_open pil_verify image_path;
     if valid : bool then encode_image fs image_path else Ok EmptyString)
      : Result string
  with
  | Ok base64_image => base64_image
  | Raise _ => EmptyString
  end.

(** image_processing.py: the single message of
    [create_multimodal_request], as its text and its image URL. *)
Definition create_multimodal_request (text_query image_path : string)
    : Result (list (string * string)) :=
  prepared_image ← prepare_image_for_analysis fs pil_open pil_verify image_path;
  mret [(text_query, data_url prepared_image)].

End MainImage.

(** ** src/output_generators.py: the earlier store functions

    [save_plan_to_db] answers with a boolean and [load_plan_from_db] raises
    where the functions of [database.py] return [None]. *)

Module Earlier.

Definition save_plan_to_db (now : string) (p : RunningPlan) (st : Store)
    : bool * Store :=
  match db ← connect st; mret (save_plan now p db) with
  | Ok (_, db') => (true, Ready db')
  | Raise _ => (false, st)
  end.

(** The body of the [try]; the [except] prints and raises again. *)
Definition load_plan_from_db (plan_id : Z) (st : Store) : Result RunningPlan :=
  db ← connect st;
  _ ← bind_integer plan_id;
  match select_running_plan plan_id db with
  | None =>
      Raise (ValueError ("Plan with ID " +:+ pretty plan_id +:+ " not found"))
  | Some (m, f, s) =>
      weeks ← foldM add_row (select_daily_plans plan_id db) ∅;
      mret {| motivation := m; feedback := f;
              supplement_suggestion := s;
              plan := plan_weeks weeks |}
  end.

End Earlier.

(** ** main.py: reading the goal *)

(** The [while True] loop of [main] over the lines the user types: the
    accepted goal and the error messages printed before it.  [None] when
    the input ends before a line is accepted ([input] then raises
    [EOFError], which [main] does not catch). *)
Fixpoint read_goal (lines : list string) : option (string * list string) :=
  match lines with
  | [] => None
  | line :: lines' =>
      let query := strip line in
      let '(is_valid, error_message) := validate_user_input query in
      if is_valid then Some (query, [])
      else
        match read_goal lines' with
        | Some (goal, errors) => Some (goal, error_message :: errors)
        | None => None
        end
  end.

(** * Properties *)

(** ** The validator *)

Lemma day_passes_iff (d : DailyPlanObj) :
  day_passes d = true ↔ ∀ mt, is_Some (getattr_obj d mt).
Proof.
  unfold day_passes, meal_types. cbn [forallb getattr_obj]. split.
  - intros H [| |]; cbn [getattr_obj];
      destruct (obj_breakfast d), (obj_lunch d), (obj_dinner d);
      cbn in H; try discriminate; eauto.
  - intros H.
    destruct (H Breakfast) as [b Hb], (H Lunch) as [l Hl], (H Dinner) as [n Hn].
    cbn [getattr_obj] in Hb, Hl, Hn. by rewrite Hb, Hl, Hn.
Qed.

Lemma day_passes_agree (d : DailyPlanObj) :
  PromptTemplates.day_passes d = day_passes d.
Proof.
  unfold PromptTemplates.day_passes, day_passes, meal_types.
  cbn [forallb getattr_obj].
  by destruct (obj_breakfast d), (obj_lunch d), (obj_dinner d).
Qed.

Lemma week_passes_iff (week : list DailyPlanObj) :
  week_passes week = true ↔
  week ≠ [] ∧ ∀ d mt, d ∈ week → is_Some (getattr_obj d mt).
Proof.
  unfold week_passes. destruct week as [|d0 week']; cbn [length Nat.eqb].
  - split; [discriminate | intros [H _]; by destruct H].
  - rewrite forallb_forall. split.
    + intros H. split; [done|]. intros d mt Hd.
      apply day_passes_iff, H. by apply list_elem_of_In.
    + intros [_ H] d Hd. apply day_passes_iff. intros mt.
      apply H. by apply list_elem_of_In.
Qed.

Lemma week_passes_agree (week : list DailyPlanObj) :
  PromptTemplates.week_passes week = week_passes week.
Proof.
  unfold PromptTemplates.week_passes, week_passes.
  destruct (length week =? 0)%nat; [done|].
  induction week as [|d week' IH]; [done|].
  cbn [forallb]. by rewrite day_passes_agree, IH.
Qed.

Lemma validate_plan_structure_agree (p : RunningPlanObj) :
  PromptTemplates.validate_plan_structure p = validate_plan_structure p.
Proof.
  unfold PromptTemplates.validate_plan_structure, validate_plan_structure.
  destruct (length (obj_plan p) =? 0)%nat; [done|].
  induction (obj_plan p) as [|w ws IH]; [done|].
  cbn [forallb]. by rewrite week_passes_agree, IH.
Qed.

Lemma validate_plan_structure_iff (p : RunningPlanObj) :
  validate_plan_structure p = true ↔ plan_invariants p.
Proof.
  unfold validate_plan_structure, plan_invariants.
  destruct (obj_plan p) as [|w0 ws] eqn:Hp; cbn [length Nat.eqb].
  - split; [discriminate | intros [H _]; by destruct H].
  - rewrite forallb_forall. split.
    + intros H. split; [done|]. split.
      * intros week Hw. apply list_elem_of_In, H, week_passes_iff in Hw. tauto.
      * intros week d mt Hw Hd.
        apply list_elem_of_In, H, week_passes_iff in Hw. by apply Hw.
    + intros (_ & Hne & Hmeals) week Hw. apply list_elem_of_In in Hw.
      apply week_passes_iff. split; [by apply Hne|].
      intros d mt Hd. by apply (Hmeals week).
Qed.

(** C4. [validate_plan_structure] (in [output_generators.py] and in
    [prompt_templates.py]) returns false for an object whose [plan] is
    empty, for one with a week without days, and for one with a day that
    lacks one of the three meals; it returns true for every object that
    satisfies the invariants of the data model. *)
Theorem validate_plan_structure_spec (p : RunningPlanObj) :
  (obj_plan p = [] → validate_plan_structure p = false) ∧
  ([] ∈ obj_plan p → validate_plan_structure p = false) ∧
  (∀ week d mt, week ∈ obj_plan p → d ∈ week → getattr_obj d mt = None →
     validate_plan_structure p = false) ∧
  (plan_invariants p → validate_plan_structure p = true) ∧
  PromptTemplates.validate_plan_structure p = validate_plan_structure p.
Proof.
  pose proof (validate_plan_structure_iff p) as Hiff.
  repeat split.
  - intros Hp. apply not_true_is_false. intros Ht%Hiff. by destruct Ht as [? _].
  - intros Hw. apply not_true_is_false. intros Ht%Hiff.
    destruct Ht as (_ & Hne & _). by apply (Hne []).
  - intros week d mt Hw Hd Hm. apply not_true_is_false. intros Ht%Hiff.
    destruct Ht as (_ & _ & Hmeals).
    destruct (Hmeals week d mt Hw Hd) as [m Hsome]. congruence.
  - apply Hiff.
  - apply validate_plan_structure_agree.
Qed.

(** The four cases on objects of [Samples]. *)
Lemma validate_plan_structure_spec_witness :
  validate_plan_structure (obj_of_plan Samples.no_weeks) = false ∧
  validate_plan_structure Samples.obj_with_empty_week = false ∧
  validate_plan_structure Samples.obj_without_lunch = false ∧
  validate_plan_structure (obj_of_plan Samples.two_weeks) = true.
Proof.
  split; [|split; [|split]].
  - exact (proj1 (validate_plan_structure_spec
                    (obj_of_plan Samples.no_weeks)) eq_refl).
  - destruct (validate_plan_structure_spec Samples.obj_with_empty_week)
      as (_ & H & _).
    apply H. cbn. set_solver.
  - destruct (validate_plan_structure_spec Samples.obj_without_lunch)
      as (_ & _ & H & _).
    apply (H [Samples.day_without_lunch] Samples.day_without_lunch Lunch);
      [cbn; set_solver | set_solver | reflexivity].
  - destruct (validate_plan_structure_spec (obj_of_plan Samples.two_weeks))
      as (_ & _ & _ & H & _).
    apply H, validate_plan_structure_iff. reflexivity.
Defined.

(** ** Strings *)

Lemma str_app_cons (x : Ascii.ascii) (a b : string) :
  String x a +:+ b = String x (a +:+ b).
Proof. reflexivity. Qed.

Lemma str_app_nil_l (a : string) : EmptyString +:+ a = a.
Proof. reflexivity. Qed.

Lemma str_app_assoc (a b c : string) : (a +:+ b) +:+ c = a +:+ (b +:+ c).
Proof.
  induction a as [|x a IH]; [done|]. by rewrite !str_app_cons, IH.
Qed.

Lemma str_app_nil_r (a : string) : a +:+ EmptyString = a.
Proof. induction a as [|x a IH]; [done|]. by rewrite str_app_cons, IH. Qed.

Lemma str_length_app (a b : string) :
  String.length (a +:+ b) = (String.length a + String.length b)%nat.
Proof.
  induction a as [|x a IH]; [done|]. rewrite str_app_cons. cbn. by rewrite IH.
Qed.

(** [s[:n]] is a prefix of [s], of length [n] when [s] is long enough. *)
Lemma substring_prefix (n : nat) (s : string) :
  (n ≤ String.length s)%nat →
  ∃ rest, s = String.substring 0 n s +:+ rest ∧
          String.length (String.substring 0 n s) = n.
Proof.
  revert n. induction s as [|x s IH]; intros [|n] Hn; cbn in *.
  - by exists EmptyString.
  - lia.
  - by exists (String x s).
  - destruct (IH n) as (rest & Hs & Hl); [lia|].
    exists rest. rewrite str_app_cons. split; [by rewrite <- Hs | by rewrite Hl].
Qed.

(** ** Filters on tables *)

Lemma filter_filter_not {A} (P : A → Prop) `{!∀ x, Decision (P x)} (l : list A) :
  filter P (filter (λ x, ¬ P x) l) = [].
Proof.
  induction l as [|x l IH]; [done|].
  rewrite (filter_cons (λ x, ¬ P x)). destruct (decide (¬ P x)) as [Hn|Hn]; [|done].
  rewrite filter_cons. by destruct (decide (P x)).
Qed.

Lemma filter_nil_iff {A} (P : A → Prop) `{!∀ x, Decision (P x)} (l : list A) :
  filter P l = [] ↔ ∀ x, x ∈ l → ¬ P x.
Proof.
  split.
  - intros Hnil x Hx HP.
    assert (x ∈ filter P l) as Hin by (by apply list_elem_of_filter).
    rewrite Hnil in Hin. by apply not_elem_of_nil in Hin.
  - intros Hall. destruct (filter P l) as [|y l'] eqn:Hf; [done|].
    assert (y ∈ filter P l) as Hin by (rewrite Hf; left).
    apply list_elem_of_filter in Hin as [HP Hy]. by destruct (Hall y Hy).
Qed.

Lemma filter_all {A} (P : A → Prop) `{!∀ x, Decision (P x)} (l : list A) :
  (∀ x, x ∈ l → P x) → filter P l = l.
Proof.
  induction l as [|x l IH]; intros Hall; [done|].
  rewrite filter_cons_True by (apply Hall; left).
  f_equal. apply IH. intros y Hy. apply Hall. by right.
Qed.

Lemma filter_none {A} (P : A → Prop) `{!∀ x, Decision (P x)} (l : list A) :
  (∀ x, x ∈ l → ¬ P x) → filter P l = [].
Proof. apply filter_nil_iff. Qed.

Lemma Forall_filter_keep {A} (P Q : A → Prop) `{!∀ x, Decision (Q x)}
    (l : list A) :
  Forall P l → Forall P (filter Q l).
Proof.
  rewrite !Forall_forall. intros Hall x Hx.
  apply list_elem_of_filter in Hx as [_ Hx]. by apply Hall.
Qed.

Lemma select_running_plan_None (plan_id : Z) (db : DB) :
  select_running_plan plan_id db = None ↔
  ∀ r, r ∈ running_plan db → rp_id r ≠ plan_id.
Proof.
  unfold select_running_plan.
  rewrite <- (filter_nil_iff (λ r, rp_id r = plan_id)).
  by destruct (filter _ (running_plan db)).
Qed.

(** ** delete_plan *)

Lemma sqlite_integer_range (n : Z) :
  sqlite_integer n = true ↔ - 2 ^ 63 ≤ n < 2 ^ 63.
Proof. unfold sqlite_integer. rewrite andb_true_iff, Z.leb_le, Z.ltb_lt. lia. Qed.

Lemma delete_plan_Ready (plan_id : Z) (db : DB) :
  sqlite_integer plan_id = true →
  delete_plan plan_id (Ready db) = (true, Ready (delete_plan_rows plan_id db)).
Proof. intros Hid. unfold delete_plan, bind_integer. by rewrite Hid. Qed.

Lemma delete_plan_overflow (plan_id : Z) (st : Store) :
  sqlite_integer plan_id = false → delete_plan plan_id st = (false, st).
Proof.
  intros Hid. unfold delete_plan, bind_integer. rewrite Hid.
  by destruct st.
Qed.

(** C10. On a database that can be used, [delete_plan] returns [True]
    exactly for the ids that fit the signed 64-bit INTEGER of SQLite.  For
    these there is no existence check: an id without a [running_plan] row
    gets the same answer, and the [running_plan] table is then left as it
    was.  An id outside that range fails when it is bound, and
    [delete_plan] returns [False] and leaves the database alone. *)
Theorem delete_plan_returns_true (plan_id : Z) (db : DB) :
  (fst (delete_plan plan_id (Ready db)) = true ↔ - 2 ^ 63 ≤ plan_id < 2 ^ 63) ∧
  (- 2 ^ 63 ≤ plan_id < 2 ^ 63 →
   ∃ db', delete_plan plan_id (Ready db) = (true, Ready db') ∧
          (select_running_plan plan_id db = None →
           running_plan db' = running_plan db)) ∧
  (¬ (- 2 ^ 63 ≤ plan_id < 2 ^ 63) →
   delete_plan plan_id (Ready db) = (false, Ready db)).
Proof.
  rewrite <- sqlite_integer_range.
  destruct (sqlite_integer plan_id) eqn:Hid.
  - rewrite delete_plan_Ready by done. split; [done|]. split; [|done].
    intros _. eexists. split; [reflexivity|].
    intros Hnone. cbn.
    apply filter_all. intros r Hr.
    by apply (proj1 (select_running_plan_None plan_id db)).
  - rewrite delete_plan_overflow by done. split; [done|]. split; [done|].
    done.
Qed.

Lemma delete_plan_returns_true_witness :
  ∃ db', delete_plan 99 Samples.store3 = (true, Ready db') ∧
         (select_running_plan 99 (Samples.db_of Samples.store3) = None →
          running_plan db' = running_plan (Samples.db_of Samples.store3)).
Proof.
  apply (delete_plan_returns_true 99 (Samples.db_of Samples.store3)). lia.
Defined.

(** C10, the statement for every id: on the sample store, which can be
    used, [delete_plan] returns [False] for the first id above and the
    first id below the 64-bit range, and changes nothing. *)
Lemma delete_plan_beyond_64_bits :
  connect Samples.store3 = Ok (Samples.db_of Samples.store3) ∧
  delete_plan (2 ^ 63) Samples.store3 = (false, Samples.store3) ∧
  delete_plan (- 2 ^ 63 - 1) Samples.store3 = (false, Samples.store3).
Proof. split; [reflexivity|]. split; reflexivity. Qed.

Lemma daily_plan_ids_spec (plan_id : Z) (db : DB) (id : Z) :
  id ∉ daily_plan_ids plan_id db ↔
  Forall (λ dp, dp_running_plan_id dp = plan_id → id ≠ dp_id dp) (daily_plan db).
Proof.
  unfold daily_plan_ids. rewrite Forall_forall. split.
  - intros Hni dp Hdp Hplan ->. apply Hni.
    apply list_elem_of_fmap_2. by apply list_elem_of_filter.
  - intros Hall (dp & -> & Hdp)%list_elem_of_fmap.
    apply list_elem_of_filter in Hdp as [Hplan Hdp]. by apply (Hall dp).
Qed.

(** C5. For an existing plan id, [delete_plan] runs its three DELETEs from
    child to parent: first the [daily_meal] rows that reference one of the
    plan's [daily_plan] rows, then those [daily_plan] rows, then the
    [running_plan] row; every other row stays, in its place.  It returns
    [True]; afterwards no row of the three tables belongs to the plan, and
    [load_plan_from_db] on the id takes its not-found return.  (An id that
    exists in a database fits its 64-bit INTEGER.) *)
Theorem delete_plan_removes_plan (plan_id : Z) (db : DB) :
  (∃ r, r ∈ running_plan db ∧ rp_id r = plan_id) →
  - 2 ^ 63 ≤ plan_id < 2 ^ 63 →
  let db1 := delete_daily_meals plan_id db in
  let db2 := delete_daily_plans plan_id db1 in
  let db3 := delete_running_plan plan_id db2 in
  delete_plan plan_id (Ready db) = (true, Ready db3) ∧
  (* step 1: only daily_meal changes, losing the meals of the plan's days *)
  (daily_meal db1 =
     filter (λ dm, Forall (λ dp, dp_running_plan_id dp = plan_id →
                                 dm_daily_plan_id dm ≠ dp_id dp)
                     (daily_plan db))
       (daily_meal db) ∧
   daily_plan db1 = daily_plan db ∧ running_plan db1 = running_plan db) ∧
  (* step 2: only daily_plan changes, losing the plan's days *)
  (daily_plan db2 =
     filter (λ dp, dp_running_plan_id dp ≠ plan_id) (daily_plan db) ∧
   daily_meal db2 = daily_meal db1 ∧ running_plan db2 = running_plan db) ∧
  (* step 3: only running_plan changes, losing the plan's row *)
  (running_plan db3 = filter (λ r, rp_id r ≠ plan_id) (running_plan db) ∧
   daily_meal db3 = daily_meal db2 ∧ daily_plan db3 = daily_plan db2) ∧
  (* nothing of the plan is left *)
  (∀ dm dp, dm ∈ daily_meal db3 →
            dp ∈ daily_plan db → dp_running_plan_id dp = plan_id →
            dm_daily_plan_id dm ≠ dp_id dp) ∧
  (∀ dp, dp ∈ daily_plan db3 → dp_running_plan_id dp ≠ plan_id) ∧
  (∀ r, r ∈ running_plan db3 → rp_id r ≠ plan_id) ∧
  load_plan plan_id db3 = Ok None ∧
  load_plan_from_db plan_id (Ready db3) = None.
Proof.
  intros _ Hid%sqlite_integer_range db1 db2 db3.
  assert (select_running_plan plan_id db3 = None) as Hsel.
  { apply select_running_plan_None. intros r Hr. cbn in Hr.
    by apply list_elem_of_filter in Hr as [Hne _]. }
  assert (load_plan plan_id db3 = Ok None) as Hload.
  { unfold load_plan. by rewrite Hsel. }
  assert (daily_meal db1 =
            filter (λ dm, Forall (λ dp, dp_running_plan_id dp = plan_id →
                                        dm_daily_plan_id dm ≠ dp_id dp)
                            (daily_plan db))
              (daily_meal db)) as Hmeals.
  { cbn. apply list_filter_iff. intros dm. apply daily_plan_ids_spec. }
  split; [by apply delete_plan_Ready|].
  repeat split; try done.
  - intros dm dp Hdm Hdp Hplan.
    change (daily_meal db3) with (daily_meal db1) in Hdm.
    rewrite Hmeals in Hdm. apply list_elem_of_filter in Hdm as [Hall _].
    rewrite Forall_forall in Hall. by apply Hall.
  - intros dp Hdp. cbn in Hdp. by apply list_elem_of_filter in Hdp as [Hne _].
  - intros r Hr. cbn in Hr. by apply list_elem_of_filter in Hr as [Hne _].
  - unfold load_plan_from_db. cbn [connect mbind Result_bind]. by rewrite Hload.
Qed.

Lemma delete_plan_removes_plan_witness :
  delete_plan 1 Samples.store3 =
    (true, Ready (delete_running_plan 1 (delete_daily_plans 1
                    (delete_daily_meals 1 (Samples.db_of Samples.store3))))) ∧
  length (daily_meal (Samples.db_of Samples.store3)) = 18%nat ∧
  length (daily_meal (delete_daily_meals 1 (Samples.db_of Samples.store3))) =
    3%nat ∧
  load_plan_from_db 1 (snd (delete_plan 1 Samples.store3)) = None.
Proof.
  assert (∃ r, r ∈ running_plan (Samples.db_of Samples.store3) ∧ rp_id r = 1)
    as Hex.
  { exists (mk_running_plan_row 1 (motivation Samples.two_weeks)
              (feedback Samples.two_weeks)
              (supplement_suggestion Samples.two_weeks) "2026-11-01 08:00:00").
    split; [vm_compute; left | reflexivity]. }
  assert (- 2 ^ 63 ≤ 1 < 2 ^ 63) as Hid by lia.
  pose proof (delete_plan_removes_plan 1 (Samples.db_of Samples.store3) Hex Hid)
    as (Hdel & [Hmeals _] & _ & _ & _ & _ & _ & _ & Hload).
  split; [exact Hdel|]. split; [reflexivity|].
  split; [rewrite Hmeals; vm_compute; reflexivity | exact Hload].
Defined.

(** ** load_plan_from_db on a plan without days *)

Lemma plan_weeks_empty : plan_weeks ∅ = [].
Proof. unfold plan_weeks. by rewrite dom_empty_L, elements_empty. Qed.

Lemma select_running_plan_Some (plan_id : Z) (db : DB) (r : running_plan_row) :
  r ∈ running_plan db → rp_id r = plan_id →
  ∃ r', r' ∈ running_plan db ∧ rp_id r' = plan_id ∧
        select_running_plan plan_id db =
          Some (rp_motivation r', rp_feedback r', rp_supplement_suggestion r').
Proof.
  intros Hr Hid. unfold select_running_plan.
  destruct (filter (λ r0, rp_id r0 = plan_id) (running_plan db))
    as [|r' l] eqn:Hf.
  - exfalso. eapply (filter_nil_not_elem_of _ _ r); eauto.
  - exists r'. assert (r' ∈ filter (λ r0, rp_id r0 = plan_id) (running_plan db))
      as Hin by (rewrite Hf; left).
    apply list_elem_of_filter in Hin as [Hid' Hin]. done.
Qed.

(** C9. When the [running_plan] row of an id exists and no [daily_plan]
    row refers to it, [load_plan_from_db] does not take the not-found
    return: it returns a plan with the stored text fields and an empty week
    sequence, which [validate_plan_structure] refuses. *)
Theorem load_plan_without_days (plan_id : Z) (db : DB) (r : running_plan_row) :
  r ∈ running_plan db → rp_id r = plan_id →
  (∀ dp, dp ∈ daily_plan db → dp_running_plan_id dp ≠ plan_id) →
  ∃ p, load_plan_from_db plan_id (Ready db) = Some p ∧
       load_plan plan_id db = Ok (Some p) ∧
       plan p = [] ∧
       (∃ r', r' ∈ running_plan db ∧ rp_id r' = plan_id ∧
              motivation p = rp_motivation r' ∧ feedback p = rp_feedback r' ∧
              supplement_suggestion p = rp_supplement_suggestion r') ∧
       validate_plan_structure (obj_of_plan p) = false.
Proof.
  intros Hr Hid Hnodays.
  destruct (select_running_plan_Some plan_id db r Hr Hid)
    as (r' & Hr' & Hid' & Hsel).
  assert (select_daily_plans plan_id db = []) as Hrows.
  { unfold select_daily_plans, joined.
    rewrite (filter_none (λ dp, dp_running_plan_id dp = plan_id)); [done|].
    intros dp Hdp. by apply Hnodays. }
  assert (load_plan plan_id db = Ok (Some
            {| motivation := rp_motivation r'; feedback := rp_feedback r';
               supplement_suggestion := rp_supplement_suggestion r';
               plan := [] |})) as Hload.
  { unfold load_plan. rewrite Hsel, Hrows. cbn. by rewrite plan_weeks_empty. }
  eexists. split; [|split; [exact Hload|]].
  - unfold load_plan_from_db. cbn [connect mbind Result_bind]. by rewrite Hload.
  - split; [done|]. split; [|done]. exists r'. done.
Qed.

Lemma load_plan_without_days_witness :
  ∃ p, load_plan_from_db 2 Samples.store3 = Some p ∧
       load_plan 2 (Samples.db_of Samples.store3) = Ok (Some p) ∧
       plan p = [] ∧
       (∃ r', r' ∈ running_plan (Samples.db_of Samples.store3) ∧ rp_id r' = 2 ∧
              motivation p = rp_motivation r' ∧ feedback p = rp_feedback r' ∧
              supplement_suggestion p = rp_supplement_suggestion r') ∧
       validate_plan_structure (obj_of_plan p) = false.
Proof.
  apply (load_plan_without_days 2 (Samples.db_of Samples.store3)
           (mk_running_plan_row 2 "Soon" "-" "-" "2026-11-02 09:30:00")).
  - vm_compute. right. left.
  - reflexivity.
  - apply Forall_forall. vm_compute. repeat constructor; discriminate.
Defined.

(** ** list_all_plans *)

#[global] Instance order_by_created_at_desc_trans :
  Transitive order_by_created_at_desc.
Proof.
  intros r1 r2 r3 H12 H23. unfold order_by_created_at_desc in *. by etrans.
Qed.

#[global] Instance order_by_created_at_desc_total :
  Total order_by_created_at_desc.
Proof. intros r1 r2. unfold order_by_created_at_desc. apply total, _. Qed.

Lemma truncate_motivation_short (m : string) :
  (String.length m ≤ 50)%nat → truncate_motivation m = m.
Proof.
  intros Hle. unfold truncate_motivation.
  destruct (50 <? String.length m)%nat eqn:Hlt; [|done].
  apply Nat.ltb_lt in Hlt. lia.
Qed.

Lemma truncate_motivation_long (m : string) :
  (50 < String.length m)%nat →
  ∃ first rest, m = first +:+ rest ∧ String.length first = 50%nat ∧
                truncate_motivation m = first +:+ "...".
Proof.
  intros Hlt. unfold truncate_motivation.
  apply Nat.ltb_lt in Hlt as Hb. rewrite Hb.
  destruct (substring_prefix 50 m) as (rest & Hm & Hlen); [lia|].
  by exists (String.substring 0 50 m), rest.
Qed.

(** C8. [list_all_plans] returns one summary per [running_plan] row, the
    rows taken newest first (by [created_at], descending); a summary keeps
    the id and the timestamp, and its motivation is the stored one when
    that has at most 50 characters, and its first 50 characters followed by
    ["..."] when it is longer. *)
Theorem list_all_plans_spec (db : DB) :
  ∃ rows,
    rows ≡ₚ running_plan db ∧
    StronglySorted (λ r1 r2, String.le (rp_created_at r2) (rp_created_at r1)) rows ∧
    list_all_plans (Ready db) = summarize <$> rows ∧
    length (list_all_plans (Ready db)) = length (running_plan db) ∧
    ∀ r, summary_id (summarize r) = rp_id r ∧
         summary_created_at (summarize r) = rp_created_at r ∧
         ((String.length (rp_motivation r) ≤ 50)%nat →
            summary_motivation (summarize r) = rp_motivation r) ∧
         ((50 < String.length (rp_motivation r))%nat →
            ∃ first rest, rp_motivation r = first +:+ rest ∧
              String.length first = 50%nat ∧
              summary_motivation (summarize r) = first +:+ "...").
Proof.
  exists (merge_sort order_by_created_at_desc (running_plan db)).
  split; [apply merge_sort_Permutation|].
  split; [apply (StronglySorted_merge_sort order_by_created_at_desc)|].
  split; [reflexivity|]. split.
  - cbn. by rewrite length_fmap, merge_sort_Permutation.
  - intros r. repeat split.
    + apply truncate_motivation_short.
    + apply truncate_motivation_long.
Qed.

Lemma list_all_plans_spec_witness :
  list_all_plans Samples.store3 =
    [ {| summary_id := 3;
         summary_motivation :=
           "Every kilometre you run this month makes the next ...";
         summary_created_at := "2026-11-03 07:15:00" |};
      {| summary_id := 2; summary_motivation := "Soon";
         summary_created_at := "2026-11-02 09:30:00" |};
      {| summary_id := 1; summary_motivation := "You can do it";
         summary_created_at := "2026-11-01 08:00:00" |} ].
Proof.
  destruct (list_all_plans_spec (Samples.db_of Samples.store3))
    as (rows & _ & _ & Heq & Hlen & Hsum).
  change (list_all_plans Samples.store3)
    with (list_all_plans (Ready (Samples.db_of Samples.store3))).
  destruct (list_all_plans (Ready (Samples.db_of Samples.store3)))
    as [|s3 [|s2 [|s1 [|]]]] eqn:Hlist; try discriminate Hlen.
  vm_compute in Hlist. by injection Hlist as <- <- <-.
Defined.

(** ** Image preparation *)

Section ImagePreparationFacts.

Variable fs : string → option FsEntry.
Variable pil_open : string → option Image.
Variable pil_verify : string → bool.

Local Abbreviation validate_image := (validate_image fs pil_open pil_verify).
Local Abbreviation get_image_info := (get_image_info fs pil_open).
Local Abbreviation encode_image := (encode_image fs).
Local Abbreviation prepare_image_for_analysis :=
  (prepare_image_for_analysis fs pil_open pil_verify).
Local Abbreviation decodable := (decodable fs pil_open pil_verify).

Lemma validate_image_returns (path : string) :
  ∃ b, validate_image path = Ok b.
Proof.
  unfold validate_image, try_except, os_path_exists, Image_open,
    Image_verify, read_bytes.
  destruct (fs path) as [[|content]|]; cbn; eauto.
  destruct (pil_open content); cbn; eauto.
  destruct (pil_verify content); cbn; eauto.
Qed.

Lemma validate_image_true_iff (path : string) :
  validate_image path = Ok true ↔ decodable path.
Proof.
  unfold validate_image, decodable, try_except, os_path_exists, Image_open,
    Image_verify, read_bytes.
  destruct (fs path) as [[|content]|]; cbn.
  - split; [discriminate | intros (c & i & ? & _); discriminate].
  - destruct (pil_open content) as [img|] eqn:Hopen; cbn.
    + destruct (pil_verify content) eqn:Hver; cbn.
      * split; [eauto 6 | done].
      * split; [discriminate|]. intros (c & i & [= <-] & _ & Hv). congruence.
    + split; [discriminate|]. intros (c & i & [= <-] & Ho & _). congruence.
  - split; [discriminate | intros (c & i & ? & _); discriminate].
Qed.

(** C7. [validate_image] never raises: for every path it returns a
    boolean, which is [True] exactly when the file exists and its bytes
    decode as an image; it is [False] for a path that does not exist and
    for a file whose bytes are no image. *)
Theorem validate_image_never_raises (path : string) :
  ∃ b, validate_image path = Ok b ∧
       (b = true ↔ decodable path) ∧
       (fs path = None → b = false) ∧
       (∀ content, fs path = Some (RegularFile content) →
          pil_open content = None ∨ pil_verify content = false →
          b = false).
Proof.
  destruct (validate_image_returns path) as [b Hb]. exists b.
  split; [done|]. split; [|split].
  - rewrite <- validate_image_true_iff, Hb. split; congruence.
  - intros Hnone. apply not_true_is_false. intros ->.
    apply validate_image_true_iff in Hb as (c & i & Hfs & _). congruence.
  - intros content Hfs Hbad. apply not_true_is_false. intros ->.
    apply validate_image_true_iff in Hb as (c & i & Hfs' & Ho & Hv).
    assert (c = content) as -> by congruence.
    destruct Hbad; congruence.
Qed.

Lemma prepare_of_valid (path : string) :
  validate_image path = Ok true →
  ∃ content img,
    fs path = Some (RegularFile content) ∧
    pil_open content = Some img ∧
    get_image_info path =
      Ok (Info (img_size img) (img_format img) (img_mode img)
            (Z.of_nat (String.length content))) ∧
    encode_image path = Ok (b64encode content) ∧
    prepare_image_for_analysis path =
      Ok {| base64_image := b64encode content;
            image_info := Info (img_size img) (img_format img) (img_mode img)
                            (Z.of_nat (String.length content));
            data_url := "data:image/jpeg;base64," +:+ b64encode content |}.
Proof.
  intros Hvalid.
  pose proof Hvalid as (content & img & Hfs & Hopen & Hver)%validate_image_true_iff.
  exists content, img.
  assert (get_image_info path =
            Ok (Info (img_size img) (img_format img) (img_mode img)
                  (Z.of_nat (String.length content)))) as Hinfo.
  { unfold get_image_info, try_except, Image_open, read_bytes.
    rewrite Hfs. cbn. by rewrite Hopen. }
  assert (encode_image path = Ok (b64encode content)) as Henc.
  { unfold encode_image, try_except, read_bytes. by rewrite Hfs. }
  repeat split; try done.
  unfold prepare_image_for_analysis. rewrite Hvalid. cbn.
  rewrite Hinfo. cbn. rewrite Henc. reflexivity.
Qed.


End ImagePreparationFacts.

Lemma validate_image_never_raises_witness :
  validate_image Samples.sample_fs Samples.sample_pil_open
    Samples.sample_pil_verify "missing.png" = Ok false ∧
  validate_image Samples.sample_fs Samples.sample_pil_open
    Samples.sample_pil_verify "notes.txt" = Ok false ∧
  validate_image Samples.sample_fs Samples.sample_pil_open
    Samples.sample_pil_verify "photos" = Ok false ∧
  validate_image Samples.sample_fs Samples.sample_pil_open
    Samples.sample_pil_verify "watch.png" = Ok true.
Proof.
  pose proof (validate_image_never_raises Samples.sample_fs
                Samples.sample_pil_open Samples.sample_pil_verify "missing.png")
    as (b & Hb & _ & Hnone & _).
  rewrite Hb, (Hnone eq_refl). repeat split; reflexivity.
Defined.


(** ** generate_html_training_plan *)

Lemma occurs_in_refl (s : string) : occurs_in s s.
Proof. exists EmptyString, EmptyString. by rewrite str_app_nil_l, str_app_nil_r. Qed.

Lemma occurs_in_app_r (s t u : string) : occurs_in s t → occurs_in s (t +:+ u).
Proof.
  intros (b & a & ->). exists b, (a +:+ u). by rewrite !str_app_assoc.
Qed.

Lemma occurs_in_app_l (s t u : string) : occurs_in s t → occurs_in s (u +:+ t).
Proof.
  intros (b & a & ->). exists (u +:+ b), a. by rewrite !str_app_assoc.
Qed.

Lemma occurs_in_trans (s t u : string) :
  occurs_in s t → occurs_in t u → occurs_in s u.
Proof.
  intros (b & a & ->) (b' & a' & ->).
  exists (b' +:+ b), (a +:+ a'). by rewrite !str_app_assoc.
Qed.

Lemma fstring_app (l1 l2 : list string) :
  fstring (l1 ++ l2) = fstring l1 +:+ fstring l2.
Proof.
  induction l1 as [|s l1 IH]; [done|].
  cbn [fstring foldr app]. fold (fstring (l1 ++ l2)) (fstring l1).
  by rewrite IH, str_app_assoc.
Qed.

(** A run of consecutive pieces of an f-string occurs in its value. *)
Lemma occurs_in_fstring_sub (l : list string) (i n : nat) :
  occurs_in (fstring (take n (drop i l))) (fstring l).
Proof.
  exists (fstring (take i l)), (fstring (drop n (drop i l))).
  by rewrite <- !fstring_app, take_drop, take_drop.
Qed.

Lemma occurs_in_fstring_lookup (l : list string) (i : nat) (s : string) :
  l !! i = Some s → occurs_in s (fstring l).
Proof.
  intros Hi. pose proof (occurs_in_fstring_sub l i 1) as Hsub.
  rewrite (drop_S l s i Hi) in Hsub. cbn [take fstring foldr] in Hsub.
  by rewrite str_app_nil_r in Hsub.
Qed.

Lemma occurs_in_html_days (s : string) (days : list DailyPlan) (html : string) :
  occurs_in s html ∨ (∃ d, d ∈ days ∧ occurs_in s (html_day d)) →
  occurs_in s (fold_left (λ h d, h +:+ html_day d) days html).
Proof.
  revert html. induction days as [|d0 days IH]; intros html [H|(d & Hd & H)].
  - done.
  - by apply not_elem_of_nil in Hd.
  - cbn [fold_left]. apply IH. left. by apply occurs_in_app_r.
  - cbn [fold_left]. apply IH. apply elem_of_cons in Hd as [->|Hd].
    + left. by apply occurs_in_app_l.
    + right. eauto.
Qed.

Lemma occurs_in_html_week (s : string) (w : Z * WeeklyPlan) (html : string) :
  occurs_in s html ∨ (∃ d, d ∈ snd w ∧ occurs_in s (html_day d)) →
  occurs_in s (html_week html w).
Proof.
  intros H. unfold html_week. apply occurs_in_app_r, occurs_in_html_days.
  destruct H as [H|H]; [left | by right].
  by do 2 apply occurs_in_app_r.
Qed.

Lemma occurs_in_html_weeks (s : string) (ws : list (Z * WeeklyPlan))
    (html : string) :
  occurs_in s html ∨
    (∃ w d, w ∈ ws ∧ d ∈ snd w ∧ occurs_in s (html_day d)) →
  occurs_in s (fold_left html_week ws html).
Proof.
  revert html. induction ws as [|w0 ws IH]; intros html [H|(w & d & Hw & Hd & H)].
  - done.
  - by apply not_elem_of_nil in Hw.
  - cbn [fold_left]. apply IH. left. apply occurs_in_html_week. by left.
  - cbn [fold_left]. apply IH. apply elem_of_cons in Hw as [->|Hw].
    + left. apply occurs_in_html_week. right. eauto.
    + right. eauto.
Qed.

Lemma elem_of_enumerate {A} (start : Z) (l : list A) (x : A) :
  x ∈ l → ∃ i, (i, x) ∈ enumerate start l.
Proof.
  revert start. induction l as [|y l IH]; intros start Hx.
  - by apply not_elem_of_nil in Hx.
  - apply elem_of_cons in Hx as [->|Hx].
    + exists start. left.
    + destruct (IH (start + 1) Hx) as [i Hi]. exists i. by right.
Qed.

Lemma occurs_in_html_of_header (s : string) (p : RunningPlan) :
  occurs_in s (html_header p) → occurs_in s (generate_html_training_plan p).
Proof.
  intros H. unfold generate_html_training_plan.
  apply occurs_in_app_r, occurs_in_html_weeks. left.
  by apply occurs_in_app_r, occurs_in_app_l.
Qed.

Lemma occurs_in_html_of_day (s : string) (p : RunningPlan)
    (week : WeeklyPlan) (d : DailyPlan) :
  week ∈ plan p → d ∈ week → occurs_in s (html_day d) →
  occurs_in s (generate_html_training_plan p).
Proof.
  intros Hw Hd H. unfold generate_html_training_plan.
  apply occurs_in_app_r, occurs_in_html_weeks. right.
  destruct (elem_of_enumerate 1 (plan p) week Hw) as [i Hi].
  exists (i, week), d. done.
Qed.

Lemma occurs_in_html_meal (label : string) (m : DailyMeal) :
  occurs_in (suggestion m) (html_meal label m) ∧
  occurs_in (calories m) (html_meal label m).
Proof.
  split.
  - by apply (occurs_in_fstring_lookup _ 3).
  - by apply (occurs_in_fstring_lookup _ 5).
Qed.

(** C3. [generate_html_training_plan] puts the text fields of the plan
    into the HTML as they are: the motivation, feedback and supplement
    suggestion, and for every day of every week its label, title, details
    and the suggestion and calories of its three meals, occur character
    for character in the returned text; the details stand unchanged
    between the tags of their [div], whatever characters they hold. *)
Theorem generate_html_interpolates_verbatim (p : RunningPlan) :
  Forall (λ field, occurs_in field (generate_html_training_plan p))
    [motivation p; feedback p; supplement_suggestion p] ∧
  occurs_in (fstring ["<h1>"; motivation p; "</h1>"])
    (generate_html_training_plan p) ∧
  ∀ week d, week ∈ plan p → d ∈ week →
    Forall (λ field, occurs_in field (generate_html_training_plan p))
      [day d; titles d; details d;
       suggestion (breakfast d); calories (breakfast d);
       suggestion (lunch d); calories (lunch d);
       suggestion (dinner d); calories (dinner d)] ∧
    occurs_in
      (fstring ["<div class="; dq; "details"; dq; ">"; details d; "</div>"])
      (generate_html_training_plan p).
Proof.
  split; [|split].
  - repeat constructor; apply occurs_in_html_of_header.
    + by apply (occurs_in_fstring_lookup _ 10).
    + by apply (occurs_in_fstring_lookup _ 18).
    + by apply (occurs_in_fstring_lookup _ 26).
  - apply occurs_in_html_of_header.
    assert (occurs_in (fstring ["    <h1>"; motivation p; "</h1>"]) (html_header p))
      as Hh by exact (occurs_in_fstring_sub _ 9 3).
    eapply occurs_in_trans; [|exact Hh].
    exists "    ", EmptyString. by rewrite str_app_nil_r.
  - intros week d Hw Hd.
    pose proof (occurs_in_html_meal "Breakfast" (breakfast d)) as [Hbs Hbc].
    pose proof (occurs_in_html_meal "Lunch" (lunch d)) as [Hls Hlc].
    pose proof (occurs_in_html_meal "Dinner" (dinner d)) as [Hds Hdc].
    assert (occurs_in (html_meal "Breakfast" (breakfast d)) (html_day d))
      as Hb by by apply (occurs_in_fstring_lookup _ 34).
    assert (occurs_in (html_meal "Lunch" (lunch d)) (html_day d))
      as Hl by by apply (occurs_in_fstring_lookup _ 35).
    assert (occurs_in (html_meal "Dinner" (dinner d)) (html_day d))
      as Hn by by apply (occurs_in_fstring_lookup _ 36).
    split.
    + repeat constructor; apply (occurs_in_html_of_day _ p week d Hw Hd).
      * by apply (occurs_in_fstring_lookup _ 11).
      * by apply (occurs_in_fstring_lookup _ 13).
      * by apply (occurs_in_fstring_lookup _ 21).
      * by eapply occurs_in_trans.
      * by eapply occurs_in_trans.
      * by eapply occurs_in_trans.
      * by eapply occurs_in_trans.
      * by eapply occurs_in_trans.
      * by eapply occurs_in_trans.
    + apply (occurs_in_html_of_day _ p week d Hw Hd).
      assert (occurs_in
                (fstring ["            <div class="; dq; "details"; dq; ">";
                          details d; "</div>"]) (html_day d))
        as Hh by exact (occurs_in_fstring_sub _ 16 7).
      eapply occurs_in_trans; [|exact Hh].
      exists "            ", EmptyString. by rewrite str_app_nil_r.
Qed.

Lemma generate_html_interpolates_verbatim_witness :
  occurs_in "5 km at <6:00/km & stretch"
    (generate_html_training_plan Samples.two_weeks) ∧
  occurs_in
    (fstring ["<div class="; dq; "details"; dq; ">";
              "5 km at <6:00/km & stretch"; "</div>"])
    (generate_html_training_plan Samples.two_weeks).
Proof.
  destruct (generate_html_interpolates_verbatim Samples.two_weeks)
    as (_ & _ & Hdays).
  destruct (Hdays [Samples.monday; Samples.wednesday; Samples.friday]
              Samples.monday) as [Hfields Hslot].
  - left.
  - left.
  - split; [|exact Hslot].
    apply Forall_cons in Hfields as [_ Hfields].
    apply Forall_cons in Hfields as [_ Hfields].
    by apply Forall_cons in Hfields as [Hdetails _].
Defined.

(** ** The loop of load_plan_from_db *)

#[global] Instance order_by_week_day_trans : Transitive order_by_week_day.
Proof.
  intros r1 r2 r3 [H12|[E12 L12]] [H23|[E23 L23]]; unfold order_by_week_day.
  - left. lia.
  - left. lia.
  - left. lia.
  - right. split; [lia | by etrans].
Qed.

#[global] Instance order_by_week_day_total : Total order_by_week_day.
Proof.
  intros r1 r2. unfold order_by_week_day.
  destruct (Z.lt_trichotomy (jr_week_number r1) (jr_week_number r2))
    as [Hlt|[Heq|Hgt]].
  - left. by left.
  - destruct (total String.le (jr_day r1) (jr_day r2)).
    + left. by right.
    + right. by right.
  - right. by left.
Qed.

Lemma select_daily_plans_sorted (plan_id : Z) (db : DB) :
  StronglySorted order_by_week_day (select_daily_plans plan_id db).
Proof. apply (StronglySorted_merge_sort order_by_week_day). Qed.

Lemma select_daily_plans_perm (plan_id : Z) (db : DB) :
  select_daily_plans plan_id db ≡ₚ joined plan_id db.
Proof. apply merge_sort_Permutation. Qed.

Lemma daily_of_row_Some (row : joined_row) (d : DailyPlan) :
  daily_of_row row = Some d ↔ new_DailyPlan row = Ok d.
Proof.
  unfold daily_of_row. destruct (new_DailyPlan row); split; congruence.
Qed.

Lemma new_DailyPlan_row_of_daily (w : Z) (d : DailyPlan) :
  new_DailyPlan (row_of_daily w d) = Ok d.
Proof. by destruct d as [? ? ? [? ?] [? ?] [? ?]]. Qed.

Lemma daily_of_row_of_daily (w : Z) (d : DailyPlan) :
  daily_of_row (row_of_daily w d) = Some d.
Proof. apply daily_of_row_Some, new_DailyPlan_row_of_daily. Qed.

Lemma new_DailyPlan_day (row : joined_row) (d : DailyPlan) :
  new_DailyPlan row = Ok d →
  day d = jr_day row ∧ titles d = jr_titles row ∧ details d = jr_details row.
Proof.
  unfold new_DailyPlan.
  destruct (new_DailyMeal (jr_breakfast_suggestion row) _); cbn; [|discriminate].
  destruct (new_DailyMeal (jr_lunch_suggestion row) _); cbn; [|discriminate].
  destruct (new_DailyMeal (jr_dinner_suggestion row) _); cbn; [|discriminate].
  by intros [= <-].
Qed.

Lemma add_row_Ok (weeks : gmap Z (list DailyPlan)) (row : joined_row)
    (d : DailyPlan) :
  new_DailyPlan row = Ok d → add_row weeks row = Ok (add_daily weeks row d).
Proof.
  intros Hd. unfold add_row, add_daily. rewrite Hd. cbn.
  destruct (weeks !! jr_week_number row) as [l|] eqn:Hw.
  - by rewrite Hw.
  - by rewrite lookup_insert_eq, insert_insert_eq.
Qed.

Lemma add_row_inv (weeks weeks' : gmap Z (list DailyPlan)) (row : joined_row) :
  add_row weeks row = Ok weeks' →
  ∃ d, new_DailyPlan row = Ok d ∧ weeks' = add_daily weeks row d.
Proof.
  destruct (new_DailyPlan row) as [d|e] eqn:Hd.
  - rewrite (add_row_Ok weeks row d Hd). intros [= <-]. eauto.
  - unfold add_row. by rewrite Hd.
Qed.

Lemma lookup_add_daily (weeks : gmap Z (list DailyPlan)) (row : joined_row)
    (d : DailyPlan) (w : Z) :
  add_daily weeks row d !! w =
    if decide (jr_week_number row = w)
    then Some (default [] (weeks !! w) ++ [d])
    else weeks !! w.
Proof.
  unfold add_daily. destruct (decide (jr_week_number row = w)) as [<-|Hne].
  - by rewrite lookup_insert_eq.
  - by rewrite lookup_insert_ne.
Qed.

Lemma days_of_week_cons (row : joined_row) (rows : list joined_row) (w : Z) :
  days_of_week (row :: rows) w =
    if decide (jr_week_number row = w)
    then match daily_of_row row with
         | Some d => d :: days_of_week rows w
         | None => days_of_week rows w
         end
    else days_of_week rows w.
Proof.
  unfold days_of_week. rewrite filter_cons.
  by destruct (decide (jr_week_number row = w)).
Qed.

(** When the loop ends without an exception, every row had its meals, and
    [weeks] holds, under each week number, the days of the rows of that
    week in the order of the rows. *)
Lemma foldM_add_row_inv (rows : list joined_row)
    (acc weeks : gmap Z (list DailyPlan)) :
  foldM add_row rows acc = Ok weeks →
  Forall (λ row, is_Some (daily_of_row row)) rows ∧
  ∀ w, default [] (weeks !! w) = default [] (acc !! w) ++ days_of_week rows w ∧
       (is_Some (weeks !! w) ↔
        is_Some (acc !! w) ∨ ∃ row, row ∈ rows ∧ jr_week_number row = w).
Proof.
  revert acc. induction rows as [|row rows IH]; intros acc Hfold.
  - cbn in Hfold. injection Hfold as <-. split; [constructor|].
    intros w. split; [by rewrite app_nil_r|].
    split; [by left|]. intros [H|(row & Hrow & _)]; [done|].
    by apply not_elem_of_nil in Hrow.
  - cbn [foldM] in Hfold.
    destruct (add_row acc row) as [acc'|e] eqn:Hadd; [|discriminate].
    cbn in Hfold. apply add_row_inv in Hadd as (d & Hd & ->).
    destruct (IH _ Hfold) as [Hall Hweeks].
    assert (daily_of_row row = Some d) as Hd' by by apply daily_of_row_Some.
    split; [constructor; [by rewrite Hd'|done]|].
    intros w. destruct (Hweeks w) as [Hdef Hsome].
    rewrite lookup_add_daily in Hdef, Hsome.
    rewrite days_of_week_cons, Hd'.
    destruct (decide (jr_week_number row = w)) as [Hw|Hw].
    + split; [by rewrite Hdef; cbn; rewrite <- app_assoc|].
      rewrite Hsome. split; [|intros _; by left].
      intros _. right. exists row. split; [left|done].
    + split; [done|]. rewrite Hsome. split.
      * intros [H|(row' & Hrow' & Hw')]; [by left|].
        right. exists row'. split; [by right|done].
      * intros [H|(row' & Hrow' & Hw')]; [by left|].
        apply elem_of_cons in Hrow' as [->|Hrow']; [done|]. right. eauto.
Qed.

Lemma foldM_add_row_Ok (rows : list joined_row) (acc : gmap Z (list DailyPlan)) :
  Forall (λ row, is_Some (daily_of_row row)) rows →
  ∃ weeks, foldM add_row rows acc = Ok weeks.
Proof.
  revert acc. induction rows as [|row rows IH]; intros acc Hall.
  - by exists acc.
  - apply Forall_cons in Hall as [[d Hd%daily_of_row_Some] Hall].
    cbn [foldM]. rewrite (add_row_Ok acc row d Hd). cbn. by apply IH.
Qed.

Lemma StronglySorted_le_lt (l : list Z) :
  StronglySorted Z.le l → NoDup l → StronglySorted Z.lt l.
Proof.
  induction 1 as [|x l Hl IH Hx]; intros Hnd; [constructor|].
  apply NoDup_cons in Hnd as [Hnin Hnd].
  constructor; [by apply IH|].
  apply Forall_forall. intros y Hy.
  rewrite Forall_forall in Hx. specialize (Hx y Hy).
  assert (x ≠ y) by (intros ->; done). lia.
Qed.

(** Two strictly increasing lists with the same elements are equal. *)
Lemma StronglySorted_lt_unique (l1 l2 : list Z) :
  StronglySorted Z.lt l1 → StronglySorted Z.lt l2 →
  (∀ x, x ∈ l1 ↔ x ∈ l2) → l1 = l2.
Proof.
  intros H1 H2 Hel.
  assert (∀ l, StronglySorted Z.lt l → NoDup l) as Hnd.
  { induction 1 as [|x l Hl IH Hx]; [constructor|].
    apply NoDup_cons. split; [|done].
    intros Hin. rewrite Forall_forall in Hx. specialize (Hx x Hin). lia. }
  apply (StronglySorted_unique_strong Z.lt); [|done|done|].
  - intros x1 x2 _ _ ? ?. lia.
  - apply NoDup_Permutation; auto.
Qed.

Lemma sorted_keys (weeks : gmap Z (list DailyPlan)) :
  StronglySorted Z.lt (merge_sort Z.le (elements (dom weeks))) ∧
  ∀ w, w ∈ merge_sort Z.le (elements (dom weeks)) ↔ is_Some (weeks !! w).
Proof.
  split.
  - apply StronglySorted_le_lt.
    + apply (StronglySorted_merge_sort Z.le).
    + rewrite merge_sort_Permutation. apply NoDup_elements.
  - intros w. by rewrite merge_sort_Permutation, elem_of_elements, elem_of_dom.
Qed.

(** What a successful load returns: the text fields of a row with the id,
    and one week per week number among the selected rows, in increasing
    order of the numbers, each the days of the rows of that week. *)
Lemma load_plan_shape (plan_id : Z) (db : DB) (p : RunningPlan) :
  load_plan plan_id db = Ok (Some p) →
  select_running_plan plan_id db =
    Some (motivation p, feedback p, supplement_suggestion p) ∧
  Forall (λ row, is_Some (daily_of_row row)) (select_daily_plans plan_id db) ∧
  ∃ week_nums,
    StronglySorted Z.lt week_nums ∧
    (∀ w, w ∈ week_nums ↔
          ∃ row, row ∈ joined plan_id db ∧ jr_week_number row = w) ∧
    plan p = days_of_week (select_daily_plans plan_id db) <$> week_nums.
Proof.
  unfold load_plan.
  destruct (select_running_plan plan_id db) as [[[m f] s]|]; [|discriminate].
  destruct (foldM add_row (select_daily_plans plan_id db) ∅)
    as [weeks|e] eqn:Hfold; [|discriminate].
  cbn. intros [= <-]. cbn.
  apply foldM_add_row_inv in Hfold as [Hall Hweeks].
  split; [done|]. split; [done|].
  destruct (sorted_keys weeks) as [Hsorted Hkeys].
  exists (merge_sort Z.le (elements (dom weeks))).
  split; [done|]. split.
  - intros w. rewrite Hkeys. destruct (Hweeks w) as [_ ->].
    rewrite lookup_empty. split.
    + intros [[? [=]]|(row & Hrow & Hw)].
      exists row. by rewrite <- select_daily_plans_perm.
    + intros (row & Hrow & Hw). right. exists row.
      by rewrite select_daily_plans_perm.
  - unfold plan_weeks. apply list_fmap_ext. intros i w _.
    destruct (Hweeks w) as [-> _]. by rewrite lookup_empty.
Qed.

Lemma days_of_week_sorted (rows : list joined_row) (w : Z) :
  StronglySorted order_by_week_day rows →
  StronglySorted (λ d1 d2, String.le (day d1) (day d2)) (days_of_week rows w).
Proof.
  induction 1 as [|row rows Hs IH Hrow]; [constructor|].
  rewrite days_of_week_cons.
  destruct (decide (jr_week_number row = w)) as [Hw|Hw]; [|done].
  destruct (daily_of_row row) as [d|] eqn:Hd; [|done].
  constructor; [done|]. apply Forall_forall. intros d' Hd'.
  apply list_elem_of_omap in Hd' as (row' & Hin & Hd'').
  apply list_elem_of_filter in Hin as [Hw' Hin].
  rewrite Forall_forall in Hrow. specialize (Hrow row' Hin).
  apply daily_of_row_Some, new_DailyPlan_day in Hd as [-> _].
  apply daily_of_row_Some, new_DailyPlan_day in Hd'' as [-> _].
  destruct Hrow as [Hlt|[_ Hle]]; [lia|done].
Qed.

Lemma days_of_week_Forall2 (rows : list joined_row) (w : Z) :
  Forall (λ row, is_Some (daily_of_row row)) rows →
  Forall2 (λ row d, new_DailyPlan row = Ok d)
    (filter (λ row, jr_week_number row = w) rows) (days_of_week rows w).
Proof.
  induction 1 as [|row rows [d Hd] Hall IH]; [constructor|].
  rewrite days_of_week_cons, filter_cons.
  destruct (decide (jr_week_number row = w)); [|done].
  rewrite Hd. constructor; [by apply daily_of_row_Some|done].
Qed.

Lemma left_join_inhabited (dp : daily_plan_row) (meal_type : string)
    (meals : list daily_meal_row) :
  ∃ dm, dm ∈ left_join dp meal_type meals.
Proof.
  unfold left_join. destruct (filter _ meals) as [|dm ms].
  - exists None. left.
  - exists (Some dm). left.
Qed.

(** The week numbers among the joined rows of a plan are those of its
    [daily_plan] rows. *)
Lemma joined_week_numbers (plan_id : Z) (db : DB) (w : Z) :
  (∃ row, row ∈ joined plan_id db ∧ jr_week_number row = w) ↔
  (∃ dp, dp ∈ daily_plan db ∧ dp_running_plan_id dp = plan_id ∧
         dp_week_number dp = w).
Proof.
  unfold joined. split.
  - intros (row & Hrow & Hw).
    apply list_elem_of_bind in Hrow as (dp & Hrow & Hdp).
    apply list_elem_of_bind in Hrow as (dm1 & Hrow & _).
    apply list_elem_of_bind in Hrow as (dm2 & Hrow & _).
    apply list_elem_of_bind in Hrow as (dm3 & Hrow & _).
    apply list_elem_of_singleton in Hrow as ->.
    apply list_elem_of_filter in Hdp as [Hid Hdp]. eauto.
  - intros (dp & Hdp & Hid & Hw).
    destruct (left_join_inhabited dp "breakfast" (daily_meal db)) as [dm1 H1].
    destruct (left_join_inhabited dp "lunch" (daily_meal db)) as [dm2 H2].
    destruct (left_join_inhabited dp "dinner" (daily_meal db)) as [dm3 H3].
    exists (mk_joined_row (dp_day dp) (dp_titles dp) (dp_details dp)
              (dp_week_number dp)
              (dm_suggestion <$> dm1) (dm_calories <$> dm1)
              (dm_suggestion <$> dm2) (dm_calories <$> dm2)
              (dm_suggestion <$> dm3) (dm_calories <$> dm3)).
    split; [|exact Hw].
    apply list_elem_of_bind. exists dp. split; [|by apply list_elem_of_filter].
    apply list_elem_of_bind. exists dm1. split; [|done].
    apply list_elem_of_bind. exists dm2. split; [|done].
    apply list_elem_of_bind. exists dm3. split; [|done].
    cbn. apply list_elem_of_singleton. reflexivity.
Qed.

Lemma load_plan_from_db_Some (plan_id : Z) (db : DB) (p : RunningPlan) :
  load_plan_from_db plan_id (Ready db) = Some p ↔
  load_plan plan_id db = Ok (Some p).
Proof.
  unfold load_plan_from_db. cbn [connect mbind Result_bind].
  destruct (load_plan plan_id db) as [[q|]|e]; split; congruence.
Qed.

(** C2. A plan returned by [load_plan_from_db] has one week per
    [week_number] stored for the plan, the weeks in increasing order of
    that number; a week holds exactly the days built from the selected rows
    with its number, and its days are in the order of their labels
    ([String.le] on [day]), which is the order of the selected rows and not
    the order of insertion. *)
Theorem load_plan_groups_by_week_sorts_by_day (plan_id : Z) (db : DB)
    (p : RunningPlan) :
  load_plan_from_db plan_id (Ready db) = Some p →
  select_daily_plans plan_id db ≡ₚ joined plan_id db ∧
  ∃ week_nums,
    StronglySorted Z.lt week_nums ∧
    (∀ w, w ∈ week_nums ↔
          ∃ dp, dp ∈ daily_plan db ∧ dp_running_plan_id dp = plan_id ∧
                dp_week_number dp = w) ∧
    Forall2 (λ w days,
       StronglySorted (λ d1 d2, String.le (day d1) (day d2)) days ∧
       Forall2 (λ row d, new_DailyPlan row = Ok d)
         (filter (λ row, jr_week_number row = w)
            (select_daily_plans plan_id db))
         days)
      week_nums (plan p).
Proof.
  intros Hload%load_plan_from_db_Some.
  apply load_plan_shape in Hload as (_ & Hall & week_nums & Hsorted & Hmem & Hplan).
  split; [apply select_daily_plans_perm|].
  exists week_nums. split; [done|]. split.
  - intros w. by rewrite Hmem, joined_week_numbers.
  - rewrite Hplan. apply Forall2_fmap_r, Forall_Forall2_diag, Forall_forall.
    intros w _. split.
    + apply days_of_week_sorted, select_daily_plans_sorted.
    + by apply days_of_week_Forall2.
Qed.

Lemma load_plan_groups_by_week_sorts_by_day_witness :
  load_plan_from_db 1 Samples.store3 = Some Samples.two_weeks_by_label ∧
  ∃ week_nums,
    StronglySorted Z.lt week_nums ∧
    (∀ w, w ∈ week_nums ↔
          ∃ dp, dp ∈ daily_plan (Samples.db_of Samples.store3) ∧
                dp_running_plan_id dp = 1 ∧ dp_week_number dp = w) ∧
    Forall2 (λ w days,
       StronglySorted (λ d1 d2, String.le (day d1) (day d2)) days ∧
       Forall2 (λ row d, new_DailyPlan row = Ok d)
         (filter (λ row, jr_week_number row = w)
            (select_daily_plans 1 (Samples.db_of Samples.store3)))
         days)
      week_nums (plan Samples.two_weeks_by_label).
Proof.
  assert (load_plan_from_db 1 (Ready (Samples.db_of Samples.store3)) =
            Some Samples.two_weeks_by_label) as Hload
    by (vm_compute; reflexivity).
  split; [exact Hload|].
  exact (proj2 (load_plan_groups_by_week_sorts_by_day 1
                  (Samples.db_of Samples.store3) Samples.two_weeks_by_label Hload)).
Defined.

(** ** save_plan_to_db *)

Lemma bind_ext_elem {A B} (f g : A → list B) (l : list A) :
  (∀ x, x ∈ l → f x = g x) → l ≫= f = l ≫= g.
Proof.
  induction l as [|x l IH]; intros Hfg; [done|].
  rewrite !bind_cons, (Hfg x) by left.
  f_equal. apply IH. intros y Hy. apply Hfg. by right.
Qed.

Lemma bind_one {A B} (f : A → list B) (x : A) : [x] ≫= f = f x.
Proof. rewrite bind_cons. apply app_nil_r. Qed.

Lemma left_join_app_other (dp : daily_plan_row) (meal_type : string)
    (meals new : list daily_meal_row) :
  (∀ dm, dm ∈ new → dm_daily_plan_id dm ≠ dp_id dp) →
  left_join dp meal_type (meals ++ new) = left_join dp meal_type meals.
Proof.
  intros Hnew. unfold left_join.
  rewrite filter_app, (filter_none _ new), app_nil_r; [done|].
  intros dm Hdm [Hid _]. by apply (Hnew dm).
Qed.

(** The three meals [save_daily] inserts for the day with key [dpid]. *)
Lemma left_join_new_meals (dp : daily_plan_row) (meals : list daily_meal_row)
    (i1 i2 i3 : Z) (d : DailyPlan) (mt : MealType) :
  (∀ dm, dm ∈ meals → dm_daily_plan_id dm ≠ dp_id dp) →
  left_join dp (meal_type_name mt)
    (meals ++
     [mk_daily_meal_row i1 (dp_id dp) "breakfast"
        (suggestion (breakfast d)) (calories (breakfast d));
      mk_daily_meal_row i2 (dp_id dp) "lunch"
        (suggestion (lunch d)) (calories (lunch d));
      mk_daily_meal_row i3 (dp_id dp) "dinner"
        (suggestion (dinner d)) (calories (dinner d))]) =
  [Some (mk_daily_meal_row
           match mt with Breakfast => i1 | Lunch => i2 | Dinner => i3 end
           (dp_id dp) (meal_type_name mt)
           (suggestion (getattr_meal d mt)) (calories (getattr_meal d mt)))].
Proof.
  intros Hold. unfold left_join.
  rewrite filter_app, (filter_none _ meals), app_nil_l;
    [|intros dm Hdm [Hid _]; by apply (Hold dm)].
  destruct mt; cbn [meal_type_name getattr_meal];
    repeat first
      [ rewrite filter_cons_True by (cbn; done)
      | rewrite filter_cons_False by (cbn; intros [_ ?]; discriminate) ];
    by rewrite filter_nil.
Qed.

Lemma save_daily_db (rid wk : Z) (cur : Cursor) (d : DailyPlan) :
  cur_db (save_daily rid wk cur d) =
    {| running_plan := running_plan (cur_db cur);
       daily_plan := daily_plan (cur_db cur) ++
         [mk_daily_plan_row (seq_daily_plan (cur_db cur) + 1) rid
            (day d) (titles d) (details d) wk];
       daily_meal := daily_meal (cur_db cur) ++
         [mk_daily_meal_row (seq_daily_meal (cur_db cur) + 1)
            (seq_daily_plan (cur_db cur) + 1) "breakfast"
            (suggestion (breakfast d)) (calories (breakfast d));
          mk_daily_meal_row (seq_daily_meal (cur_db cur) + 1 + 1)
            (seq_daily_plan (cur_db cur) + 1) "lunch"
            (suggestion (lunch d)) (calories (lunch d));
          mk_daily_meal_row (seq_daily_meal (cur_db cur) + 1 + 1 + 1)
            (seq_daily_plan (cur_db cur) + 1) "dinner"
            (suggestion (dinner d)) (calories (dinner d))];
       seq_running_plan := seq_running_plan (cur_db cur);
       seq_daily_plan := seq_daily_plan (cur_db cur) + 1;
       seq_daily_meal := seq_daily_meal (cur_db cur) + 1 + 1 + 1 |}.
Proof. cbn. by rewrite <- !app_assoc. Qed.

(** One turn of the inner loop of [save_plan_to_db] keeps the database
    well formed, leaves [running_plan] alone, and adds to the joined rows
    of the plan exactly the row of the day. *)
Lemma save_daily_spec (rid wk : Z) (cur : Cursor) (d : DailyPlan) :
  db_wf (cur_db cur) → rid ≤ seq_running_plan (cur_db cur) →
  db_wf (cur_db (save_daily rid wk cur d)) ∧
  seq_running_plan (cur_db (save_daily rid wk cur d)) =
    seq_running_plan (cur_db cur) ∧
  running_plan (cur_db (save_daily rid wk cur d)) = running_plan (cur_db cur) ∧
  joined rid (cur_db (save_daily rid wk cur d)) =
    joined rid (cur_db cur) ++ [row_of_daily wk d].
Proof.
  intros (Hrp & Hdp & Hdm) Hrid. rewrite save_daily_db.
  set (db := cur_db cur) in *.
  rewrite Forall_forall in Hrp. rewrite Forall_forall in Hdp.
  rewrite Forall_forall in Hdm.
  split; [|split; [done|split; [done|]]].
  - unfold db_wf. cbn. split; [by apply Forall_forall|]. split.
    + apply Forall_app. split.
      * apply Forall_forall. intros dp Hin. destruct (Hdp dp Hin). lia.
      * repeat constructor; cbn; lia.
    + apply Forall_app. split.
      * apply Forall_forall. intros dm Hin. specialize (Hdm dm Hin). lia.
      * repeat constructor; cbn; lia.
  - unfold joined. cbn [daily_plan daily_meal].
    rewrite filter_app, bind_app. f_equal.
    + apply bind_ext_elem. intros dp Hin.
      apply list_elem_of_filter in Hin as [_ Hin]. destruct (Hdp dp Hin) as [Hle _].
      rewrite !left_join_app_other; [done|..];
        intros dm Hdm'; repeat (apply elem_of_cons in Hdm' as [->|Hdm']);
        cbn; try lia; by apply not_elem_of_nil in Hdm'.
    + rewrite filter_cons_True by done. rewrite filter_nil, bind_one.
      set (dp := mk_daily_plan_row _ _ _ _ _ _).
      change (seq_daily_plan db + 1) with (dp_id dp).
      assert (∀ dm, dm ∈ daily_meal db → dm_daily_plan_id dm ≠ dp_id dp) as Hold.
      { intros dm Hin. specialize (Hdm dm Hin). cbn. lia. }
      rewrite (left_join_new_meals dp _ _ _ _ d Breakfast Hold), bind_one.
      rewrite (left_join_new_meals dp _ _ _ _ d Lunch Hold), bind_one.
      rewrite (left_join_new_meals dp _ _ _ _ d Dinner Hold), bind_one.
      reflexivity.
Qed.

Lemma save_weekly_spec (rid : Z) (cur : Cursor) (w : Z * WeeklyPlan) :
  db_wf (cur_db cur) → rid ≤ seq_running_plan (cur_db cur) →
  db_wf (cur_db (save_weekly rid cur w)) ∧
  seq_running_plan (cur_db (save_weekly rid cur w)) =
    seq_running_plan (cur_db cur) ∧
  running_plan (cur_db (save_weekly rid cur w)) = running_plan (cur_db cur) ∧
  joined rid (cur_db (save_weekly rid cur w)) =
    joined rid (cur_db cur) ++ (row_of_daily (fst w) <$> snd w).
Proof.
  destruct w as [wk days]. unfold save_weekly. cbn [fst snd].
  revert cur. induction days as [|d days IH]; intros cur Hwf Hrid.
  - cbn. by rewrite app_nil_r.
  - cbn [fold_left].
    destruct (save_daily_spec rid wk cur d Hwf Hrid) as (Hwf' & Hseq & Hrp & Hj).
    destruct (IH (save_daily rid wk cur d)) as (Hwf'' & Hseq' & Hrp' & Hj');
      [done | by rewrite Hseq |].
    split; [done|]. split; [by rewrite Hseq'|]. split; [by rewrite Hrp'|].
    by rewrite Hj', Hj, fmap_cons, <- app_assoc.
Qed.

Lemma save_weeks_spec (rid start : Z) (weeks : list WeeklyPlan) (cur : Cursor) :
  db_wf (cur_db cur) → rid ≤ seq_running_plan (cur_db cur) →
  db_wf (cur_db (fold_left (save_weekly rid) (enumerate start weeks) cur)) ∧
  running_plan (cur_db (fold_left (save_weekly rid) (enumerate start weeks) cur))
    = running_plan (cur_db cur) ∧
  joined rid (cur_db (fold_left (save_weekly rid) (enumerate start weeks) cur))
    = joined rid (cur_db cur) ++ plan_rows start weeks.
Proof.
  revert start cur. induction weeks as [|week weeks IH]; intros start cur Hwf Hrid.
  - cbn. by rewrite app_nil_r.
  - cbn [enumerate fold_left plan_rows].
    destruct (save_weekly_spec rid cur (start, week) Hwf Hrid)
      as (Hwf' & Hseq & Hrp & Hj).
    destruct (IH (start + 1) (save_weekly rid cur (start, week)))
      as (Hwf'' & Hrp' & Hj'); [done | by rewrite Hseq |].
    split; [done|]. split; [by rewrite Hrp'|].
    by rewrite Hj', Hj, <- app_assoc.
Qed.

(** What [save_plan_to_db] leaves in a well-formed database: a new id, the
    row of the plan under it, and as joined rows of the id the rows of the
    days of the plan, week by week. *)
Lemma save_plan_spec (now : string) (p : RunningPlan) (db : DB) :
  db_wf db →
  fst (save_plan now p db) = seq_running_plan db + 1 ∧
  db_wf (snd (save_plan now p db)) ∧
  select_running_plan (fst (save_plan now p db)) (snd (save_plan now p db)) =
    Some (motivation p, feedback p, supplement_suggestion p) ∧
  joined (fst (save_plan now p db)) (snd (save_plan now p db)) =
    plan_rows 1 (plan p).
Proof.
  intros (Hrp & Hdp & Hdm). unfold save_plan. cbn [fst snd].
  set (cur1 := insert_running_plan _ _ _ _ _).
  set (id := seq_running_plan db + 1).
  change (lastrowid cur1) with id.
  rewrite Forall_forall in Hrp. rewrite Forall_forall in Hdp.
  assert (db_wf (cur_db cur1)) as Hwf1.
  { unfold db_wf. cbn. split; [|split; [|done]].
    - apply Forall_app. split; [|repeat constructor; cbn; lia].
      apply Forall_forall. intros r Hr. specialize (Hrp r Hr). lia.
    - apply Forall_forall. intros dp Hin. destruct (Hdp dp Hin). lia. }
  assert (joined id (cur_db cur1) = []) as Hj1.
  { unfold joined. cbn [cur_db cur1 insert_running_plan daily_plan].
    rewrite (filter_none (λ dp, dp_running_plan_id dp = id)); [done|].
    intros dp Hin. destruct (Hdp dp Hin). unfold id. lia. }
  destruct (save_weeks_spec id 1 (plan p) cur1 Hwf1) as (Hwf & Hrows & Hj).
  { cbn. unfold id. lia. }
  split; [done|]. split; [done|]. split.
  - unfold select_running_plan. rewrite Hrows.
    cbn [cur_db cur1 insert_running_plan running_plan].
    rewrite filter_app, (filter_none (λ r, rp_id r = id)).
    + by rewrite filter_cons_True.
    + intros r Hr. specialize (Hrp r Hr). unfold id. lia.
  - by rewrite Hj, Hj1.
Qed.

(** The databases the code produces are well formed. *)
Lemma db_wf_empty : db_wf empty_db.
Proof. unfold db_wf. cbn. auto. Qed.

Lemma db_wf_save (now : string) (p : RunningPlan) (db : DB) :
  db_wf db → db_wf (snd (save_plan now p db)).
Proof. intros Hwf. by apply save_plan_spec. Qed.

Lemma db_wf_delete (plan_id : Z) (db : DB) :
  db_wf db →
  db_wf (delete_running_plan plan_id
           (delete_daily_plans plan_id (delete_daily_meals plan_id db))).
Proof.
  intros (Hrp & Hdp & Hdm). unfold db_wf. cbn.
  split; [|split]; by apply Forall_filter_keep.
Qed.

Lemma reachable_wf (db : DB) : reachable db → db_wf db.
Proof.
  induction 1 as [|now p db _ IH|plan_id db _ IH].
  - apply db_wf_empty.
  - by apply db_wf_save.
  - by apply db_wf_delete.
Qed.

(** ** The rows of a plan, week by week *)

Lemma days_of_week_app (l1 l2 : list joined_row) (w : Z) :
  days_of_week (l1 ++ l2) w = days_of_week l1 w ++ days_of_week l2 w.
Proof. unfold days_of_week. by rewrite filter_app, omap_app. Qed.

Lemma days_of_week_other (rows : list joined_row) (w : Z) :
  (∀ row, row ∈ rows → jr_week_number row ≠ w) → days_of_week rows w = [].
Proof.
  intros Hne. unfold days_of_week.
  by rewrite (filter_none (λ row, jr_week_number row = w)).
Qed.

Lemma days_of_week_same (w : Z) (week : WeeklyPlan) :
  days_of_week (row_of_daily w <$> week) w = week.
Proof.
  induction week as [|d week IH]; [done|].
  rewrite fmap_cons, days_of_week_cons, decide_True by done.
  by rewrite daily_of_row_of_daily, IH.
Qed.

Lemma plan_rows_ge (start : Z) (weeks : list WeeklyPlan) (row : joined_row) :
  row ∈ plan_rows start weeks → start ≤ jr_week_number row.
Proof.
  revert start. induction weeks as [|week weeks IH]; intros start Hrow.
  - by apply not_elem_of_nil in Hrow.
  - cbn [plan_rows] in Hrow. apply elem_of_app in Hrow as [Hrow|Hrow].
    + apply list_elem_of_fmap in Hrow as (d & -> & _). cbn. lia.
    + apply IH in Hrow. lia.
Qed.

Lemma plan_rows_daily (start : Z) (weeks : list WeeklyPlan) :
  Forall (λ row, is_Some (daily_of_row row)) (plan_rows start weeks).
Proof.
  revert start. induction weeks as [|week weeks IH]; intros start; [constructor|].
  cbn [plan_rows]. apply Forall_app. split; [|apply IH].
  apply Forall_fmap, Forall_forall. intros d _.
  unfold compose. by rewrite daily_of_row_of_daily.
Qed.

Lemma days_of_week_plan_rows (start : Z) (weeks : list WeeklyPlan) (k : nat)
    (week : WeeklyPlan) :
  weeks !! k = Some week →
  days_of_week (plan_rows start weeks) (start + Z.of_nat k) = week.
Proof.
  revert start k. induction weeks as [|week0 weeks IH]; intros start k Hk.
  - done.
  - cbn [plan_rows]. rewrite days_of_week_app. destruct k as [|k].
    + injection Hk as ->. rewrite Z.add_0_r, days_of_week_same.
      rewrite days_of_week_other; [by rewrite app_nil_r|].
      intros row Hrow%plan_rows_ge. lia.
    + rewrite days_of_week_other.
      * replace (start + Z.of_nat (S k)) with (start + 1 + Z.of_nat k) by lia.
        by apply IH.
      * intros row Hrow. apply list_elem_of_fmap in Hrow as (d & -> & _).
        cbn. lia.
Qed.

Lemma plan_rows_week_numbers (start : Z) (weeks : list WeeklyPlan) (w : Z) :
  Forall (λ week, week ≠ []) weeks →
  (∃ row, row ∈ plan_rows start weeks ∧ jr_week_number row = w) ↔
  start ≤ w < start + Z.of_nat (length weeks).
Proof.
  unfold WeeklyPlan in *. intros Hne. revert start.
  induction Hne as [|week weeks Hweek Hne IH]; intros start.
  - cbn. split; [|lia]. intros (row & Hrow & _). by apply not_elem_of_nil in Hrow.
  - cbn [plan_rows length]. split.
    + intros (row & Hrow & <-). apply elem_of_app in Hrow as [Hrow|Hrow].
      * apply list_elem_of_fmap in Hrow as (d & -> & _). cbn. lia.
      * assert (start + 1 ≤ jr_week_number row <
                start + 1 + Z.of_nat (length weeks)) by (apply IH; eauto).
        lia.
    + intros Hw. destruct (decide (w = start)) as [->|Hneq].
      * destruct week as [|d week]; [done|].
        exists (row_of_daily start d). split; [|done].
        apply elem_of_app. left. rewrite fmap_cons. left.
      * destruct (proj2 (IH (start + 1))) as (row & Hrow & Hrw); [lia|].
        exists row. split; [|done]. apply elem_of_app. by right.
Qed.

Lemma validate_weeks_nonempty (p : RunningPlan) :
  validate_plan_structure (obj_of_plan p) = true →
  Forall (λ week, week ≠ []) (plan p).
Proof.
  intros (_ & Hne & _)%validate_plan_structure_iff.
  apply Forall_forall. intros week Hweek ->.
  apply (Hne []); [|done]. cbn.
  change [] with (obj_of_day <$> []). by apply (list_elem_of_fmap_2 (fmap obj_of_day)).
Qed.

Lemma seqZ_sorted (m : Z) (n : nat) : StronglySorted Z.lt (seqZ m (Z.of_nat n)).
Proof.
  revert m. induction n as [|n IH]; intros m; [constructor|].
  rewrite seqZ_cons by lia.
  replace (Z.pred (Z.of_nat (S n))) with (Z.of_nat n) by lia.
  constructor; [apply IH|].
  apply Forall_forall. intros k Hk%elem_of_seqZ. lia.
Qed.

(** ** The round trip *)

(** C1. For a valid plan saved into a well-formed database,
    [save_plan_to_db] returns an id and [load_plan_from_db] on that id
    returns a plan with the same motivation, feedback and supplement
    suggestion and with as many weeks; the week at each position holds the
    same day records as the original week at that position (as many times
    each, hence the same set), in an order that may differ. *)
Theorem save_then_load_roundtrip (now : string) (p : RunningPlan) (db : DB) :
  db_wf db →
  validate_plan_structure (obj_of_plan p) = true →
  ∃ plan_id db' p',
    save_plan_to_db now p (Ready db) = (Some plan_id, Ready db') ∧
    load_plan_from_db plan_id (Ready db') = Some p' ∧
    motivation p' = motivation p ∧
    feedback p' = feedback p ∧
    supplement_suggestion p' = supplement_suggestion p ∧
    Forall2 (λ week' week, week' ≡ₚ week ∧ ∀ d, d ∈ week' ↔ d ∈ week)
      (plan p') (plan p).
Proof.
  intros Hwf Hvalid.
  destruct (save_plan_spec now p db Hwf) as (Hid & Hwf' & Hsel & Hj).
  destruct (save_plan now p db) as [plan_id db'] eqn:Hsave.
  cbn [fst snd] in *.
  assert (select_daily_plans plan_id db' ≡ₚ plan_rows 1 (plan p)) as Hrows.
  { by rewrite select_daily_plans_perm, Hj. }
  assert (Forall (λ row, is_Some (daily_of_row row))
            (select_daily_plans plan_id db')) as Hall.
  { rewrite Hrows. apply plan_rows_daily. }
  destruct (foldM_add_row_Ok _ ∅ Hall) as [weeks Hfold].
  set (p' := {| motivation := motivation p; feedback := feedback p;
                supplement_suggestion := supplement_suggestion p;
                plan := plan_weeks weeks |}).
  assert (load_plan plan_id db' = Ok (Some p')) as Hload.
  { unfold load_plan. by rewrite Hsel, Hfold. }
  exists plan_id, db', p'.
  split.
  { unfold save_plan_to_db.
    cbn [connect mbind mret Result_bind Result_ret]. by rewrite Hsave. }
  split; [by apply load_plan_from_db_Some|].
  split; [done|]. split; [done|]. split; [done|].
  destruct (load_plan_shape _ _ _ Hload)
    as (_ & _ & week_nums & Hsorted & Hmem & Hplan).
  pose proof (validate_weeks_nonempty p Hvalid) as Hne.
  assert (week_nums = seqZ 1 (Z.of_nat (length (plan p)))) as ->.
  { apply StronglySorted_lt_unique; [done|apply seqZ_sorted|].
    intros w. rewrite Hmem, Hj, (plan_rows_week_numbers 1 (plan p) w Hne).
    by rewrite elem_of_seqZ. }
  rewrite Hplan. apply Forall2_fmap_l, Forall2_same_length_lookup_2.
  { by rewrite length_seqZ, Nat2Z.id. }
  intros i w week Hw Hweek. apply lookup_seqZ in Hw as [-> _].
  assert (days_of_week (select_daily_plans plan_id db') (1 + Z.of_nat i) ≡ₚ week)
    as Hperm.
  { rewrite <- (days_of_week_plan_rows 1 (plan p) i week Hweek).
    unfold days_of_week. by rewrite Hrows. }
  split; [done|]. intros d. by rewrite Hperm.
Qed.

(** The stored plan of [Samples] comes back with its fields and the same
    days in each week, Friday first. *)
Lemma save_then_load_roundtrip_witness :
  db_wf empty_db ∧
  validate_plan_structure (obj_of_plan Samples.two_weeks) = true ∧
  load_plan_from_db 1
    (snd (save_plan_to_db "2026-11-01 08:00:00" Samples.two_weeks
            (Ready empty_db))) = Some Samples.two_weeks_by_label ∧
  plan Samples.two_weeks_by_label ≠ plan Samples.two_weeks ∧
  ∃ plan_id db' p',
    save_plan_to_db "2026-11-01 08:00:00" Samples.two_weeks (Ready empty_db) =
      (Some plan_id, Ready db') ∧
    load_plan_from_db plan_id (Ready db') = Some p' ∧
    motivation p' = motivation Samples.two_weeks ∧
    feedback p' = feedback Samples.two_weeks ∧
    supplement_suggestion p' = supplement_suggestion Samples.two_weeks ∧
    Forall2 (λ week' week, week' ≡ₚ week ∧ ∀ d, d ∈ week' ↔ d ∈ week)
      (plan p') (plan Samples.two_weeks).
Proof.
  split; [exact db_wf_empty|].
  split; [reflexivity|].
  split; [vm_compute; reflexivity|].
  split; [discriminate|].
  apply (save_then_load_roundtrip "2026-11-01 08:00:00" Samples.two_weeks
           empty_db).
  - exact db_wf_empty.
  - reflexivity.
Defined.

(** ** A store that cannot be used

    Every operation catches the exception of [connect] and reports failure
    without touching the store. *)
Lemma unusable_store (st : Store) (now : string) (p : RunningPlan) (plan_id : Z) :
  connect st = Raise OperationalError →
  save_plan_to_db now p st = (None, st) ∧
  load_plan_from_db plan_id st = None ∧
  list_all_plans st = [] ∧
  delete_plan plan_id st = (false, st).
Proof.
  intros Hconn.
  unfold save_plan_to_db, load_plan_from_db, list_all_plans, delete_plan.
  by rewrite Hconn.
Qed.

(** * Further properties of the store *)

Lemma filter_filter_implies {A} (P Q : A → Prop)
    `{!∀ x, Decision (P x)} `{!∀ x, Decision (Q x)} (l : list A) :
  (∀ x, x ∈ l → P x → Q x) → filter P (filter Q l) = filter P l.
Proof.
  induction l as [|x l IH]; intros Himp; [done|].
  assert (filter P (filter Q l) = filter P l) as IH'.
  { apply IH. intros y Hy. apply Himp. by right. }
  rewrite (filter_cons Q). destruct (decide (Q x)) as [HQ|HQ].
  - rewrite !filter_cons. destruct (decide (P x)); by rewrite IH'.
  - rewrite IH', filter_cons_False; [done|]. intros HP. apply HQ, Himp; [left|done].
Qed.

Lemma NoDup_fmap_filter {A B} (f : A → B) (P : A → Prop)
    `{!∀ x, Decision (P x)} (l : list A) :
  NoDup (f <$> l) → NoDup (f <$> filter P l).
Proof.
  intros Hnd. apply (sublist_NoDup _ _ Hnd), fmap_sublist, sublist_filter.
Qed.

(** In a list without repeated keys, a key names one element. *)
Lemma NoDup_fmap_elem_inj {A B} (f : A → B) (l : list A) (x y : A) :
  NoDup (f <$> l) → x ∈ l → y ∈ l → f x = f y → x = y.
Proof.
  induction l as [|z l IH]; intros Hnd Hx Hy Hf.
  - by apply not_elem_of_nil in Hx.
  - rewrite fmap_cons in Hnd. apply NoDup_cons in Hnd as [Hnin Hnd].
    apply elem_of_cons in Hx as [->|Hx]; apply elem_of_cons in Hy as [->|Hy].
    + done.
    + destruct Hnin. rewrite Hf. by apply list_elem_of_fmap_2.
    + destruct Hnin. rewrite <- Hf. by apply list_elem_of_fmap_2.
    + by apply IH.
Qed.

(** [load_plan] reads the database through its two SELECTs only. *)
Lemma load_plan_ext (plan_id : Z) (db1 db2 : DB) :
  select_running_plan plan_id db1 = select_running_plan plan_id db2 →
  joined plan_id db1 = joined plan_id db2 →
  load_plan plan_id db1 = load_plan plan_id db2.
Proof.
  intros Hsel Hj. unfold load_plan, select_daily_plans. by rewrite Hsel, Hj.
Qed.

Lemma load_plan_from_db_ext (plan_id : Z) (db1 db2 : DB) :
  load_plan plan_id db1 = load_plan plan_id db2 →
  load_plan_from_db plan_id (Ready db1) = load_plan_from_db plan_id (Ready db2).
Proof.
  intros Hload. unfold load_plan_from_db.
  cbn [connect mbind Result_bind]. by rewrite Hload.
Qed.

Lemma load_plan_not_found_iff (plan_id : Z) (db : DB) :
  load_plan plan_id db = Ok None ↔ select_running_plan plan_id db = None.
Proof.
  unfold load_plan.
  destruct (select_running_plan plan_id db) as [[[m f] s]|]; [|done].
  destruct (foldM add_row (select_daily_plans plan_id db) ∅); cbn;
    split; discriminate.
Qed.

Lemma select_running_plan_is_Some (plan_id : Z) (db : DB) :
  is_Some (select_running_plan plan_id db) ↔
  plan_id ∈ rp_id <$> running_plan db.
Proof.
  rewrite <- not_eq_None_Some, select_running_plan_None. split.
  - intros Hnot. destruct (decide (plan_id ∈ rp_id <$> running_plan db)) as [|Hn];
      [done|]. destruct Hnot. intros r Hr <-. apply Hn.
    by apply list_elem_of_fmap_2.
  - intros (r & -> & Hr)%list_elem_of_fmap Hall. by apply (Hall r).
Qed.

(** ** delete_plan and the other plans *)

Lemma delete_plan_rows_idemp (plan_id : Z) (db : DB) :
  delete_plan_rows plan_id (delete_plan_rows plan_id db) =
  delete_plan_rows plan_id db.
Proof.
  unfold delete_plan_rows, delete_running_plan, delete_daily_plans,
    delete_daily_meals, daily_plan_ids.
  cbn [running_plan daily_plan daily_meal seq_running_plan seq_daily_plan
       seq_daily_meal].
  f_equal.
  - apply filter_filter_implies. auto.
  - apply filter_filter_implies. auto.
  - rewrite (filter_filter_not (λ dp, dp_running_plan_id dp = plan_id)).
    apply filter_all. intros dm _. apply not_elem_of_nil.
Qed.

Lemma joined_delete_other (plan_id plan_id' : Z) (db : DB) :
  NoDup (dp_id <$> daily_plan db) → plan_id' ≠ plan_id →
  joined plan_id' (delete_plan_rows plan_id db) = joined plan_id' db.
Proof.
  intros Hnd Hne. unfold joined, delete_plan_rows, delete_running_plan,
    delete_daily_plans, delete_daily_meals.
  cbn [running_plan daily_plan daily_meal].
  rewrite (filter_filter_implies (λ dp, dp_running_plan_id dp = plan_id'));
    [|intros dp _ ->; done].
  apply bind_ext_elem. intros dp Hdp.
  apply list_elem_of_filter in Hdp as [Hid Hdp].
  assert (∀ mt, left_join dp mt
            (filter (λ dm, dm_daily_plan_id dm ∉ daily_plan_ids plan_id db)
               (daily_meal db)) = left_join dp mt (daily_meal db)) as Hjoin.
  { intros mt. unfold left_join.
    rewrite filter_filter_implies; [done|].
    intros dm _ [Hdm _] Hin. rewrite Hdm in Hin.
    unfold daily_plan_ids in Hin.
    apply list_elem_of_fmap in Hin as (dp' & Heq & Hdp').
    apply list_elem_of_filter in Hdp' as [Hid' Hdp'].
    assert (dp = dp') as <- by by apply (NoDup_fmap_elem_inj dp_id (daily_plan db)).
    congruence. }
  by rewrite !Hjoin.
Qed.

Lemma select_running_plan_delete_other (plan_id plan_id' : Z) (db : DB) :
  plan_id' ≠ plan_id →
  select_running_plan plan_id' (delete_plan_rows plan_id db) =
  select_running_plan plan_id' db.
Proof.
  intros Hne. unfold select_running_plan, delete_plan_rows,
    delete_running_plan. cbn [running_plan].
  rewrite (filter_filter_implies (λ r, rp_id r = plan_id')); [done|].
  by intros r _ ->.
Qed.

(** X1. Deleting a plan twice is deleting it once: the second
    [delete_plan] returns the same answer and leaves the store as the
    first one left it. *)
Theorem delete_plan_idempotent (plan_id : Z) (st : Store) :
  delete_plan plan_id (snd (delete_plan plan_id st)) = delete_plan plan_id st.
Proof.
  destruct (sqlite_integer plan_id) eqn:Hid.
  - destruct st as [| |db]; [done..|].
    rewrite !delete_plan_Ready by done. cbn [snd].
    by rewrite delete_plan_Ready, delete_plan_rows_idemp.
  - by rewrite !delete_plan_overflow.
Qed.

(** X2. In a database whose [daily_plan] keys are unique, deleting one
    plan does not change what [load_plan_from_db] returns for any other
    id. *)
Theorem delete_plan_keeps_other_plans (plan_id plan_id' : Z) (db : DB) :
  NoDup (dp_id <$> daily_plan db) → plan_id' ≠ plan_id →
  load_plan_from_db plan_id' (snd (delete_plan plan_id (Ready db))) =
  load_plan_from_db plan_id' (Ready db).
Proof.
  intros Hnd Hne. destruct (sqlite_integer plan_id) eqn:Hid.
  - rewrite delete_plan_Ready by done. cbn [snd].
    apply load_plan_from_db_ext, load_plan_ext.
    + by apply select_running_plan_delete_other.
    + by apply joined_delete_other.
  - by rewrite delete_plan_overflow.
Qed.

Lemma delete_plan_keeps_other_plans_witness :
  load_plan_from_db 1 (snd (delete_plan 3 Samples.store3)) =
  Some Samples.two_weeks_by_label.
Proof.
  change Samples.store3 with (Ready (Samples.db_of Samples.store3)).
  rewrite (delete_plan_keeps_other_plans 3 1 (Samples.db_of Samples.store3)).
  - vm_compute. reflexivity.
  - refine (bool_decide_unpack _ _). vm_compute. exact I.
  - discriminate.
Defined.

(** ** list_all_plans and load_plan_from_db *)

(** X3. Among the ids that fit the 64-bit INTEGER of SQLite, the ones
    [list_all_plans] shows are exactly those for which [load_plan_from_db]
    does not take its not-found return. *)
Theorem list_all_plans_ids_are_loadable (plan_id : Z) (db : DB) :
  - 2 ^ 63 ≤ plan_id < 2 ^ 63 →
  plan_id ∈ summary_id <$> list_all_plans (Ready db) ↔
  load_plan plan_id db ≠ Ok None.
Proof.
  intros _.
  rewrite load_plan_not_found_iff, not_eq_None_Some,
    select_running_plan_is_Some.
  unfold list_all_plans. cbn [connect].
  rewrite <- list_fmap_compose.
  assert (summary_id ∘ summarize <$>
            merge_sort order_by_created_at_desc (running_plan db)
          ≡ₚ rp_id <$> running_plan db) as ->; [|done].
  by rewrite merge_sort_Permutation.
Qed.

Lemma list_all_plans_ids_are_loadable_witness :
  2 ∈ summary_id <$> list_all_plans Samples.store3 ∧
  load_plan 2 (Samples.db_of Samples.store3) ≠ Ok None ∧
  (7 ∉ summary_id <$> list_all_plans Samples.store3) ∧
  load_plan 7 (Samples.db_of Samples.store3) = Ok None.
Proof.
  assert (2 ∈ summary_id <$> list_all_plans Samples.store3) as Hin.
  { refine (bool_decide_unpack _ _). vm_compute. exact I. }
  split; [exact Hin|]. split.
  - apply (list_all_plans_ids_are_loadable 2 (Samples.db_of Samples.store3));
      [lia | exact Hin].
  - split; [|reflexivity].
    refine (bool_decide_unpack _ _). vm_compute. exact I.
Defined.

(** ** Loading a plan whose day lacks a meal row *)

Lemma new_DailyPlan_Raise (row : joined_row) (e : Exn) :
  new_DailyPlan row = Raise e → e = ValidationError.
Proof.
  unfold new_DailyPlan, new_DailyMeal.
  destruct (jr_breakfast_suggestion row), (jr_breakfast_calories row),
    (jr_lunch_suggestion row), (jr_lunch_calories row),
    (jr_dinner_suggestion row), (jr_dinner_calories row); cbn;
    by intros [= <-].
Qed.

Lemma foldM_add_row_Raise (rows : list joined_row)
    (acc : gmap Z (list DailyPlan)) (e : Exn) :
  foldM add_row rows acc = Raise e → e = ValidationError.
Proof.
  revert acc. induction rows as [|row rows IH]; intros acc; [discriminate|].
  cbn [foldM]. destruct (new_DailyPlan row) as [d|e'] eqn:Hd.
  - rewrite (add_row_Ok acc row d Hd). cbn. apply IH.
  - unfold add_row. rewrite Hd. cbn. intros [= <-].
    by apply (new_DailyPlan_Raise row).
Qed.

Lemma left_join_none (dp : daily_plan_row) (meal_type : string)
    (meals : list daily_meal_row) :
  (∀ dm, dm ∈ meals → ¬ (dm_daily_plan_id dm = dp_id dp ∧
                          dm_meal_type dm = meal_type)) →
  left_join dp meal_type meals = [None].
Proof. intros Hnone. unfold left_join. by rewrite filter_none. Qed.

(** A day of the plan without the meal row of type [mt] gives a joined row
    from which no [DailyPlan] can be built. *)
Lemma joined_missing_meal (plan_id : Z) (db : DB) (dp : daily_plan_row)
    (mt : MealType) :
  dp ∈ daily_plan db → dp_running_plan_id dp = plan_id →
  (∀ dm, dm ∈ daily_meal db →
         ¬ (dm_daily_plan_id dm = dp_id dp ∧
            dm_meal_type dm = meal_type_name mt)) →
  ∃ row, row ∈ joined plan_id db ∧ daily_of_row row = None.
Proof.
  intros Hdp Hid Hnone.
  pose proof (left_join_none dp (meal_type_name mt) (daily_meal db) Hnone) as Hmt.
  destruct (left_join_inhabited dp "breakfast" (daily_meal db)) as [dm1 H1].
  destruct (left_join_inhabited dp "lunch" (daily_meal db)) as [dm2 H2].
  destruct (left_join_inhabited dp "dinner" (daily_meal db)) as [dm3 H3].
  assert (match mt with
          | Breakfast => dm1 | Lunch => dm2 | Dinner => dm3
          end = None) as Hmissing.
  { destruct mt; cbn [meal_type_name] in Hmt.
    - rewrite Hmt in H1. by apply list_elem_of_singleton in H1.
    - rewrite Hmt in H2. by apply list_elem_of_singleton in H2.
    - rewrite Hmt in H3. by apply list_elem_of_singleton in H3. }
  exists (mk_joined_row (dp_day dp) (dp_titles dp) (dp_details dp)
            (dp_week_number dp)
            (dm_suggestion <$> dm1) (dm_calories <$> dm1)
            (dm_suggestion <$> dm2) (dm_calories <$> dm2)
            (dm_suggestion <$> dm3) (dm_calories <$> dm3)).
  split.
  - unfold joined.
    apply list_elem_of_bind. exists dp. split; [|by apply list_elem_of_filter].
    apply list_elem_of_bind. exists dm1. split; [|done].
    apply list_elem_of_bind. exists dm2. split; [|done].
    apply list_elem_of_bind. exists dm3. split; [|done].
    cbn. apply list_elem_of_singleton. reflexivity.
  - unfold daily_of_row, new_DailyPlan, new_DailyMeal. cbn.
    destruct mt; subst; cbn; [done| |].
    + by destruct dm1.
    + by destruct dm1, dm2.
Qed.

(** X4. A stored plan with a day that lacks one of its three [daily_meal]
    rows cannot be loaded: building the day raises pydantic's validation
    error, and [load_plan_from_db] returns [None] although the plan
    exists. *)
Theorem load_plan_missing_meal (plan_id : Z) (db : DB) (dp : daily_plan_row)
    (mt : MealType) :
  is_Some (select_running_plan plan_id db) →
  dp ∈ daily_plan db → dp_running_plan_id dp = plan_id →
  (∀ dm, dm ∈ daily_meal db →
         ¬ (dm_daily_plan_id dm = dp_id dp ∧
            dm_meal_type dm = meal_type_name mt)) →
  load_plan plan_id db = Raise ValidationError ∧
  load_plan_from_db plan_id (Ready db) = None.
Proof.
  intros [[[m f] s] Hsel] Hdp Hid Hnone.
  destruct (joined_missing_meal plan_id db dp mt Hdp Hid Hnone)
    as (row & Hrow & Hbad).
  assert (load_plan plan_id db = Raise ValidationError) as Hload.
  { unfold load_plan. rewrite Hsel.
    destruct (foldM add_row (select_daily_plans plan_id db) ∅)
      as [weeks|e] eqn:Hfold.
    - apply foldM_add_row_inv in Hfold as [Hall _].
      rewrite Forall_forall in Hall.
      destruct (Hall row) as [d Hd]; [|congruence].
      by rewrite select_daily_plans_perm.
    - apply foldM_add_row_Raise in Hfold as ->. done. }
  split; [done|]. unfold load_plan_from_db.
  cbn [connect mbind Result_bind]. by rewrite Hload.
Qed.

Lemma load_plan_missing_meal_witness :
  load_plan 1 MoreSamples.db_without_a_lunch = Raise ValidationError ∧
  load_plan_from_db 1 (Ready MoreSamples.db_without_a_lunch) = None.
Proof.
  apply (load_plan_missing_meal 1 MoreSamples.db_without_a_lunch
           MoreSamples.first_day_row Lunch).
  - vm_compute. eauto.
  - vm_compute. left.
  - reflexivity.
  - apply Forall_forall. vm_compute.
    repeat constructor; intros [? ?]; discriminate.
Defined.

(** ** Invariants of the loops of save_plan_to_db *)

(** What every turn of the inner loop keeps, the two loops keep. *)
Lemma save_loop_invariant (I : DB → Prop) (rid : Z) :
  (∀ wk cur d, I (cur_db cur) → I (cur_db (save_daily rid wk cur d))) →
  ∀ start weeks cur,
    I (cur_db cur) →
    I (cur_db (fold_left (save_weekly rid) (enumerate start weeks) cur)).
Proof.
  intros Hstep start weeks. revert start.
  induction weeks as [|week weeks IH]; intros start cur Hcur; [done|].
  cbn [enumerate fold_left]. apply IH.
  unfold save_weekly. cbn [fst snd]. clear IH.
  revert cur Hcur. induction week as [|d week IH]; intros cur Hcur; [done|].
  cbn [fold_left]. by apply IH, Hstep.
Qed.

Lemma save_plan_unfold (now : string) (p : RunningPlan) (db : DB) :
  save_plan now p db =
    (seq_running_plan db + 1,
     cur_db (fold_left (save_weekly (seq_running_plan db + 1))
               (enumerate 1 (plan p))
               (insert_running_plan (motivation p) (feedback p)
                  (supplement_suggestion p) now
                  {| cur_db := db; lastrowid := 0 |}))).
Proof. reflexivity. Qed.

Lemma save_plan_to_db_Ready (now : string) (p : RunningPlan) (db : DB) :
  save_plan_to_db now p (Ready db) =
    (Some (fst (save_plan now p db)), Ready (snd (save_plan now p db))).
Proof.
  unfold save_plan_to_db. cbn [connect mbind mret Result_bind Result_ret].
  by destruct (save_plan now p db).
Qed.

(** *** The other plans *)

Lemma joined_save_daily_other (rid plan_id' wk : Z) (cur : Cursor)
    (d : DailyPlan) :
  db_wf (cur_db cur) → plan_id' ≠ rid →
  joined plan_id' (cur_db (save_daily rid wk cur d)) =
  joined plan_id' (cur_db cur).
Proof.
  intros (_ & Hdp & _) Hne. rewrite save_daily_db.
  rewrite Forall_forall in Hdp.
  unfold joined. cbn [daily_plan daily_meal].
  rewrite filter_app, filter_cons_False, filter_nil, app_nil_r by (cbn; congruence).
  apply bind_ext_elem. intros dp Hin.
  apply list_elem_of_filter in Hin as [_ Hin]. destruct (Hdp dp Hin) as [Hle _].
  rewrite !left_join_app_other; [done|..];
    intros dm Hdm'; repeat (apply elem_of_cons in Hdm' as [->|Hdm']);
    cbn; try lia; by apply not_elem_of_nil in Hdm'.
Qed.

Lemma joined_save_plan_other (now : string) (p : RunningPlan) (db : DB)
    (plan_id' : Z) :
  db_wf db → plan_id' ≠ fst (save_plan now p db) →
  joined plan_id' (snd (save_plan now p db)) = joined plan_id' db ∧
  select_running_plan plan_id' (snd (save_plan now p db)) =
    select_running_plan plan_id' db.
Proof.
  intros Hwf. rewrite save_plan_unfold. cbn [fst snd]. intros Hne.
  set (rid := seq_running_plan db + 1) in *.
  set (cur1 := insert_running_plan _ _ _ _ _).
  assert (db_wf (cur_db cur1) ∧ rid ≤ seq_running_plan (cur_db cur1)) as Hwf1.
  { destruct Hwf as (Hrp & Hdp & Hdm). unfold db_wf. cbn.
    rewrite Forall_forall in Hrp. rewrite Forall_forall in Hdp.
    split; [|unfold rid; lia]. split; [|split; [|done]].
    - apply Forall_app. split; [|repeat constructor; cbn; lia].
      apply Forall_forall. intros r Hr. specialize (Hrp r Hr). lia.
    - apply Forall_forall. intros dp Hin. destruct (Hdp dp Hin). lia. }
  pose proof (save_loop_invariant
    (λ db', (db_wf db' ∧ rid ≤ seq_running_plan db') ∧
            joined plan_id' db' = joined plan_id' db ∧
            running_plan db' = running_plan (cur_db cur1)) rid) as Hinv.
  destruct (Hinv) with (start := 1) (weeks := plan p) (cur := cur1)
    as (_ & Hj & Hrp).
  - intros wk cur d ([Hwf' Hrid] & Hj & Hrp).
    destruct (save_daily_spec rid wk cur d Hwf' Hrid) as (Hwf'' & Hseq & Hrp' & _).
    split; [split; [done|by rewrite Hseq]|].
    split; [|by rewrite Hrp'].
    by rewrite (joined_save_daily_other rid plan_id' wk cur d Hwf' Hne).
  - split; [done|]. split; [reflexivity|done].
  - split; [done|]. unfold select_running_plan. rewrite Hrp.
    cbn [cur_db cur1 insert_running_plan running_plan].
    rewrite filter_app, filter_cons_False, filter_nil, app_nil_r; [done|].
    cbn. intros Heq. by apply Hne.
Qed.

(** X5. On a well-formed database, saving a plan does not change what
    [load_plan_from_db] returns for any id other than the one
    [save_plan_to_db] returns. *)
Theorem save_plan_keeps_other_plans (now : string) (p : RunningPlan) (db : DB)
    (plan_id' : Z) :
  db_wf db →
  fst (save_plan_to_db now p (Ready db)) ≠ Some plan_id' →
  load_plan_from_db plan_id' (snd (save_plan_to_db now p (Ready db))) =
  load_plan_from_db plan_id' (Ready db).
Proof.
  intros Hwf. rewrite save_plan_to_db_Ready. cbn [fst snd]. intros Hne.
  destruct (joined_save_plan_other now p db plan_id' Hwf) as [Hj Hsel];
    [congruence|].
  by apply load_plan_from_db_ext, load_plan_ext.
Qed.

Lemma save_plan_keeps_other_plans_witness :
  load_plan_from_db 1 Samples.store3 = load_plan_from_db 1 Samples.store1.
Proof.
  transitivity (load_plan_from_db 1 Samples.store2).
  - apply (save_plan_keeps_other_plans "2026-11-03 07:15:00"
             Samples.long_motivation (Samples.db_of Samples.store2) 1).
    + apply db_wf_save, db_wf_save, db_wf_empty.
    + discriminate.
  - apply (save_plan_keeps_other_plans "2026-11-02 09:30:00"
             Samples.no_weeks (Samples.db_of Samples.store1) 1).
    + apply db_wf_save, db_wf_empty.
    + discriminate.
Defined.

(** *** The rows a save adds *)

Lemma extends_plan_refl (plan_id : Z) (db : DB) : extends_plan plan_id db db.
Proof.
  exists [], []. rewrite !app_nil_r. repeat split; try done; constructor.
Qed.

Lemma extends_plan_save_daily (rid wk : Z) (db0 : DB) (cur : Cursor)
    (d : DailyPlan) :
  extends_plan rid db0 (cur_db cur) →
  extends_plan rid db0 (cur_db (save_daily rid wk cur d)).
Proof.
  intros (dps & dms & Hrp & Hseq & Hdps & Hdms & Hle & Hnew & Href).
  rewrite save_daily_db.
  set (dp := mk_daily_plan_row _ _ _ _ _ _).
  exists (dps ++ [dp]). eexists (dms ++ [_; _; _]). cbn.
  rewrite Hdps, Hdms, <- !app_assoc.
  split; [done|]. split; [done|]. split; [done|]. split; [done|].
  split; [lia|]. split.
  - apply Forall_app. split.
    + eapply Forall_impl; [exact Hnew|]. cbn. intros dp' [? ?]. split; [done|lia].
    + repeat constructor; cbn; lia.
  - assert (dp_id dp ∈ dp_id <$> dps ++ [dp]) as Hin.
    { rewrite fmap_app. apply elem_of_app. right. cbn. left. }
    apply Forall_app. split.
    + eapply Forall_impl; [exact Href|]. cbn. intros dm Hdm.
      rewrite fmap_app. apply elem_of_app. by left.
    + repeat constructor; exact Hin.
Qed.

Lemma save_plan_extends (now : string) (p : RunningPlan) (db : DB) :
  extends_plan (fst (save_plan now p db))
    (cur_db (insert_running_plan (motivation p) (feedback p)
               (supplement_suggestion p) now {| cur_db := db; lastrowid := 0 |}))
    (snd (save_plan now p db)).
Proof.
  rewrite save_plan_unfold. cbn [fst snd].
  apply (save_loop_invariant (extends_plan _ _)).
  - intros wk cur d. apply extends_plan_save_daily.
  - apply extends_plan_refl.
Qed.

Lemma save_weeks_counters (rid start : Z) (weeks : list WeeklyPlan)
    (cur : Cursor) :
  let db' := cur_db (fold_left (save_weekly rid) (enumerate start weeks) cur) in
  seq_running_plan db' = seq_running_plan (cur_db cur) ∧
  seq_daily_plan db' =
    seq_daily_plan (cur_db cur) + Z.of_nat (length (concat weeks)) ∧
  seq_daily_meal db' =
    seq_daily_meal (cur_db cur) + 3 * Z.of_nat (length (concat weeks)).
Proof.
  revert start cur. induction weeks as [|week weeks IH]; intros start cur.
  { cbn. lia. }
  cbn [enumerate fold_left concat]. rewrite length_app.
  destruct (IH (start + 1) (save_weekly rid cur (start, week)))
    as (-> & -> & ->).
  unfold save_weekly. cbn [fst snd]. clear IH.
  revert cur. induction week as [|d week IH]; intros cur.
  { cbn. lia. }
  cbn [fold_left length].
  destruct (IH (save_daily rid start cur d)) as (-> & -> & ->).
  rewrite save_daily_db. cbn. lia.
Qed.

Lemma save_plan_counters (now : string) (p : RunningPlan) (db : DB) :
  seq_running_plan (snd (save_plan now p db)) = seq_running_plan db + 1 ∧
  seq_daily_plan (snd (save_plan now p db)) =
    seq_daily_plan db + Z.of_nat (length (concat (plan p))) ∧
  seq_daily_meal (snd (save_plan now p db)) =
    seq_daily_meal db + 3 * Z.of_nat (length (concat (plan p))).
Proof.
  rewrite save_plan_unfold. cbn [snd].
  destruct (save_weeks_counters (seq_running_plan db + 1) 1 (plan p)
              (insert_running_plan (motivation p) (feedback p)
                 (supplement_suggestion p) now
                 {| cur_db := db; lastrowid := 0 |})) as (-> & -> & ->).
  done.
Qed.

(** X6. On a well-formed database, deleting the plan that was just saved
    gives back the three tables as they were before the save, but none of
    the three AUTOINCREMENT counters: each stays advanced by the rows the
    save added (one plan, its days, three meals a day), so no key of the
    deleted plan is given out again.  The new id has to fit the 64-bit
    INTEGER for [delete_plan] to bind it. *)
Theorem delete_after_save_restores_tables (now : string) (p : RunningPlan)
    (db : DB) :
  db_wf db →
  - 2 ^ 63 ≤ seq_running_plan db + 1 < 2 ^ 63 →
  ∃ plan_id db' db'',
    save_plan_to_db now p (Ready db) = (Some plan_id, Ready db') ∧
    delete_plan plan_id (Ready db') = (true, Ready db'') ∧
    running_plan db'' = running_plan db ∧
    daily_plan db'' = daily_plan db ∧
    daily_meal db'' = daily_meal db ∧
    plan_id = seq_running_plan db + 1 ∧
    seq_running_plan db'' = seq_running_plan db + 1 ∧
    seq_daily_plan db'' =
      seq_daily_plan db + Z.of_nat (length (concat (plan p))) ∧
    seq_daily_meal db'' =
      seq_daily_meal db + 3 * Z.of_nat (length (concat (plan p))).
Proof.
  intros (Hrp & Hdp & Hdm) Hid%sqlite_integer_range.
  rewrite Forall_forall in Hrp. rewrite Forall_forall in Hdp.
  rewrite Forall_forall in Hdm.
  exists (fst (save_plan now p db)), (snd (save_plan now p db)),
    (delete_plan_rows (fst (save_plan now p db)) (snd (save_plan now p db))).
  split; [apply save_plan_to_db_Ready|].
  split; [by apply delete_plan_Ready|].
  destruct (save_plan_counters now p db) as (Hc1 & Hc2 & Hc3).
  destruct (save_plan_extends now p db)
    as (dps & dms & Hrows & Hseq & Hdps & Hdms & Hle & Hnew & Href).
  rewrite save_plan_unfold in *. cbn [fst snd] in *.
  set (rid := seq_running_plan db + 1) in *.
  set (db' := cur_db (fold_left _ _ _)) in *.
  cbn in Hrows, Hseq, Hdps, Hdms, Hle.
  cbn [cur_db insert_running_plan seq_daily_plan] in Hnew.
  rewrite Forall_forall in Hnew. rewrite Forall_forall in Href.
  assert (filter (λ dp, dp_running_plan_id dp = rid) (daily_plan db') = dps)
    as Hmine.
  { rewrite Hdps, filter_app, (filter_none _ (daily_plan db)), app_nil_l.
    - apply filter_all. intros dp Hin. by destruct (Hnew dp Hin).
    - intros dp Hin. destruct (Hdp dp Hin). unfold rid. lia. }
  unfold delete_plan_rows, delete_running_plan, delete_daily_plans,
    delete_daily_meals, daily_plan_ids.
  cbn [running_plan daily_plan daily_meal seq_running_plan seq_daily_plan
       seq_daily_meal].
  rewrite Hmine. split; [|split; [|split; [|done]]].
  - rewrite Hrows, filter_app, filter_cons_False, filter_nil, app_nil_r by (cbn; lia).
    apply filter_all. intros r Hr. specialize (Hrp r Hr). unfold rid. lia.
  - rewrite Hdps, filter_app, (filter_none _ dps), app_nil_r.
    + apply filter_all. intros dp Hin. destruct (Hdp dp Hin). unfold rid. lia.
    + intros dp Hin Hne. by destruct (Hnew dp Hin).
  - rewrite Hdms, filter_app, (filter_none _ dms), app_nil_r.
    + apply filter_all. intros dm Hin Hmem.
      apply list_elem_of_fmap in Hmem as (dp & Heq & Hdp').
      specialize (Hdm dm Hin). destruct (Hnew dp Hdp') as [_ ?]. lia.
    + intros dm Hin Hnot. by apply Hnot, Href.
Qed.

Lemma delete_after_save_restores_tables_witness :
  ∃ plan_id db' db'',
    save_plan_to_db "2026-11-04 06:00:00" Samples.two_weeks Samples.store3 =
      (Some plan_id, Ready db') ∧
    delete_plan plan_id (Ready db') = (true, Ready db'') ∧
    running_plan db'' = running_plan (Samples.db_of Samples.store3) ∧
    daily_plan db'' = daily_plan (Samples.db_of Samples.store3) ∧
    daily_meal db'' = daily_meal (Samples.db_of Samples.store3) ∧
    plan_id = 4 ∧
    seq_running_plan db'' = 4 ∧
    seq_daily_plan db'' = seq_daily_plan (Samples.db_of Samples.store3) + 5 ∧
    seq_daily_meal db'' = seq_daily_meal (Samples.db_of Samples.store3) + 15.
Proof.
  destruct (delete_after_save_restores_tables "2026-11-04 06:00:00"
              Samples.two_weeks (Samples.db_of Samples.store3))
    as (plan_id & db' & db'' & Hsave & Hdel & Hrp & Hdp & Hdm & Hid & Hc1 &
        Hc2 & Hc3).
  - apply db_wf_save, db_wf_save, db_wf_save, db_wf_empty.
  - split; vm_compute; [discriminate | reflexivity].
  - exists plan_id, db', db''.
    split; [exact Hsave|]. split; [exact Hdel|]. split; [exact Hrp|].
    split; [exact Hdp|]. split; [exact Hdm|].
    split; [rewrite Hid; reflexivity|]. split; [rewrite Hc1; reflexivity|].
    split; [rewrite Hc2; reflexivity | rewrite Hc3; reflexivity].
Defined.

(** ** The declared constraints hold in every database the code produces *)

Lemma db_sound_empty : db_sound empty_db.
Proof.
  unfold db_sound. cbn. repeat split; try constructor; try done.
  - intros dp Hdp. by apply not_elem_of_nil in Hdp.
  - intros dm Hdm. by apply not_elem_of_nil in Hdm.
Qed.

Lemma NoDup_snoc_fresh (l : list Z) (bound x : Z) :
  NoDup l → Forall (λ y, y ≤ bound) l → bound < x → NoDup (l ++ [x]).
Proof.
  intros Hnd Hall Hx. apply NoDup_app. split; [done|].
  split; [|apply NoDup_singleton].
  intros y Hy Hin. apply list_elem_of_singleton in Hin as ->.
  rewrite Forall_forall in Hall. specialize (Hall x Hy). lia.
Qed.

Lemma db_sound_insert_running_plan (m f s now : string) (db : DB) :
  db_sound db →
  db_sound (cur_db (insert_running_plan m f s now
                      {| cur_db := db; lastrowid := 0 |})) ∧
  seq_running_plan db + 1 ∈
    rp_id <$> running_plan (cur_db (insert_running_plan m f s now
                                      {| cur_db := db; lastrowid := 0 |})).
Proof.
  intros ((H0 & H0p & H0m) & Hrp & Hdp & Hdm & Nrp & Ndp & Ndm & F1 & F2).
  cbn [cur_db insert_running_plan]. split.
  - unfold db_sound.
    cbn [running_plan daily_plan daily_meal seq_running_plan seq_daily_plan
         seq_daily_meal].
    split; [lia|]. split.
    { apply Forall_app. split; [|repeat constructor; cbn; lia].
      eapply Forall_impl; [exact Hrp|]. cbn. intros. lia. }
    split; [done|]. split; [done|]. split.
    { rewrite fmap_app. apply (NoDup_snoc_fresh _ (seq_running_plan db)); [done| |cbn; lia].
      apply Forall_fmap. eapply Forall_impl; [exact Hrp|]. cbn. intros. lia. }
    split; [done|]. split; [done|]. split; [|done].
    intros dp Hin. rewrite fmap_app. apply elem_of_app. left. by apply F1.
  - cbn [running_plan]. rewrite fmap_app. apply elem_of_app. right. cbn. left.
Qed.

Lemma db_sound_save_daily (rid wk : Z) (cur : Cursor) (d : DailyPlan) :
  db_sound (cur_db cur) ∧ rid ∈ rp_id <$> running_plan (cur_db cur) →
  db_sound (cur_db (save_daily rid wk cur d)) ∧
  rid ∈ rp_id <$> running_plan (cur_db (save_daily rid wk cur d)).
Proof.
  intros [((H0 & H0p & H0m) & Hrp & Hdp & Hdm & Nrp & Ndp & Ndm & F1 & F2) Hrid].
  rewrite save_daily_db. set (db := cur_db cur) in *.
  split; [|done]. unfold db_sound.
  cbn [running_plan daily_plan daily_meal seq_running_plan seq_daily_plan
       seq_daily_meal].
  split; [lia|]. split; [done|]. split.
  { apply Forall_app. split; [|repeat constructor; cbn; lia].
    eapply Forall_impl; [exact Hdp|]. cbn. intros. lia. }
  split.
  { apply Forall_app. split; [|repeat constructor; cbn; lia].
    eapply Forall_impl; [exact Hdm|]. cbn. intros. lia. }
  split; [done|]. split.
  { rewrite fmap_app. apply (NoDup_snoc_fresh _ (seq_daily_plan db)); [done| |cbn; lia].
    apply Forall_fmap. eapply Forall_impl; [exact Hdp|]. cbn. intros. lia. }
  split.
  { rewrite fmap_app. cbn [fmap list_fmap dm_id].
    change [?a; ?b; ?c] with ([a] ++ [b] ++ [c]). rewrite !app_assoc.
    assert (Forall (λ y, y ≤ seq_daily_meal db) (dm_id <$> daily_meal db))
      as Hb0.
    { apply Forall_fmap. eapply Forall_impl; [exact Hdm|]. cbn. intros. lia. }
    pose proof (NoDup_snoc_fresh _ _ (seq_daily_meal db + 1) Ndm Hb0) as N1.
    assert (Forall (λ y, y ≤ seq_daily_meal db + 1)
              ((dm_id <$> daily_meal db) ++ [seq_daily_meal db + 1])) as Hb1.
    { apply Forall_app. split; [|repeat constructor; lia].
      eapply Forall_impl; [exact Hb0|]. cbn. intros. lia. }
    pose proof (NoDup_snoc_fresh _ _ (seq_daily_meal db + 1 + 1)
                  (N1 ltac:(lia)) Hb1) as N2.
    assert (Forall (λ y, y ≤ seq_daily_meal db + 1 + 1)
              (((dm_id <$> daily_meal db) ++ [seq_daily_meal db + 1]) ++
               [seq_daily_meal db + 1 + 1])) as Hb2.
    { apply Forall_app. split; [|repeat constructor; lia].
      eapply Forall_impl; [exact Hb1|]. cbn. intros. lia. }
    apply (NoDup_snoc_fresh _ _ _ (N2 ltac:(lia)) Hb2). lia. }
  split.
  - intros dp Hin. apply elem_of_app in Hin as [Hin|Hin]; [by apply F1|].
    by apply list_elem_of_singleton in Hin as ->.
  - intros dm Hin. rewrite fmap_app. apply elem_of_app.
    apply elem_of_app in Hin as [Hin|Hin]; [left; by apply F2|].
    right. repeat (apply elem_of_cons in Hin as [->|Hin]); cbn; try left.
    by apply not_elem_of_nil in Hin.
Qed.

Lemma db_sound_save (now : string) (p : RunningPlan) (db : DB) :
  db_sound db → db_sound (snd (save_plan now p db)).
Proof.
  intros Hs. rewrite save_plan_unfold. cbn [snd].
  apply (save_loop_invariant
           (λ db', db_sound db' ∧
                   seq_running_plan db + 1 ∈ rp_id <$> running_plan db')).
  - intros wk cur d. apply db_sound_save_daily.
  - by apply db_sound_insert_running_plan.
Qed.

Lemma db_sound_delete (plan_id : Z) (db : DB) :
  db_sound db → db_sound (delete_plan_rows plan_id db).
Proof.
  intros ((H0 & H0p & H0m) & Hrp & Hdp & Hdm & Nrp & Ndp & Ndm & F1 & F2).
  unfold db_sound, delete_plan_rows, delete_running_plan, delete_daily_plans,
    delete_daily_meals.
  cbn [running_plan daily_plan daily_meal seq_running_plan seq_daily_plan
       seq_daily_meal].
  split; [done|].
  split; [by apply Forall_filter_keep|].
  split; [by apply Forall_filter_keep|].
  split; [by apply Forall_filter_keep|].
  split; [by apply NoDup_fmap_filter|].
  split; [by apply NoDup_fmap_filter|].
  split; [by apply NoDup_fmap_filter|].
  split.
  - intros dp Hin. apply list_elem_of_filter in Hin as [Hne Hin].
    destruct (proj1 (list_elem_of_fmap _ _ _) (F1 dp Hin)) as (r & Heq & Hr).
    rewrite Heq. apply list_elem_of_fmap_2, list_elem_of_filter.
    split; [congruence|done].
  - intros dm Hin. apply list_elem_of_filter in Hin as [Hni Hin].
    destruct (proj1 (list_elem_of_fmap _ _ _) (F2 dm Hin)) as (dp & Heq & Hdp').
    rewrite Heq. apply list_elem_of_fmap_2, list_elem_of_filter.
    split; [|done]. intros Hid. apply Hni. rewrite Heq.
    unfold daily_plan_ids. apply list_elem_of_fmap_2, list_elem_of_filter. done.
Qed.

Lemma db_sound_wf (db : DB) : db_sound db → db_wf db.
Proof.
  intros ((H0 & H0p & H0m) & Hrp & Hdp & Hdm & Nrp & Ndp & Ndm & F1 & F2).
  rewrite Forall_forall in Hrp. rewrite Forall_forall in Hdp.
  unfold db_wf. split; [|split].
  - apply Forall_forall. intros r Hr. specialize (Hrp r Hr). lia.
  - apply Forall_forall. intros dp Hin.
    split; [specialize (Hdp dp Hin); lia|].
    destruct (proj1 (list_elem_of_fmap _ _ _) (F1 dp Hin)) as (r & -> & Hr).
    specialize (Hrp r Hr). lia.
  - apply Forall_forall. intros dm Hin.
    destruct (proj1 (list_elem_of_fmap _ _ _) (F2 dm Hin)) as (dp & -> & Hdp').
    specialize (Hdp dp Hdp'). lia.
Qed.

Lemma reachable_running_plan_ids (db : DB) :
  reachable db →
  0 ≤ seq_running_plan db ∧
  Forall (λ r, 1 ≤ rp_id r ≤ seq_running_plan db) (running_plan db).
Proof.
  intros Hreach.
  assert (db_sound db) as ((H0 & _) & Hrp & _); [|done].
  induction Hreach as [|now p db _ IH|plan_id db _ IH].
  - apply db_sound_empty.
  - by apply db_sound_save.
  - by apply db_sound_delete.
Qed.

(** X7. Every database reached from the empty schema by
    [save_plan_to_db] and [delete_plan] satisfies the constraints the
    schema declares: in each of the three tables the keys are positive,
    unique and not above the table's counter, every [daily_plan] row
    refers to an existing [running_plan] row and every [daily_meal] row to
    an existing [daily_plan] row. *)
Theorem reachable_sound (db : DB) : reachable db → db_sound db.
Proof.
  induction 1 as [|now p db _ IH|plan_id db _ IH].
  - apply db_sound_empty.
  - by apply db_sound_save.
  - by apply db_sound_delete.
Qed.

Lemma reachable_sound_witness :
  db_sound (delete_plan_rows 2 (Samples.db_of Samples.store3)).
Proof.
  apply reachable_sound.
  apply (reachable_delete 2 (Samples.db_of Samples.store3)).
  apply (reachable_save "2026-11-03 07:15:00" Samples.long_motivation
           (Samples.db_of Samples.store2)).
  apply (reachable_save "2026-11-02 09:30:00" Samples.no_weeks
           (Samples.db_of Samples.store1)).
  apply (reachable_save "2026-11-01 08:00:00" Samples.two_weeks empty_db).
  apply reachable_empty.
Defined.

(** X8. On a database reached from the empty schema, [save_plan_to_db]
    succeeds with an id that is at least 1 (so the [if plan_id:] test of
    [main] takes its success branch) and that no stored plan carries; and
    the id is not given out again: after the plan is deleted, the next
    save returns the following id. *)
Theorem save_plan_returns_fresh_id (now now' : string) (p p' : RunningPlan)
    (db : DB) :
  reachable db →
  ∃ plan_id db',
    save_plan_to_db now p (Ready db) = (Some plan_id, Ready db') ∧
    1 ≤ plan_id ∧
    (plan_id ∉ rp_id <$> running_plan db) ∧
    plan_id ∈ (rp_id <$> running_plan db') ∧
    fst (save_plan_to_db now' p' (snd (delete_plan plan_id (Ready db')))) =
      Some (plan_id + 1).
Proof.
  intros Hreach.
  destruct (reachable_running_plan_ids db Hreach) as [H0 Hrp].
  rewrite Forall_forall in Hrp.
  exists (fst (save_plan now p db)), (snd (save_plan now p db)).
  split; [apply save_plan_to_db_Ready|].
  pose proof (save_plan_extends now p db)
    as (dps & dms & Hrows & Hseq & _).
  assert (fst (save_plan_to_db now' p'
                 (snd (delete_plan (fst (save_plan now p db))
                         (Ready (snd (save_plan now p db)))))) =
          Some (seq_running_plan (snd (save_plan now p db)) + 1)) as Hnext.
  { destruct (sqlite_integer (fst (save_plan now p db))) eqn:Hid.
    - rewrite delete_plan_Ready by done. cbn [snd].
      by rewrite save_plan_to_db_Ready, (save_plan_unfold now' p').
    - rewrite delete_plan_overflow by done. cbn [snd].
      by rewrite save_plan_to_db_Ready, (save_plan_unfold now' p'). }
  rewrite Hnext. clear Hnext.
  rewrite save_plan_unfold in *. cbn [fst snd] in *.
  cbn in Hrows, Hseq.
  split; [lia|]. split; [|split].
  - intros (r & Heq & Hr)%list_elem_of_fmap. specialize (Hrp r Hr). lia.
  - rewrite Hrows, fmap_app. apply elem_of_app. right. cbn. left.
  - by rewrite Hseq.
Qed.

Lemma save_plan_returns_fresh_id_witness :
  ∃ plan_id db',
    save_plan_to_db "2026-11-04 06:00:00" Samples.two_weeks (Ready empty_db) =
      (Some plan_id, Ready db') ∧
    1 ≤ plan_id ∧
    (plan_id ∉ rp_id <$> running_plan empty_db) ∧
    plan_id ∈ (rp_id <$> running_plan db') ∧
    fst (save_plan_to_db "2026-11-05 06:00:00" Samples.no_weeks
           (snd (delete_plan plan_id (Ready db')))) = Some (plan_id + 1).
Proof.
  apply (save_plan_returns_fresh_id "2026-11-04 06:00:00"
           "2026-11-05 06:00:00" Samples.two_weeks Samples.no_weeks empty_db).
  apply reachable_empty.
Defined.

(** * Input validation *)

Lemma length_lstrip (s : string) :
  (String.length (lstrip s) ≤ String.length s)%nat.
Proof.
  induction s as [|c s IH]; [done|]. cbn [lstrip].
  destruct (isspace c); cbn [String.length]; lia.
Qed.

Lemma length_rstrip (s : string) :
  (String.length (rstrip s) ≤ String.length s)%nat.
Proof.
  induction s as [|c s IH]; [done|]. cbn [rstrip].
  destruct (rstrip s) as [|c' r]; [destruct (isspace c)|];
    cbn [String.length] in *; lia.
Qed.

Lemma length_strip (s : string) :
  (String.length (strip s) ≤ String.length s)%nat.
Proof.
  unfold strip. pose proof (length_rstrip (lstrip s)).
  pose proof (length_lstrip s). lia.
Qed.

Lemma lstrip_all_space (s : string) :
  all_space s = true → lstrip s = EmptyString.
Proof.
  induction s as [|c s IH]; [done|]. cbn [all_space lstrip].
  destruct (isspace c); [|done]. exact IH.
Qed.

Lemma str_falsy_length (s : string) :
  str_falsy s = true ↔ String.length s = 0%nat.
Proof. by destruct s. Qed.

(** X9. [validate_user_input] accepts a query exactly when its stripped
    form has at least 5 characters and the query itself at most 500; an
    accepted query therefore has between 5 and 500 characters and comes
    with the empty message, a refused one with a message that is not
    empty; and a query of whitespace only is told to enter a goal, however
    long it is. *)
Theorem validate_user_input_spec (query : string) :
  (validate_user_input query = (true, EmptyString) ↔
   (5 ≤ String.length (strip query))%nat ∧ (String.length query ≤ 500)%nat) ∧
  (fst (validate_user_input query) = true →
   (5 ≤ String.length query ≤ 500)%nat ∧
   snd (validate_user_input query) = EmptyString) ∧
  (fst (validate_user_input query) = false →
   snd (validate_user_input query) ≠ EmptyString) ∧
  (all_space query = true →
   validate_user_input query = (false, "Please enter a running goal")).
Proof.
  pose proof (length_strip query) as Hlen.
  assert (all_space query = true →
          validate_user_input query = (false, "Please enter a running goal"))
    as Hblank.
  { intros Hsp. unfold validate_user_input, strip.
    rewrite (lstrip_all_space query Hsp). cbn. by rewrite orb_true_r. }
  unfold validate_user_input in *.
  destruct (str_falsy query) eqn:Hq; cbn [orb].
  { apply str_falsy_length in Hq.
    repeat split; try discriminate; try done; cbn; lia. }
  destruct (str_falsy (strip query)) eqn:Hs.
  { apply str_falsy_length in Hs.
    repeat split; try discriminate; try done; cbn; lia. }
  destruct (String.length (strip query) <? 5)%nat eqn:H5.
  { apply Nat.ltb_lt in H5.
    repeat split; try discriminate; try done; cbn; lia. }
  apply Nat.ltb_ge in H5.
  destruct (500 <? String.length query)%nat eqn:H500.
  { apply Nat.ltb_lt in H500.
    repeat split; try discriminate; try done; cbn; lia. }
  apply Nat.ltb_ge in H500.
  repeat split; try discriminate; try done; cbn; lia.
Qed.

Lemma validate_user_input_spec_witness :
  validate_user_input "  run a 10k in 8 weeks  " = (true, EmptyString) ∧
  validate_user_input "   run   " =
    (false, "Please provide a more detailed running goal").
Proof.
  split; [|reflexivity].
  apply (validate_user_input_spec "  run a 10k in 8 weeks  ").
  split; vm_compute; lia.
Defined.

(** * Weeks in a query *)

Lemma try_week_pattern_range (limit : nat) (query : string)
    (pattern : string → option string) (n : Z) :
  try_week_pattern limit query pattern = Some n →
  1 ≤ n ≤ 52 ∧
  ∃ group, re_search pattern (lower query) = Some group ∧
           int_of_str limit group = Ok n.
Proof.
  unfold try_week_pattern.
  destruct (re_search pattern (lower query)) as [group|]; [|discriminate].
  destruct (int_of_str limit group) as [weeks|e] eqn:Hint; [|discriminate].
  destruct (1 <=? weeks) eqn:H1; [|discriminate].
  destruct (weeks <=? 52) eqn:H52; [|discriminate].
  cbn. intros [= <-]. apply Z.leb_le in H1. apply Z.leb_le in H52.
  split; [lia|]. by exists group.
Qed.

Lemma first_week_range (limit : nat) (query : string)
    (patterns : list (string → option string)) (n : Z) :
  first_week limit query patterns = Some n →
  1 ≤ n ≤ 52 ∧
  ∃ pattern group, pattern ∈ patterns ∧
    re_search pattern (lower query) = Some group ∧
    int_of_str limit group = Ok n.
Proof.
  induction patterns as [|pattern patterns IH]; [discriminate|].
  cbn [first_week].
  destruct (try_week_pattern limit query pattern) as [weeks|] eqn:Htry.
  - intros [= <-].
    apply try_week_pattern_range in Htry as (Hr & group & Hs & Hi).
    split; [done|]. exists pattern, group. split; [left|done].
  - intros (Hr & pattern' & group & Hin & Hs & Hi)%IH.
    split; [done|]. exists pattern', group. split; [by right|done].
Qed.

(** X10. Whatever the query and the interpreter's limit on integer
    strings, a number [extract_weeks_from_query] returns lies between 1 and
    52 and is the value of the digits one of the three patterns matched in
    the lower-cased query; and for every number of that range the query
    made of the number followed by [" weeks"] gives it back. *)
Theorem extract_weeks_from_query_range (limit : nat) (query : string)
    (n : Z) :
  (extract_weeks_from_query limit query = Some n →
   1 ≤ n ≤ 52 ∧
   ∃ pattern group, pattern ∈ week_patterns ∧
     re_search pattern (lower query) = Some group ∧
     int_of_str limit group = Ok n) ∧
  (1 ≤ n ≤ 52 →
   extract_weeks_from_query limit (pretty n +:+ " weeks") = Some n).
Proof.
  split; [apply first_week_range|].
  intros Hn.
  assert (Forall (λ k, extract_weeks_from_query limit (pretty k +:+ " weeks")
                       = Some k)
            (seqZ 1 52)) as Hall.
  { refine (bool_decide_unpack _ _). vm_compute. exact I. }
  rewrite Forall_forall in Hall. apply Hall, elem_of_seqZ. lia.
Qed.

Lemma extract_weeks_from_query_range_witness :
  extract_weeks_from_query 4300 "100 weeks, or in 8 weeks" = Some 8 ∧
  extract_weeks_from_query 4300 "a 12-week plan" = Some 12 ∧
  extract_weeks_from_query 4300 "in 60 Weeks" = None ∧
  (1 ≤ 8 ≤ 52 ∧
   ∃ pattern group, pattern ∈ week_patterns ∧
     re_search pattern (lower "100 weeks, or in 8 weeks") = Some group ∧
     int_of_str 4300 group = Ok 8).
Proof.
  split; [reflexivity|]. split; [reflexivity|]. split; [reflexivity|].
  apply (extract_weeks_from_query_range 4300 "100 weeks, or in 8 weeks" 8).
  reflexivity.
Defined.

(** * Image files *)

Section ImageFilesFacts.

Variable fs : string → option FsEntry.
Variable pil_open : string → option Image.
Variable pil_verify : string → bool.

(** X11. [encode_image] returns the base64 text of a regular file and
    nothing else.  What it raises is either [FileNotFoundError] with the
    path in its message, and then the path does not exist and lies below
    no regular file, or a plain [Exception] whose message starts with
    ["Failed to encode image: "]; a directory, and a missing path below a
    regular file (where [open] raises [NotADirectoryError]), give the
    latter. *)
Theorem encode_image_spec (path : string) :
  (∀ text, encode_image fs path = Ok text ↔
           ∃ content, fs path = Some (RegularFile content) ∧
                      text = b64encode content) ∧
  (∀ e, encode_image fs path = Raise e →
        (e = FileNotFoundError ("Image file not found: " +:+ path) ∧
         fs path = None ∧ below_regular_file fs path = false) ∨
        (∃ message, e = Exception ("Failed to encode image: " +:+ message))) ∧
  (fs path = Some Directory ∨
   (fs path = None ∧ below_regular_file fs path = true) →
   ∃ message,
     encode_image fs path =
       Raise (Exception ("Failed to encode image: " +:+ message))).
Proof.
  unfold encode_image, try_except, read_bytes.
  destruct (fs path) as [[|content]|]; cbn.
  - split; [|split].
    + intros text. split; [discriminate|]. by intros (c & [=] & _).
    + intros e [= <-]. right. by eexists.
    + intros _. by eexists.
  - split; [|split].
    + intros text. split.
      * intros [= <-]. by exists content.
      * by intros (c & [= <-] & ->).
    + intros e. discriminate.
    + intros [[=]|[[=] _]].
  - destruct (below_regular_file fs path) eqn:Hbelow; cbn.
    + split; [|split].
      * intros text. split; [discriminate|]. by intros (c & [=] & _).
      * intros e [= <-]. right. by eexists.
      * intros _. by eexists.
    + split; [|split].
      * intros text. split; [discriminate|]. by intros (c & [=] & _).
      * intros e [= <-]. by left.
      * intros [[=]|[_ [=]]].
Qed.

(** X12. [get_image_info] never raises: it returns the size, format, mode
    and file size exactly when [Image.open] identifies the file, whether
    or not [verify()] would accept it, and the error entry otherwise.  So
    it can describe a file that [validate_image] refuses, and it describes
    every file that [validate_image] accepts. *)
Theorem get_image_info_spec (path : string) :
  (∃ info, get_image_info fs pil_open path = Ok info) ∧
  (∀ size format mode file_size,
     get_image_info fs pil_open path = Ok (Info size format mode file_size) ↔
     ∃ content img,
       fs path = Some (RegularFile content) ∧ pil_open content = Some img ∧
       size = img_size img ∧ format = img_format img ∧ mode = img_mode img ∧
       file_size = Z.of_nat (String.length content)) ∧
  (validate_image fs pil_open pil_verify path = Ok true →
   ∃ size format mode file_size,
     get_image_info fs pil_open path = Ok (Info size format mode file_size)).
Proof.
  split; [|split].
  - unfold get_image_info, try_except, Image_open, read_bytes.
    destruct (fs path) as [[|content]|]; cbn; eauto.
    + destruct (pil_open content); cbn; eauto.
    + destruct (below_regular_file fs path); cbn; eauto.
  - intros size format mode file_size.
    unfold get_image_info, try_except, Image_open, read_bytes.
    destruct (fs path) as [[|content]|]; cbn.
    + split; [discriminate|]. by intros (c & i & [=] & _).
    + destruct (pil_open content) as [img|] eqn:Hopen; cbn.
      * split.
        -- intros [= <- <- <- <-]. by exists content, img.
        -- intros (c & i & [= <-] & Hi & -> & -> & -> & ->).
           rewrite Hopen in Hi. by injection Hi as <-.
      * split; [discriminate|]. intros (c & i & [= <-] & Hi & _). congruence.
    + destruct (below_regular_file fs path); cbn;
        (split; [discriminate|]; by intros (c & i & [=] & _)).
  - intros Hvalid.
    destruct (prepare_of_valid fs pil_open pil_verify path Hvalid)
      as (content & img & _ & _ & Hinfo & _). eauto.
Qed.

(** X13. The image step of [main] leaves in [base64_image] the base64 text
    of the file when [validate_image] accepts it, and the empty string
    otherwise; its [except] branch is never needed.  The request built
    from it carries the query unchanged and always has an image part: the
    data URL [prepare_image_for_analysis] would build when the image is
    valid, and the bare prefix ["data:image/jpeg;base64,"] when there is
    no usable image. *)
Theorem main_request_image (user_query image_path : string) :
  req_input_text
    (create_structured_request user_query
       (main_base64_image fs pil_open pil_verify image_path)) = user_query ∧
  (validate_image fs pil_open pil_verify image_path = Ok true →
   ∃ content prepared,
     fs image_path = Some (RegularFile content) ∧
     main_base64_image fs pil_open pil_verify image_path = b64encode content ∧
     prepare_image_for_analysis fs pil_open pil_verify image_path = Ok prepared ∧
     req_image_url
       (create_structured_request user_query
          (main_base64_image fs pil_open pil_verify image_path)) =
       data_url prepared) ∧
  (validate_image fs pil_open pil_verify image_path = Ok false →
   main_base64_image fs pil_open pil_verify image_path = EmptyString ∧
   req_image_url
     (create_structured_request user_query
        (main_base64_image fs pil_open pil_verify image_path)) =
     "data:image/jpeg;base64,").
Proof.
  split; [done|]. split.
  - intros Hvalid.
    destruct (prepare_of_valid fs pil_open pil_verify image_path Hvalid)
      as (content & img & Hfs & _ & _ & Henc & Hprep).
    assert (main_base64_image fs pil_open pil_verify image_path =
              b64encode content) as Hb.
    { unfold main_base64_image. rewrite Hvalid. cbn. by rewrite Henc. }
    eexists content, _. split; [done|]. split; [done|].
    split; [exact Hprep|]. cbn. by rewrite Hb.
  - intros Hinvalid.
    assert (main_base64_image fs pil_open pil_verify image_path = EmptyString)
      as Hb by (unfold main_base64_image; by rewrite Hinvalid).
    split; [done|]. cbn. by rewrite Hb.
Qed.

(** X14. [create_multimodal_request] raises the "invalid image"
    [ValueError] exactly when [validate_image] returns [False]; otherwise
    it returns one message, with the query unchanged and the data URL of
    the file. *)
Theorem create_multimodal_request_spec (text_query image_path : string) :
  (validate_image fs pil_open pil_verify image_path = Ok false ↔
   create_multimodal_request fs pil_open pil_verify text_query image_path =
     Raise (ValueError ("Invalid or unreadable image: " +:+ image_path))) ∧
  (validate_image fs pil_open pil_verify image_path = Ok true ↔
   ∃ content,
     fs image_path = Some (RegularFile content) ∧
     create_multimodal_request fs pil_open pil_verify text_query image_path =
       Ok [(text_query, "data:image/jpeg;base64," +:+ b64encode content)]).
Proof.
  unfold create_multimodal_request.
  destruct (validate_image_returns fs pil_open pil_verify image_path)
    as [[|] Hb].
  - destruct (prepare_of_valid fs pil_open pil_verify image_path Hb)
      as (content & img & Hfs & _ & _ & _ & Hprep).
    rewrite Hprep, Hb. cbn. split; [split; discriminate|].
    split; [intros _; by exists content | done].
  - assert (prepare_image_for_analysis fs pil_open pil_verify image_path =
              Raise (ValueError ("Invalid or unreadable image: " +:+ image_path)))
      as Hprep by (unfold prepare_image_for_analysis; by rewrite Hb).
    rewrite Hprep, Hb. cbn. split; [done|].
    split; [discriminate|]. by intros (c & _ & [=]).
Qed.

End ImageFilesFacts.

Lemma encode_image_spec_witness :
  encode_image Samples.sample_fs "watch.png" = Ok "SU1HIWFiYw==" ∧
  encode_image Samples.sample_fs "missing.png" =
    Raise (FileNotFoundError "Image file not found: missing.png") ∧
  ∃ message,
    encode_image Samples.sample_fs "notes.txt/x" =
      Raise (Exception ("Failed to encode image: " +:+ message)).
Proof.
  split; [reflexivity|]. split; [reflexivity|].
  apply (encode_image_spec Samples.sample_fs "notes.txt/x").
  right. split; reflexivity.
Defined.

Lemma get_image_info_spec_witness :
  get_image_info Samples.sample_fs Samples.sample_pil_open "watch.png" =
    Ok (Info (2, 2) "PNG" "RGB" 7) ∧
  (∃ message,
     get_image_info Samples.sample_fs Samples.sample_pil_open "notes.txt" =
       Ok (InfoError message)) ∧
  ∃ size format mode file_size,
    get_image_info Samples.sample_fs Samples.sample_pil_open "watch.png" =
      Ok (Info size format mode file_size).
Proof.
  split; [reflexivity|]. split; [by eexists|].
  apply (get_image_info_spec Samples.sample_fs Samples.sample_pil_open
           Samples.sample_pil_verify "watch.png").
  reflexivity.
Defined.

Lemma main_request_image_witness :
  req_image_url
    (create_structured_request "run a 10k in 8 weeks"
       (main_base64_image Samples.sample_fs Samples.sample_pil_open
          Samples.sample_pil_verify "missing.png")) =
    "data:image/jpeg;base64," ∧
  req_image_url
    (create_structured_request "run a 10k in 8 weeks"
       (main_base64_image Samples.sample_fs Samples.sample_pil_open
          Samples.sample_pil_verify "watch.png")) =
    "data:image/jpeg;base64,SU1HIWFiYw==".
Proof.
  split; [|reflexivity].
  apply (main_request_image Samples.sample_fs Samples.sample_pil_open
           Samples.sample_pil_verify "run a 10k in 8 weeks" "missing.png").
  reflexivity.
Defined.

(** * The earlier store functions *)

(** X15. The store functions of [src/output_generators.py] do what those of
    [database.py] do and differ in how they answer: the earlier save
    returns [True] exactly when the later one returns an id and leaves the
    same store; for an id that fits the 64-bit INTEGER of SQLite the
    earlier load returns a plan exactly when the later one returns it, and
    raises (a [ValueError] naming the id when the plan does not exist)
    exactly when the later one returns [None].  For an id outside that
    range the earlier load raises the [OverflowError] of the binding. *)
Theorem earlier_store_functions_agree (now : string) (p : RunningPlan)
    (plan_id : Z) (st : Store) :
  (fst (Earlier.save_plan_to_db now p st) = true ↔
   is_Some (fst (save_plan_to_db now p st))) ∧
  snd (Earlier.save_plan_to_db now p st) = snd (save_plan_to_db now p st) ∧
  (- 2 ^ 63 ≤ plan_id < 2 ^ 63 →
   (∀ q, Earlier.load_plan_from_db plan_id st = Ok q ↔
         load_plan_from_db plan_id st = Some q) ∧
   ((∃ e, Earlier.load_plan_from_db plan_id st = Raise e) ↔
    load_plan_from_db plan_id st = None) ∧
   (∀ db, st = Ready db → select_running_plan plan_id db = None →
      Earlier.load_plan_from_db plan_id st =
        Raise (ValueError ("Plan with ID " +:+ pretty plan_id +:+ " not found")))) ∧
  (¬ (- 2 ^ 63 ≤ plan_id < 2 ^ 63) →
   ∀ db, st = Ready db →
     Earlier.load_plan_from_db plan_id st = Raise OverflowError).
Proof.
  split; [|split; [|split]].
  { unfold Earlier.save_plan_to_db, save_plan_to_db.
    destruct st as [| |db]; cbn [connect mbind mret Result_bind Result_ret].
    - split; [discriminate|]. by intros [? ?].
    - split; [discriminate|]. by intros [? ?].
    - destruct (save_plan now p db) as [id db']. cbn. split; eauto. }
  { unfold Earlier.save_plan_to_db, save_plan_to_db.
    destruct st as [| |db]; cbn [connect mbind mret Result_bind Result_ret];
      [done..|].
    by destruct (save_plan now p db). }
  { intros Hid%sqlite_integer_range.
    unfold Earlier.load_plan_from_db, load_plan_from_db, load_plan,
      bind_integer.
    rewrite Hid.
    destruct st as [| |db]; cbn [connect mbind mret Result_bind Result_ret].
    - split; [|split]; [split; discriminate | split; eauto | discriminate].
    - split; [|split]; [split; discriminate | split; eauto | discriminate].
    - destruct (select_running_plan plan_id db) as [[[m f] s]|] eqn:Hsel.
      + destruct (foldM add_row (select_daily_plans plan_id db) ∅) as [weeks|e];
          cbn.
        * split; [|split].
          -- intros q. split; by intros [= <-].
          -- split; [by intros [e [=]] | discriminate].
          -- intros db0 [= <-]. congruence.
        * split; [|split].
          -- intros q. split; discriminate.
          -- split; eauto.
          -- intros db0 [= <-]. congruence.
      + split; [|split].
        * intros q. split; discriminate.
        * split; eauto.
        * done. }
  intros Hid db ->. unfold Earlier.load_plan_from_db, bind_integer.
  destruct (sqlite_integer plan_id) eqn:Hb; [|done].
  by apply sqlite_integer_range in Hb.
Qed.

Lemma earlier_store_functions_agree_witness :
  Earlier.load_plan_from_db 7 Samples.store3 =
    Raise (ValueError "Plan with ID 7 not found") ∧
  Earlier.load_plan_from_db 1 Samples.store3 = Ok Samples.two_weeks_by_label ∧
  Earlier.load_plan_from_db (2 ^ 63) Samples.store3 = Raise OverflowError.
Proof.
  destruct (earlier_store_functions_agree "" Samples.no_weeks 7 Samples.store3)
    as (_ & _ & Hin & _).
  destruct Hin as (_ & _ & Hnf); [lia|].
  split; [|split; vm_compute; reflexivity].
  rewrite (Hnf (Samples.db_of Samples.store3)); [|reflexivity..].
  vm_compute. reflexivity.
Defined.

(** * The HTML document *)

Lemma fold_left_app_acc {A} (f : A → string) (l : list A) (h : string) :
  fold_left (λ h x, h +:+ f x) l h =
  h +:+ fold_left (λ h x, h +:+ f x) l EmptyString.
Proof.
  revert h. induction l as [|x l IH]; intros h.
  - cbn. by rewrite str_app_nil_r.
  - cbn [fold_left]. rewrite IH, (IH (EmptyString +:+ f x)).
    by rewrite str_app_nil_l, str_app_assoc.
Qed.

Lemma html_week_app (html : string) (w : Z * WeeklyPlan) :
  html_week html w = html +:+ html_week EmptyString w.
Proof.
  unfold html_week.
  rewrite (fold_left_app_acc html_day (snd w)).
  rewrite (fold_left_app_acc html_day (snd w) ((EmptyString +:+ _) +:+ _)).
  by rewrite !str_app_nil_l, !str_app_assoc.
Qed.

Lemma html_weeks_app (ws : list (Z * WeeklyPlan)) (html : string) :
  fold_left html_week ws html =
  html +:+ fold_left html_week ws EmptyString.
Proof.
  revert html. induction ws as [|w ws IH]; intros html.
  - cbn. by rewrite str_app_nil_r.
  - cbn [fold_left].
    rewrite IH, (IH (html_week EmptyString w)), (html_week_app html w).
    by rewrite str_app_assoc.
Qed.

Lemma occurs_in_html_weeks_block (s : string) (ws : list (Z * WeeklyPlan))
    (w : Z * WeeklyPlan) (html : string) :
  w ∈ ws → occurs_in s (html_week EmptyString w) →
  occurs_in s (fold_left html_week ws html).
Proof.
  revert html. induction ws as [|w0 ws IH]; intros html Hw Hs.
  - by apply not_elem_of_nil in Hw.
  - cbn [fold_left]. apply elem_of_cons in Hw as [<-|Hw].
    + apply occurs_in_html_weeks. left.
      rewrite html_week_app. by apply occurs_in_app_l.
    + by apply IH.
Qed.

Lemma enumerate_lookup {A} (start : Z) (l : list A) (i : nat) (x : A) :
  l !! i = Some x → (start + Z.of_nat i, x) ∈ enumerate start l.
Proof.
  revert start i. induction l as [|y l IH]; intros start i Hi; [done|].
  destruct i as [|i]; cbn [enumerate].
  - injection Hi as ->. rewrite Z.add_0_r. left.
  - right. replace (start + Z.of_nat (S i)) with (start + 1 + Z.of_nat i) by lia.
    by apply IH.
Qed.

(** X16. The document [generate_html_training_plan] returns always starts
    with the same head and the header of the plan and ends with the same
    closing tags; a plan without weeks gives just these around the empty
    grid; and the week at position [i] (from 0) of the plan is announced by
    the heading ["Week"] followed by [i + 1]. *)
Theorem generate_html_document (p : RunningPlan) :
  (∃ weeks_html,
     generate_html_training_plan p =
       html_head +:+ html_header p +:+
       fstring ["<div class="; dq; "week-grid"; dq; ">"] +:+
       weeks_html +:+ html_close) ∧
  (plan p = [] →
   generate_html_training_plan p =
     html_head +:+ html_header p +:+
     fstring ["<div class="; dq; "week-grid"; dq; ">"] +:+ html_close) ∧
  (∀ i week, plan p !! i = Some week →
     occurs_in
       (fstring ["    <div class="; dq; "week"; dq; ">\n";
                 "      <h2>Week "; pretty (1 + Z.of_nat i); "</h2>\n"])
       (generate_html_training_plan p)).
Proof.
  split; [|split].
  - exists (fold_left html_week (enumerate 1 (plan p)) EmptyString).
    unfold generate_html_training_plan.
    by rewrite html_weeks_app, !str_app_assoc.
  - intros Hp. unfold generate_html_training_plan. rewrite Hp. cbn [enumerate fold_left].
    by rewrite !str_app_assoc.
  - intros i week Hi. unfold generate_html_training_plan.
    apply occurs_in_app_r.
    apply (occurs_in_html_weeks_block _ _ (1 + Z.of_nat i, week));
      [by apply enumerate_lookup|].
    unfold html_week. cbn [fst snd].
    apply occurs_in_app_r, occurs_in_html_days. left.
    rewrite str_app_nil_l.
    exists EmptyString, EmptyString.
    rewrite str_app_nil_l, str_app_nil_r.
    cbn [fstring foldr]. by rewrite !str_app_nil_r, !str_app_assoc.
Qed.

Lemma generate_html_document_witness :
  occurs_in
    (fstring ["    <div class="; dq; "week"; dq; ">\n";
              "      <h2>Week "; "2"; "</h2>\n"])
    (generate_html_training_plan Samples.two_weeks) ∧
  generate_html_training_plan Samples.no_weeks =
    html_head +:+ html_header Samples.no_weeks +:+
    fstring ["<div class="; dq; "week-grid"; dq; ">"] +:+ html_close.
Proof.
  destruct (generate_html_document Samples.two_weeks) as (_ & _ & Hweek).
  destruct (generate_html_document Samples.no_weeks) as (_ & Hempty & _).
  split; [|by apply Hempty].
  exact (Hweek 1%nat [Samples.monday; Samples.friday] eq_refl).
Defined.

(** * Round trips that keep the order *)

Lemma StronglySorted_label_inj (week : list DailyPlan) (x y : DailyPlan) :
  StronglySorted (λ d1 d2, String.le (day d1) (day d2) ∧ day d1 ≠ day d2) week →
  x ∈ week → y ∈ week → day x = day y → x = y.
Proof.
  induction 1 as [|d week Hs IH Hd]; intros Hx Hy Heq.
  - by apply not_elem_of_nil in Hx.
  - rewrite Forall_forall in Hd.
    apply elem_of_cons in Hx as [->|Hx]; apply elem_of_cons in Hy as [->|Hy].
    + done.
    + destruct (Hd y Hy) as [_ Hne]. by destruct Hne.
    + destruct (Hd x Hx) as [_ Hne]. by destruct Hne.
    + by apply IH.
Qed.

Lemma StronglySorted_weaken {A} (R R' : relation A) (l : list A) :
  (∀ x y, R x y → R' x y) → StronglySorted R l → StronglySorted R' l.
Proof.
  intros Himp. induction 1 as [|x l Hs IH Hx]; constructor; [done|].
  eapply Forall_impl; [exact Hx|]. apply Himp.
Qed.

(** A week sorted by label with distinct labels has one arrangement. *)
Lemma sorted_week_unique (week' week : list DailyPlan) :
  week' ≡ₚ week →
  StronglySorted (λ d1 d2, String.le (day d1) (day d2)) week' →
  StronglySorted (λ d1 d2, String.le (day d1) (day d2) ∧ day d1 ≠ day d2) week →
  week' = week.
Proof.
  intros Hperm Hs' Hs.
  apply (StronglySorted_unique_strong
           (λ d1 d2, String.le (day d1) (day d2))); [|done| |done].
  - intros x1 x2 Hx1 Hx2 H12 H21.
    apply (StronglySorted_label_inj week); [done| by rewrite <- Hperm |done|].
    by apply (anti_symm String.le).
  - eapply StronglySorted_weaken; [|exact Hs]. by intros x y [? _].
Qed.

(** What load returns after save, before the order is looked at. *)
Lemma save_then_load_weeks (now : string) (p : RunningPlan) (db : DB) :
  db_wf db →
  validate_plan_structure (obj_of_plan p) = true →
  ∃ weeks',
    load_plan (fst (save_plan now p db)) (snd (save_plan now p db)) =
      Ok (Some {| motivation := motivation p; feedback := feedback p;
                  supplement_suggestion := supplement_suggestion p;
                  plan := weeks' |}) ∧
    Forall2 (λ week' week,
               week' ≡ₚ week ∧
               StronglySorted (λ d1 d2, String.le (day d1) (day d2)) week')
      weeks' (plan p).
Proof.
  intros Hwf Hvalid.
  destruct (save_plan_spec now p db Hwf) as (Hid & Hwf' & Hsel & Hj).
  destruct (save_plan now p db) as [plan_id db'] eqn:Hsave.
  cbn [fst snd] in *.
  assert (select_daily_plans plan_id db' ≡ₚ plan_rows 1 (plan p)) as Hrows.
  { by rewrite select_daily_plans_perm, Hj. }
  assert (Forall (λ row, is_Some (daily_of_row row))
            (select_daily_plans plan_id db')) as Hall.
  { rewrite Hrows. apply plan_rows_daily. }
  destruct (foldM_add_row_Ok _ ∅ Hall) as [weeks Hfold].
  exists (plan_weeks weeks).
  assert (load_plan plan_id db' =
            Ok (Some {| motivation := motivation p; feedback := feedback p;
                        supplement_suggestion := supplement_suggestion p;
                        plan := plan_weeks weeks |})) as Hload.
  { unfold load_plan. by rewrite Hsel, Hfold. }
  split; [done|].
  destruct (load_plan_shape _ _ _ Hload)
    as (_ & _ & week_nums & Hsorted & Hmem & Hplan).
  cbn [plan] in Hplan.
  pose proof (validate_weeks_nonempty p Hvalid) as Hne.
  assert (week_nums = seqZ 1 (Z.of_nat (length (plan p)))) as ->.
  { apply StronglySorted_lt_unique; [done|apply seqZ_sorted|].
    intros w. rewrite Hmem, Hj, (plan_rows_week_numbers 1 (plan p) w Hne).
    by rewrite elem_of_seqZ. }
  rewrite Hplan. apply Forall2_fmap_l, Forall2_same_length_lookup_2.
  { by rewrite length_seqZ, Nat2Z.id. }
  intros i w week Hw Hweek. apply lookup_seqZ in Hw as [-> _].
  split.
  - rewrite <- (days_of_week_plan_rows 1 (plan p) i week Hweek).
    unfold days_of_week. by rewrite Hrows.
  - apply days_of_week_sorted, select_daily_plans_sorted.
Qed.

(** X17. When the days of every week of a valid plan are in the order of
    their labels and no week has a label twice, saving the plan into a
    well-formed database and loading the returned id gives back the plan
    itself, order included. *)
Theorem save_then_load_sorted_plan (now : string) (p : RunningPlan) (db : DB) :
  db_wf db →
  validate_plan_structure (obj_of_plan p) = true →
  Forall (StronglySorted
            (λ d1 d2, String.le (day d1) (day d2) ∧ day d1 ≠ day d2)) (plan p) →
  ∃ plan_id db',
    save_plan_to_db now p (Ready db) = (Some plan_id, Ready db') ∧
    load_plan_from_db plan_id (Ready db') = Some p.
Proof.
  intros Hwf Hvalid Hsorted.
  exists (fst (save_plan now p db)), (snd (save_plan now p db)).
  split; [apply save_plan_to_db_Ready|].
  destruct (save_then_load_weeks now p db Hwf Hvalid) as (weeks' & Hload & Hweeks).
  apply load_plan_from_db_Some. rewrite Hload.
  assert (weeks' = plan p) as ->; [|by destruct p].
  clear Hload. induction Hweeks as [|week' week weeks' weeks [Hperm Hs'] _ IH].
  - done.
  - apply Forall_cons in Hsorted as [Hs Hsorted].
    f_equal; [by apply sorted_week_unique | by apply IH].
Qed.

Lemma save_then_load_sorted_plan_witness :
  ∃ plan_id db',
    save_plan_to_db "2026-11-04 06:00:00" Samples.two_weeks_by_label
      (Ready empty_db) = (Some plan_id, Ready db') ∧
    load_plan_from_db plan_id (Ready db') = Some Samples.two_weeks_by_label.
Proof.
  apply (save_then_load_sorted_plan "2026-11-04 06:00:00"
           Samples.two_weeks_by_label empty_db).
  - exact db_wf_empty.
  - reflexivity.
  - repeat constructor; (try by vm_compute); discriminate.
Defined.

(** * Plans that come back from the store *)

Lemma plan_invariants_obj_of_plan (p : RunningPlan) :
  validate_plan_structure (obj_of_plan p) = true ↔
  plan p ≠ [] ∧ Forall (λ week, week ≠ []) (plan p).
Proof.
  rewrite validate_plan_structure_iff. unfold plan_invariants. cbn. split.
  - intros (Hp & Hne & _). split.
    + intros Heq. by rewrite Heq in Hp.
    + apply Forall_forall. intros week Hweek ->.
      apply (Hne []); [|done].
      change [] with (obj_of_day <$> []).
      by apply (list_elem_of_fmap_2 (fmap obj_of_day)).
  - intros [Hp Hne]. rewrite Forall_forall in Hne. split; [|split].
    + by destruct (plan p).
    + intros week (w & -> & Hw)%list_elem_of_fmap Heq.
      apply (Hne w Hw). by destruct w.
    + intros week d mt (w & -> & Hw)%list_elem_of_fmap
        (d0 & -> & Hd)%list_elem_of_fmap.
      destruct mt; cbn; eauto.
Qed.

Lemma days_of_week_nonempty (rows : list joined_row) (w : Z) (row : joined_row) :
  Forall (λ row, is_Some (daily_of_row row)) rows →
  row ∈ rows → jr_week_number row = w → days_of_week rows w ≠ [].
Proof.
  intros Hall Hrow Hw Hnil. rewrite Forall_forall in Hall.
  destruct (Hall row Hrow) as [d Hd].
  assert (d ∈ days_of_week rows w) as Hin.
  { apply list_elem_of_omap. exists row. split; [|done].
    by apply list_elem_of_filter. }
  rewrite Hnil in Hin. by apply not_elem_of_nil in Hin.
Qed.

(** X18. A plan [load_plan_from_db] returns never has a week without days:
    it has weeks exactly when some [daily_plan] row belongs to the id, and
    it passes [validate_plan_structure] exactly then. *)
Theorem loaded_plan_has_no_empty_week (plan_id : Z) (db : DB) (p : RunningPlan) :
  load_plan_from_db plan_id (Ready db) = Some p →
  Forall (λ week, week ≠ []) (plan p) ∧
  (plan p ≠ [] ↔
   ∃ dp, dp ∈ daily_plan db ∧ dp_running_plan_id dp = plan_id) ∧
  (validate_plan_structure (obj_of_plan p) = true ↔ plan p ≠ []).
Proof.
  intros Hload%load_plan_from_db_Some.
  apply load_plan_shape in Hload as (_ & Hall & week_nums & _ & Hmem & Hplan).
  assert (Forall (λ week, week ≠ []) (plan p)) as Hne.
  { rewrite Hplan. apply Forall_fmap, Forall_forall. intros w Hw. cbn.
    apply Hmem in Hw as (row & Hrow & Hrw).
    apply (days_of_week_nonempty _ _ row); [done| |done].
    by rewrite select_daily_plans_perm. }
  split; [done|]. split.
  - rewrite Hplan. split.
    + intros Hnn. destruct week_nums as [|w ws]; [done|].
      destruct (proj1 (Hmem w)) as (row & Hrow & Hw); [left|].
      destruct (proj1 (joined_week_numbers plan_id db w))
        as (dp & Hdp & Hid & _); eauto.
    + intros (dp & Hdp & Hid) Hnil.
      destruct (proj2 (joined_week_numbers plan_id db (dp_week_number dp)))
        as (row & Hrow & Hw); [eauto|].
      assert (dp_week_number dp ∈ week_nums) as Hin by (apply Hmem; eauto).
      apply fmap_nil_inv in Hnil. rewrite Hnil in Hin.
      by apply not_elem_of_nil in Hin.
  - rewrite plan_invariants_obj_of_plan. tauto.
Qed.

Lemma loaded_plan_has_no_empty_week_witness :
  Forall (λ week, week ≠ []) (plan Samples.two_weeks_by_label) ∧
  (plan Samples.two_weeks_by_label ≠ [] ↔
   ∃ dp, dp ∈ daily_plan (Samples.db_of Samples.store3) ∧
         dp_running_plan_id dp = 1) ∧
  (validate_plan_structure (obj_of_plan Samples.two_weeks_by_label) = true ↔
   plan Samples.two_weeks_by_label ≠ []).
Proof.
  apply (loaded_plan_has_no_empty_week 1 (Samples.db_of Samples.store3)).
  vm_compute. reflexivity.
Defined.

(** * Weeks without days *)

Lemma enumerate_fst_ge {A} (start : Z) (l : list A) (w : Z) (x : A) :
  (w, x) ∈ enumerate start l → start ≤ w.
Proof.
  revert start. induction l as [|y l IH]; intros start Hin.
  - by apply not_elem_of_nil in Hin.
  - cbn [enumerate] in Hin. apply elem_of_cons in Hin as [[= -> ->]|Hin]; [lia|].
    apply IH in Hin. lia.
Qed.

Lemma nonempty_week_numbers_ge (start : Z) (weeks : list WeeklyPlan) (w : Z) :
  w ∈ (filter (λ wk : Z * WeeklyPlan, wk.2 ≠ []) (enumerate start weeks)).*1 →
  start ≤ w.
Proof.
  intros ([w' week] & -> & Hin)%list_elem_of_fmap.
  apply list_elem_of_filter in Hin as [_ Hin]. by apply enumerate_fst_ge in Hin.
Qed.

Lemma nonempty_week_numbers_sorted (start : Z) (weeks : list WeeklyPlan) :
  StronglySorted Z.lt
    (filter (λ wk : Z * WeeklyPlan, wk.2 ≠ []) (enumerate start weeks)).*1.
Proof.
  revert start. induction weeks as [|week weeks IH]; intros start; [constructor|].
  cbn [enumerate]. rewrite filter_cons.
  destruct (decide ((start, week).2 ≠ [])); [|apply IH].
  rewrite fmap_cons. constructor; [apply IH|].
  apply Forall_forall. intros w Hw%nonempty_week_numbers_ge. cbn. lia.
Qed.

Lemma plan_rows_nonempty_week_numbers (start : Z) (weeks : list WeeklyPlan)
    (w : Z) :
  (∃ row, row ∈ plan_rows start weeks ∧ jr_week_number row = w) ↔
  w ∈ (filter (λ wk : Z * WeeklyPlan, wk.2 ≠ []) (enumerate start weeks)).*1.
Proof.
  revert start. induction weeks as [|week weeks IH]; intros start.
  - cbn. split.
    + intros (row & Hrow & _). by apply not_elem_of_nil in Hrow.
    + intros Hin. by apply not_elem_of_nil in Hin.
  - cbn [plan_rows enumerate]. rewrite filter_cons. split.
    + intros (row & Hrow & <-). apply elem_of_app in Hrow as [Hrow|Hrow].
      * apply list_elem_of_fmap in Hrow as (d & -> & Hd).
        rewrite decide_True; [rewrite fmap_cons; left|].
        cbn. intros ->. by apply not_elem_of_nil in Hd.
      * assert (jr_week_number row ∈
                  (filter (λ wk : Z * WeeklyPlan, wk.2 ≠ [])
                     (enumerate (start + 1) weeks)).*1) as Hin
          by (apply IH; eauto).
        destruct (decide ((start, week).2 ≠ [])); [rewrite fmap_cons; by right|done].
    + intros Hin. destruct (decide ((start, week).2 ≠ [])) as [Hne|Hne].
      * rewrite fmap_cons in Hin. apply elem_of_cons in Hin as [->|Hin].
        -- cbn in Hne. destruct week as [|d week]; [done|].
           exists (row_of_daily start d). split; [|done].
           apply elem_of_app. left. rewrite fmap_cons. left.
        -- apply IH in Hin as (row & Hrow & Hw). exists row.
           split; [|done]. apply elem_of_app. by right.
      * apply IH in Hin as (row & Hrow & Hw). exists row.
        split; [|done]. apply elem_of_app. by right.
Qed.

Lemma days_of_nonempty_weeks (start : Z) (weeks : list WeeklyPlan) :
  Forall2 (λ w week, start ≤ w ∧ days_of_week (plan_rows start weeks) w = week)
    (filter (λ wk : Z * WeeklyPlan, wk.2 ≠ []) (enumerate start weeks)).*1
    (filter (λ week, week ≠ []) weeks).
Proof.
  revert start. induction weeks as [|week weeks IH]; intros start; [constructor|].
  cbn [plan_rows enumerate]. rewrite !filter_cons. cbn [snd].
  assert (Forall2
            (λ w week0, start ≤ w ∧
               days_of_week ((row_of_daily start <$> week) ++
                             plan_rows (start + 1) weeks) w = week0)
            (filter (λ wk : Z * WeeklyPlan, wk.2 ≠ [])
               (enumerate (start + 1) weeks)).*1
            (filter (λ week0, week0 ≠ []) weeks)) as Htail.
  { eapply Forall2_impl; [apply IH|]. cbn. intros w week0 [Hle Hdays].
    split; [lia|]. rewrite days_of_week_app, days_of_week_other; [done|].
    intros row (d & -> & _)%list_elem_of_fmap. cbn. lia. }
  destruct (decide (week = [])) as [Heq|Hne].
  { rewrite !decide_False by (intros Hn; by apply Hn). done. }
  rewrite !decide_True by done.
  rewrite fmap_cons. constructor; [|done].
  split; [cbn; lia|]. cbn [fst].
  rewrite days_of_week_app, days_of_week_same, days_of_week_other;
    [by rewrite app_nil_r|].
  intros row Hrow%plan_rows_ge. lia.
Qed.

(** X19. Whatever the plan, valid or not: saved into a well-formed database
    and loaded again, it comes back with its three text fields and with
    its weeks that have days, in their order, each holding the same day
    records; the weeks without days are gone, so the weeks after them move
    up. *)
Theorem save_then_load_drops_empty_weeks (now : string) (p : RunningPlan)
    (db : DB) :
  db_wf db →
  ∃ plan_id db' p',
    save_plan_to_db now p (Ready db) = (Some plan_id, Ready db') ∧
    load_plan_from_db plan_id (Ready db') = Some p' ∧
    motivation p' = motivation p ∧
    feedback p' = feedback p ∧
    supplement_suggestion p' = supplement_suggestion p ∧
    Forall2 (λ week' week, week' ≡ₚ week)
      (plan p') (filter (λ week, week ≠ []) (plan p)).
Proof.
  intros Hwf.
  exists (fst (save_plan now p db)), (snd (save_plan now p db)).
  destruct (save_plan_spec now p db Hwf) as (Hid & Hwf' & Hsel & Hj).
  set (plan_id := fst (save_plan now p db)) in *.
  set (db' := snd (save_plan now p db)) in *.
  assert (select_daily_plans plan_id db' ≡ₚ plan_rows 1 (plan p)) as Hrows.
  { by rewrite select_daily_plans_perm, Hj. }
  assert (Forall (λ row, is_Some (daily_of_row row))
            (select_daily_plans plan_id db')) as Hall.
  { rewrite Hrows. apply plan_rows_daily. }
  destruct (foldM_add_row_Ok _ ∅ Hall) as [weeks Hfold].
  set (p' := {| motivation := motivation p; feedback := feedback p;
                supplement_suggestion := supplement_suggestion p;
                plan := plan_weeks weeks |}).
  assert (load_plan plan_id db' = Ok (Some p')) as Hload.
  { unfold load_plan. by rewrite Hsel, Hfold. }
  exists p'. split; [apply save_plan_to_db_Ready|].
  split; [by apply load_plan_from_db_Some|].
  split; [done|]. split; [done|]. split; [done|].
  destruct (load_plan_shape _ _ _ Hload)
    as (_ & _ & week_nums & Hsorted & Hmem & Hplan).
  assert (week_nums =
            (filter (λ wk : Z * WeeklyPlan, wk.2 ≠ []) (enumerate 1 (plan p))).*1)
    as ->.
  { apply StronglySorted_lt_unique;
      [done|apply nonempty_week_numbers_sorted|].
    intros w. by rewrite Hmem, Hj, plan_rows_nonempty_week_numbers. }
  rewrite Hplan. apply Forall2_fmap_l.
  eapply Forall2_impl; [apply (days_of_nonempty_weeks 1 (plan p))|].
  intros w week [_ Hd]. hnf. rewrite <- Hd.
  unfold days_of_week. by rewrite Hrows.
Qed.

Lemma save_then_load_drops_empty_weeks_witness :
  ∃ plan_id db' p',
    save_plan_to_db "2026-11-04 06:00:00"
      {| motivation := "m"; feedback := "f"; supplement_suggestion := "s";
         plan := [[Samples.monday]; []; [Samples.friday]] |}
      (Ready empty_db) = (Some plan_id, Ready db') ∧
    load_plan_from_db plan_id (Ready db') = Some p' ∧
    motivation p' = "m" ∧ feedback p' = "f" ∧ supplement_suggestion p' = "s" ∧
    Forall2 (λ week' week, week' ≡ₚ week)
      (plan p') [[Samples.monday]; [Samples.friday]].
Proof.
  apply (save_then_load_drops_empty_weeks "2026-11-04 06:00:00"
           {| motivation := "m"; feedback := "f"; supplement_suggestion := "s";
              plan := [[Samples.monday]; []; [Samples.friday]] |} empty_db).
  exact db_wf_empty.
Defined.

(** * Listing after a save *)

(** X20. After [save_plan_to_db], [list_all_plans] has one summary more,
    among them the one of the new plan with its id, its motivation cut to
    50 characters and its timestamp; when that timestamp is later than
    every stored one, the new plan is the first of the list. *)
Theorem save_then_list (now : string) (p : RunningPlan) (db : DB) :
  ∃ plan_id db',
    save_plan_to_db now p (Ready db) = (Some plan_id, Ready db') ∧
    length (list_all_plans (Ready db')) =
      S (length (list_all_plans (Ready db))) ∧
    {| summary_id := plan_id;
       summary_motivation := truncate_motivation (motivation p);
       summary_created_at := now |} ∈ list_all_plans (Ready db') ∧
    ((∀ r, r ∈ running_plan db →
           String.le (rp_created_at r) now ∧ rp_created_at r ≠ now) →
     head (list_all_plans (Ready db')) =
       Some {| summary_id := plan_id;
               summary_motivation := truncate_motivation (motivation p);
               summary_created_at := now |}).
Proof.
  exists (fst (save_plan now p db)), (snd (save_plan now p db)).
  split; [apply save_plan_to_db_Ready|].
  destruct (save_plan_extends now p db) as (_ & _ & Hrows & _).
  rewrite save_plan_unfold in *. cbn [fst snd] in *.
  set (db' := cur_db (fold_left _ _ _)) in *.
  cbn in Hrows.
  set (row := mk_running_plan_row (seq_running_plan db + 1) (motivation p)
                (feedback p) (supplement_suggestion p) now) in *.
  unfold list_all_plans. cbn [connect].
  set (sorted := merge_sort order_by_created_at_desc (running_plan db')).
  assert (sorted ≡ₚ running_plan db ++ [row]) as Hperm.
  { unfold sorted. by rewrite merge_sort_Permutation, Hrows. }
  assert (row ∈ sorted) as Hin.
  { rewrite Hperm. apply elem_of_app. right. left. }
  split; [|split].
  - rewrite !length_fmap, merge_sort_Permutation. fold sorted.
    rewrite Hperm, length_app. cbn. lia.
  - by apply (list_elem_of_fmap_2 summarize) in Hin.
  - intros Hlater.
    assert (StronglySorted order_by_created_at_desc sorted) as Hs
      by apply (StronglySorted_merge_sort order_by_created_at_desc).
    destruct sorted as [|h t]; [by apply not_elem_of_nil in Hin|].
    cbn. f_equal.
    assert (h ∈ running_plan db ++ [row]) as Hh by (rewrite <- Hperm; left).
    apply elem_of_app in Hh as [Hold|Hnew].
    + exfalso. destruct (Hlater h Hold) as [Hle Hne].
      apply elem_of_cons in Hin as [Heq|Hin]; [apply Hne; by rewrite <- Heq|].
      apply StronglySorted_cons in Hs as [Hall _].
      rewrite Forall_forall in Hall. specialize (Hall row Hin).
      unfold order_by_created_at_desc in Hall. cbn in Hall.
      apply Hne. by apply (anti_symm String.le).
    + by apply list_elem_of_singleton in Hnew as ->.
Qed.

Lemma save_then_list_witness :
  ∃ plan_id db',
    save_plan_to_db "2026-11-04 06:00:00" Samples.two_weeks Samples.store3 =
      (Some plan_id, Ready db') ∧
    length (list_all_plans (Ready db')) =
      S (length (list_all_plans Samples.store3)) ∧
    head (list_all_plans (Ready db')) =
      Some {| summary_id := plan_id;
              summary_motivation := "You can do it";
              summary_created_at := "2026-11-04 06:00:00" |}.
Proof.
  destruct (save_then_list "2026-11-04 06:00:00" Samples.two_weeks
              (Samples.db_of Samples.store3))
    as (plan_id & db' & Hsave & Hlen & _ & Hhead).
  exists plan_id, db'. split; [exact Hsave|]. split; [exact Hlen|].
  apply Hhead. apply Forall_forall. vm_compute.
  repeat constructor; discriminate.
Defined.

(** * Reading the goal *)

Lemma rstrip_idemp (s : string) : rstrip (rstrip s) = rstrip s.
Proof.
  induction s as [|c s IH]; [done|]. cbn [rstrip].
  destruct (rstrip s) as [|c' r] eqn:Hr.
  - destruct (isspace c) eqn:Hc; [done|]. cbn [rstrip]. by rewrite Hc.
  - cbn [rstrip] in IH |- *. by rewrite IH.
Qed.

Lemma lstrip_rstrip_lstrip (s : string) :
  lstrip (rstrip (lstrip s)) = rstrip (lstrip s).
Proof.
  assert (lstrip s = EmptyString ∨
          ∃ c t, lstrip s = String c t ∧ isspace c = false) as [->|(c & t & -> & Hc)].
  { induction s as [|c s IH]; [by left|]. cbn [lstrip].
    destruct (isspace c) eqn:Hc; [done|]. right. eauto. }
  - done.
  - cbn [rstrip]. destruct (rstrip t); [rewrite Hc|]; cbn [lstrip]; by rewrite Hc.
Qed.

Lemma strip_idemp (s : string) : strip (strip s) = strip s.
Proof. unfold strip. by rewrite lstrip_rstrip_lstrip, rstrip_idemp. Qed.

Lemma validate_user_input_accepts (query : string) :
  fst (validate_user_input query) = true →
  validate_user_input query = (true, EmptyString) ∧
  (5 ≤ String.length query ≤ 500)%nat.
Proof.
  pose proof (length_strip query) as Hlen. unfold validate_user_input.
  destruct (str_falsy query || str_falsy (strip query)); [discriminate|].
  destruct (String.length (strip query) <? 5)%nat eqn:H5; [discriminate|].
  destruct (500 <? String.length query)%nat eqn:H500; [discriminate|].
  apply Nat.ltb_ge in H5. apply Nat.ltb_ge in H500. intros _. split; [done|lia].
Qed.

(** X22. The goal the loop of [main] settles on is the first typed line
    whose stripped form [validate_user_input] accepts: it is that stripped
    form, it has between 5 and 500 characters and no whitespace at either
    end, and one error message was printed for each line before it, each
    the message of that line's refusal. *)
Theorem read_goal_spec (lines : list string) (goal : string)
    (errors : list string) :
  read_goal lines = Some (goal, errors) →
  ∃ line,
    lines !! length errors = Some line ∧
    goal = strip line ∧
    validate_user_input goal = (true, EmptyString) ∧
    strip goal = goal ∧
    (5 ≤ String.length goal ≤ 500)%nat ∧
    ∀ j line', (j < length errors)%nat → lines !! j = Some line' →
      fst (validate_user_input (strip line')) = false ∧
      errors !! j = Some (snd (validate_user_input (strip line'))).
Proof.
  revert goal errors. induction lines as [|line lines IH]; intros goal errors;
    [discriminate|].
  cbn [read_goal].
  destruct (validate_user_input (strip line)) as [is_valid msg] eqn:Hv.
  destruct is_valid.
  - intros [= <- <-]. exists line.
    destruct (validate_user_input_accepts (strip line)) as [Hacc Hlen];
      [by rewrite Hv|].
    split; [done|]. split; [done|]. split; [done|].
    split; [apply strip_idemp|]. split; [done|].
    intros j line' Hj. cbn in Hj. lia.
  - destruct (read_goal lines) as [[goal' errors']|] eqn:Hrest; [|discriminate].
    intros [= <- <-].
    destruct (IH goal' errors' eq_refl) as (l & Hl & Hg & Hacc & Hs & Hlen & Hprev).
    exists l. split; [done|]. split; [done|]. split; [done|].
    split; [done|]. split; [done|].
    intros [|j] line' Hj Hline'.
    + injection Hline' as <-. by rewrite Hv.
    + apply Hprev; [cbn in Hj; lia|done].
Qed.

Lemma read_goal_spec_witness :
  read_goal [""; "  run "; "  run a 10k in 8 weeks  "; "ignored"] =
    Some ("run a 10k in 8 weeks",
          ["Please enter a running goal";
           "Please provide a more detailed running goal"]) ∧
  ∃ line,
    [""; "  run "; "  run a 10k in 8 weeks  "; "ignored"] !! 2%nat = Some line ∧
    "run a 10k in 8 weeks" = strip line ∧
    strip "run a 10k in 8 weeks" = "run a 10k in 8 weeks".
Proof.
  assert (read_goal [""; "  run "; "  run a 10k in 8 weeks  "; "ignored"] =
            Some ("run a 10k in 8 weeks",
                  ["Please enter a running goal";
                   "Please provide a more detailed running goal"])) as Hread
    by reflexivity.
  split; [exact Hread|].
  destruct (read_goal_spec _ _ _ Hread) as (line & Hl & Hg & _ & Hs & _).
  exists line. done.
Defined.
